(** * Verano: device protocol and workout-state engine

    A shallow embedding of the parts of the Vitruvian web-control client
    that its specification talks about:

    - [protocol.js] / [modes.js]: the frame builders ([buildProgramParams],
      [getModeProfile], ...),
    - [device.js]: the monitor decoder with its spike filter
      ([parseMonitorData]) and the GATT operation queue
      ([queueGattOperation], [processGattQueue]),
    - [hooks/useWorkout.ts]: the rep-detection and auto-stop engine
      ([handleRepNotification], [handleMonitorSample], [checkAutoStop], ...).

    Conventions.
    - A [Uint8Array] is a [list byte]; a byte's numeric value is [byteVal].
    - JS numbers that the code only uses as integers (positions, counters,
      repetition counts, millisecond clocks) are [Z]; numbers with a
      fractional part (loads, weights, progress) are exact rationals [Q].
    - [Date.now()] and [new Date()] are an explicit argument [now] (in ms).
    - A thrown exception is the [Throw] case of [Completion].
    - [addLog] is recorded as an [Effect].  The callbacks [onAutoStop]
      and [onWorkoutComplete] are parameters of the handlers
      ([Callbacks]); [appCallbacks] are the ones [App.tsx] passes, the
      second of which runs [completeWorkout].
    - A handler is a closure of the render that created it.  The state
      values it reads ([currentWorkout], [warmupReps], [workingReps],
      [stopAtTop], [isJustLiftMode], [maxPos], ...) are those of that
      render, the argument [c] of the handlers named [...With]; refs and
      state setters act on the live state.
    - The handlers without that argument ([handleMonitorSample],
      [handleRepNotification], and [call], [run] over them) are the
      handlers of the render of the live state itself, with the two
      callbacks only recorded as effects: they say what one call of an
      up-to-date handler does up to the callback. *)

From Stdlib Require Import ZArith QArith Qminmax Lia List String.
From Stdlib Require Import Strings.Byte.
From stdpp Require Import base list.
Import ListNotations.

Local Open Scope Z_scope.

(** ** Bytes and [DataView] reads *)

Inductive JsError : Type :=
| RangeError.

Inductive Completion (A : Type) : Type :=
| Normal (a : A)
| Throw (e : JsError).
Arguments Normal {A} a.
Arguments Throw {A} e.

Definition byteVal (b : byte) : Z := Z.of_N (Byte.to_N b).

(** Storing a number into a [Uint8Array] slot keeps its low eight bits. *)
Definition u8 (z : Z) : byte :=
  match Byte.of_N (Z.to_N (z mod 256)) with
  | Some b => b
  | None => x00
  end.

(** [view.getUint16(off, true)] on a view over the whole array: two bytes,
    little-endian; a read that does not fit raises [RangeError]. *)
Definition getUint16 (data : list byte) (off : nat) : Completion Z :=
  match data !! off, data !! S off with
  | Some lo, Some hi => Normal (byteVal lo + 256 * byteVal hi)
  | _, _ => Throw RangeError
  end.

(** JS [ToInt32] and the [<<] operator, which works on signed 32-bit
    integers. *)
Definition toInt32 (z : Z) : Z := (z + 2 ^ 31) mod 2 ^ 32 - 2 ^ 31.

Definition jsShiftLeft (a n : Z) : Z :=
  toInt32 (Z.shiftl (toInt32 a) (Z.land n 31)).

(** ** device.js: monitor decoding and the spike filter *)

Record MonitorSample : Type := mkSample {
  timestamp : Z;
  ticks : Z;
  posA : Z;
  posB : Z;
  loadA : Q;
  loadB : Q;
  raw : option (list byte);
}.

(** The two fields of [VitruvianDevice] that the monitor path mutates. *)
Record SpikeFilter : Type := mkFilter {
  lastGoodPosA : Z;
  lastGoodPosB : Z;
}.

(** The constructor's initial values. *)
Definition initialFilter : SpikeFilter := mkFilter 0 0.

Definition parseMonitorData (dev : SpikeFilter) (now : Z) (data : list byte)
  : Completion (MonitorSample * SpikeFilter) :=
  let sample := mkSample now 0 0 0 0%Q 0%Q (Some data) in
  if (length data <? 16)%nat then Normal (sample, dev)
  else
    match getUint16 data 0, getUint16 data 2, getUint16 data 4,
          getUint16 data 8, getUint16 data 10, getUint16 data 14 with
    | Normal f0, Normal f1, Normal f2, Normal f4, Normal f5, Normal f7 =>
        let ticks' := f0 + jsShiftLeft f1 16 in
        let '(posA', goodA) :=
          if 50000 <? f2 then (lastGoodPosA dev, lastGoodPosA dev)
          else (f2, f2) in
        let '(posB', goodB) :=
          if 50000 <? f5 then (lastGoodPosB dev, lastGoodPosB dev)
          else (f5, f5) in
        Normal (mkSample now ticks' posA' posB'
                  (inject_Z f4 / 100)%Q (inject_Z f7 / 100)%Q (Some data),
                mkFilter goodA goodB)
    | _, _, _, _, _, _ => Throw RangeError
    end.

(** ** hooks/useWorkout.ts: the workout engine *)

Module PositionRange.
Record t : Type := mk { min : Z; max : Z }.
End PositionRange.

Module CurrentWorkout.
Record t : Type := mk {
  mode : string;
  weightKg : Q;
  targetReps : Z;
  startTime : Z;
  warmupEndTime : option Z;
  endTime : option Z;
}.
End CurrentWorkout.

Module Workout.
Record t : Type := mk {
  mode : string;
  weightKg : Q;
  reps : Z;
  timestamp : Z;
  startTime : Z;
  warmupEndTime : option Z;
  endTime : Z;
}.
End Workout.

Module LiveStats.
Record t : Type := mk { posA : Z; posB : Z; loadA : Q; loadB : Q; ticks : Z }.
End LiveStats.

Record RepRanges : Type := mkRepRanges {
  minRepPosA : option Z;
  maxRepPosA : option Z;
  minRepPosB : option Z;
  maxRepPosB : option Z;
  minRepPosARange : option PositionRange.t;
  maxRepPosARange : option PositionRange.t;
  minRepPosBRange : option PositionRange.t;
  maxRepPosBRange : option PositionRange.t;
}.

Definition emptyRanges : RepRanges :=
  mkRepRanges None None None None None None None None.

Definition WARMUP_TARGET_DEFAULT : Z := 3.
Definition AUTO_STOP_DURATION : Z := 5000.
Definition WINDOW_SIZE_WARMUP : nat := 2.
Definition WINDOW_SIZE_WORKING : nat := 3.

(** What the hook tells the outside world.  Log lines keep the data they
    interpolate rather than the formatted text. *)
Inductive LogType : Type := info | success | error.

Inductive LogMsg : Type :=
| MsgRepNotification (top complete : Z) (sample : option MonitorSample)
| MsgTopDetected (last counter pA pB : Z)
| MsgFinalRepTop
| MsgBottomDetected (last counter pA pB : Z)
| MsgWarmupRep (newCount target : Z)
| MsgWorkingRep (newCount targetOrZero : Z)
| MsgTargetReached
| MsgTimerStarted
| MsgAutoStopTriggered
| MsgTimerReset
| MsgWorkoutSaved
| MsgInvalidIndex.

Inductive Effect : Type :=
| AddLog (m : LogMsg) (t : LogType)
| OnAutoStop
| OnWorkoutComplete.

Record WorkoutState : Type := mkWorkoutState {
  currentWorkout : option CurrentWorkout.t;
  warmupReps : Z;
  workingReps : Z;
  warmupTarget : Z;
  targetReps : Z;
  workoutHistory : list Workout.t;
  isJustLiftMode : bool;
  stopAtTop : bool;
  autoStopProgress : Q;
  maxPos : Z;
  liveStats : LiveStats.t;
  repRanges : RepRanges;
  topPositionsA : list Z;
  bottomPositionsA : list Z;
  topPositionsB : list Z;
  bottomPositionsB : list Z;
  lastTopCounter : option Z;
  lastRepCounter : option Z;
  autoStopStartTime : option Z;
  currentSampleRef : option MonitorSample;
}.

(** One setter per field: the [useState] setters of the hook, and
    assignment to [.current] for the refs. *)
Definition setCurrentWorkout (v : option CurrentWorkout.t) (s : WorkoutState) : WorkoutState :=
  mkWorkoutState v (warmupReps s) (workingReps s) (warmupTarget s)
    (targetReps s) (workoutHistory s) (isJustLiftMode s) (stopAtTop s)
    (autoStopProgress s) (maxPos s) (liveStats s) (repRanges s)
    (topPositionsA s) (bottomPositionsA s) (topPositionsB s)
    (bottomPositionsB s) (lastTopCounter s) (lastRepCounter s)
    (autoStopStartTime s) (currentSampleRef s).
Definition setWarmupReps (v : Z) (s : WorkoutState) : WorkoutState :=
  mkWorkoutState (currentWorkout s) v (workingReps s) (warmupTarget s)
    (targetReps s) (workoutHistory s) (isJustLiftMode s) (stopAtTop s)
    (autoStopProgress s) (maxPos s) (liveStats s) (repRanges s)
    (topPositionsA s) (bottomPositionsA s) (topPositionsB s)
    (bottomPositionsB s) (lastTopCounter s) (lastRepCounter s)
    (autoStopStartTime s) (currentSampleRef s).
Definition setWorkingReps (v : Z) (s : WorkoutState) : WorkoutState :=
  mkWorkoutState (currentWorkout s) (warmupReps s) v (warmupTarget s)
    (targetReps s) (workoutHistory s) (isJustLiftMode s) (stopAtTop s)
    (autoStopProgress s) (maxPos s) (liveStats s) (repRanges s)
    (topPositionsA s) (bottomPositionsA s) (topPositionsB s)
    (bottomPositionsB s) (lastTopCounter s) (lastRepCounter s)
    (autoStopStartTime s) (currentSampleRef s).
Definition setTargetReps (v : Z) (s : WorkoutState) : WorkoutState :=
  mkWorkoutState (currentWorkout s) (warmupReps s) (workingReps s)
    (warmupTarget s) v (workoutHistory s) (isJustLiftMode s) (stopAtTop s)
    (autoStopProgress s) (maxPos s) (liveStats s) (repRanges s)
    (topPositionsA s) (bottomPositionsA s) (topPositionsB s)
    (bottomPositionsB s) (lastTopCounter s) (lastRepCounter s)
    (autoStopStartTime s) (currentSampleRef s).
Definition setWorkoutHistory (v : list Workout.t) (s : WorkoutState) : WorkoutState :=
  mkWorkoutState (currentWorkout s) (warmupReps s) (workingReps s)
    (warmupTarget s) (targetReps s) v (isJustLiftMode s) (stopAtTop s)
    (autoStopProgress s) (maxPos s) (liveStats s) (repRanges s)
    (topPositionsA s) (bottomPositionsA s) (topPositionsB s)
    (bottomPositionsB s) (lastTopCounter s) (lastRepCounter s)
    (autoStopStartTime s) (currentSampleRef s).
Definition setIsJustLiftMode (v : bool) (s : WorkoutState) : WorkoutState :=
  mkWorkoutState (currentWorkout s) (warmupReps s) (workingReps s)
    (warmupTarget s) (targetReps s) (workoutHistory s) v (stopAtTop s)
    (autoStopProgress s) (maxPos s) (liveStats s) (repRanges s)
    (topPositionsA s) (bottomPositionsA s) (topPositionsB s)
    (bottomPositionsB s) (lastTopCounter s) (lastRepCounter s)
    (autoStopStartTime s) (currentSampleRef s).
Definition setStopAtTop (v : bool) (s : WorkoutState) : WorkoutState :=
  mkWorkoutState (currentWorkout s) (warmupReps s) (workingReps s)
    (warmupTarget s) (targetReps s) (workoutHistory s) (isJustLiftMode s) v
    (autoStopProgress s) (maxPos s) (liveStats s) (repRanges s)
    (topPositionsA s) (bottomPositionsA s) (topPositionsB s)
    (bottomPositionsB s) (lastTopCounter s) (lastRepCounter s)
    (autoStopStartTime s) (currentSampleRef s).
Definition setAutoStopProgress (v : Q) (s : WorkoutState) : WorkoutState :=
  mkWorkoutState (currentWorkout s) (warmupReps s) (workingReps s)
    (warmupTarget s) (targetReps s) (workoutHistory s) (isJustLiftMode s)
    (stopAtTop s) v (maxPos s) (liveStats s) (repRanges s) (topPositionsA s)
    (bottomPositionsA s) (topPositionsB s) (bottomPositionsB s)
    (lastTopCounter s) (lastRepCounter s) (autoStopStartTime s)
    (currentSampleRef s).
Definition setMaxPos (v : Z) (s : WorkoutState) : WorkoutState :=
  mkWorkoutState (currentWorkout s) (warmupReps s) (workingReps s)
    (warmupTarget s) (targetReps s) (workoutHistory s) (isJustLiftMode s)
    (stopAtTop s) (autoStopProgress s) v (liveStats s) (repRanges s)
    (topPositionsA s) (bottomPositionsA s) (topPositionsB s)
    (bottomPositionsB s) (lastTopCounter s) (lastRepCounter s)
    (autoStopStartTime s) (currentSampleRef s).
Definition setLiveStats (v : LiveStats.t) (s : WorkoutState) : WorkoutState :=
  mkWorkoutState (currentWorkout s) (warmupReps s) (workingReps s)
    (warmupTarget s) (targetReps s) (workoutHistory s) (isJustLiftMode s)
    (stopAtTop s) (autoStopProgress s) (maxPos s) v (repRanges s)
    (topPositionsA s) (bottomPositionsA s) (topPositionsB s)
    (bottomPositionsB s) (lastTopCounter s) (lastRepCounter s)
    (autoStopStartTime s) (currentSampleRef s).
Definition setRepRanges (v : RepRanges) (s : WorkoutState) : WorkoutState :=
  mkWorkoutState (currentWorkout s) (warmupReps s) (workingReps s)
    (warmupTarget s) (targetReps s) (workoutHistory s) (isJustLiftMode s)
    (stopAtTop s) (autoStopProgress s) (maxPos s) (liveStats s) v
    (topPositionsA s) (bottomPositionsA s) (topPositionsB s)
    (bottomPositionsB s) (lastTopCounter s) (lastRepCounter s)
    (autoStopStartTime s) (currentSampleRef s).
Definition setTopPositionsA (v : list Z) (s : WorkoutState) : WorkoutState :=
  mkWorkoutState (currentWorkout s) (warmupReps s) (workingReps s)
    (warmupTarget s) (targetReps s) (workoutHistory s) (isJustLiftMode s)
    (stopAtTop s) (autoStopProgress s) (maxPos s) (liveStats s)
    (repRanges s) v (bottomPositionsA s) (topPositionsB s)
    (bottomPositionsB s) (lastTopCounter s) (lastRepCounter s)
    (autoStopStartTime s) (currentSampleRef s).
Definition setBottomPositionsA (v : list Z) (s : WorkoutState) : WorkoutState :=
  mkWorkoutState (currentWorkout s) (warmupReps s) (workingReps s)
    (warmupTarget s) (targetReps s) (workoutHistory s) (isJustLiftMode s)
    (stopAtTop s) (autoStopProgress s) (maxPos s) (liveStats s)
    (repRanges s) (topPositionsA s) v (topPositionsB s) (bottomPositionsB s)
    (lastTopCounter s) (lastRepCounter s) (autoStopStartTime s)
    (currentSampleRef s).
Definition setTopPositionsB (v : list Z) (s : WorkoutState) : WorkoutState :=
  mkWorkoutState (currentWorkout s) (warmupReps s) (workingReps s)
    (warmupTarget s) (targetReps s) (workoutHistory s) (isJustLiftMode s)
    (stopAtTop s) (autoStopProgress s) (maxPos s) (liveStats s)
    (repRanges s) (topPositionsA s) (bottomPositionsA s) v
    (bottomPositionsB s) (lastTopCounter s) (lastRepCounter s)
    (autoStopStartTime s) (currentSampleRef s).
Definition setBottomPositionsB (v : list Z) (s : WorkoutState) : WorkoutState :=
  mkWorkoutState (currentWorkout s) (warmupReps s) (workingReps s)
    (warmupTarget s) (targetReps s) (workoutHistory s) (isJustLiftMode s)
    (stopAtTop s) (autoStopProgress s) (maxPos s) (liveStats s)
    (repRanges s) (topPositionsA s) (bottomPositionsA s) (topPositionsB s) v
    (lastTopCounter s) (lastRepCounter s) (autoStopStartTime s)
    (currentSampleRef s).
Definition setLastTopCounter (v : option Z) (s : WorkoutState) : WorkoutState :=
  mkWorkoutState (currentWorkout s) (warmupReps s) (workingReps s)
    (warmupTarget s) (targetReps s) (workoutHistory s) (isJustLiftMode s)
    (stopAtTop s) (autoStopProgress s) (maxPos s) (liveStats s)
    (repRanges s) (topPositionsA s) (bottomPositionsA s) (topPositionsB s)
    (bottomPositionsB s) v (lastRepCounter s) (autoStopStartTime s)
    (currentSampleRef s).
Definition setLastRepCounter (v : option Z) (s : WorkoutState) : WorkoutState :=
  mkWorkoutState (currentWorkout s) (warmupReps s) (workingReps s)
    (warmupTarget s) (targetReps s) (workoutHistory s) (isJustLiftMode s)
    (stopAtTop s) (autoStopProgress s) (maxPos s) (liveStats s)
    (repRanges s) (topPositionsA s) (bottomPositionsA s) (topPositionsB s)
    (bottomPositionsB s) (lastTopCounter s) v (autoStopStartTime s)
    (currentSampleRef s).
Definition setAutoStopStartTime (v : option Z) (s : WorkoutState) : WorkoutState :=
  mkWorkoutState (currentWorkout s) (warmupReps s) (workingReps s)
    (warmupTarget s) (targetReps s) (workoutHistory s) (isJustLiftMode s)
    (stopAtTop s) (autoStopProgress s) (maxPos s) (liveStats s)
    (repRanges s) (topPositionsA s) (bottomPositionsA s) (topPositionsB s)
    (bottomPositionsB s) (lastTopCounter s) (lastRepCounter s) v
    (currentSampleRef s).
Definition setCurrentSampleRef (v : option MonitorSample) (s : WorkoutState) : WorkoutState :=
  mkWorkoutState (currentWorkout s) (warmupReps s) (workingReps s)
    (warmupTarget s) (targetReps s) (workoutHistory s) (isJustLiftMode s)
    (stopAtTop s) (autoStopProgress s) (maxPos s) (liveStats s)
    (repRanges s) (topPositionsA s) (bottomPositionsA s) (topPositionsB s)
    (bottomPositionsB s) (lastTopCounter s) (lastRepCounter s)
    (autoStopStartTime s) v.

(** The values of the [useState] and [useRef] initialisers. *)
Definition initialState : WorkoutState :=
  mkWorkoutState None 0 0 WARMUP_TARGET_DEFAULT 0 [] false false 0%Q 1000
    (LiveStats.mk 0 0 0%Q 0%Q 0) emptyRanges [] [] [] [] None None None None.

(** Code of the hook runs against the state and emits effects in order. *)
Definition Hook (A : Type) : Type :=
  WorkoutState -> A * WorkoutState * list Effect.

Definition ret {A} (a : A) : Hook A := fun s => (a, s, []).

Definition bind {A B} (m : Hook A) (k : A -> Hook B) : Hook B :=
  fun s =>
    let '(a, s1, e1) := m s in
    let '(b, s2, e2) := k a s1 in
    (b, s2, e1 ++ e2).

#[global] Instance hook_ret : MRet Hook := @ret.
#[global] Instance hook_bind : MBind Hook := fun A B k m => bind m k.

Definition get : Hook WorkoutState := fun s => (s, s, []).
Definition modify (f : WorkoutState -> WorkoutState) : Hook unit :=
  fun s => (tt, f s, []).
Definition emit (e : Effect) : Hook unit := fun s => (tt, s, [e]).
Definition addLog (m : LogMsg) (t : LogType) : Hook unit := emit (AddLog m t).
Definition when (c : bool) (m : Hook unit) : Hook unit :=
  if c then m else ret tt.

Definition stateOf {A} (r : A * WorkoutState * list Effect) : WorkoutState :=
  snd (fst r).
Definition effectsOf {A} (r : A * WorkoutState * list Effect) : list Effect :=
  snd r.

(** [Math.round(sum / n)] for an integer [sum] and a positive count [n]:
    the nearest integer, a tie going up. *)
Definition roundDiv (sum n : Z) : Z := (2 * sum + n) / (2 * n).

Definition calculateAverage (arr : list Z) : option Z :=
  match arr with
  | [] => None
  | _ => Some (roundDiv (fold_left Z.add arr 0) (Z.of_nat (length arr)))
  end.

Definition calculateRange (arr : list Z) : option PositionRange.t :=
  match arr with
  | [] => None
  | x :: rest =>
      Some (PositionRange.mk (fold_left Z.min rest x) (fold_left Z.max rest x))
  end.

Definition getWindowSize (s : WorkoutState) : nat :=
  let totalReps := warmupReps s + workingReps s in
  if totalReps <? warmupTarget s then WINDOW_SIZE_WARMUP
  else WINDOW_SIZE_WORKING.

Definition updateRepRanges : Hook unit :=
  s ← get;
  modify (setRepRanges (mkRepRanges
    (calculateAverage (bottomPositionsA s))
    (calculateAverage (topPositionsA s))
    (calculateAverage (bottomPositionsB s))
    (calculateAverage (topPositionsB s))
    (calculateRange (bottomPositionsA s))
    (calculateRange (topPositionsA s))
    (calculateRange (bottomPositionsB s))
    (calculateRange (topPositionsB s)))).

(** [arr.push(x)] followed by one [arr.shift()] when the array has grown
    past the window. *)
Definition pushWindow (windowSize : nat) (arr : list Z) (x : Z) : list Z :=
  let arr' := arr ++ [x] in
  if (windowSize <? length arr')%nat then drop 1 arr' else arr'.

(** [windowSize] comes from the counters the handler was created with,
    passed in as [s0]. *)
Definition recordTopPosition (s0 : WorkoutState) (pA pB : Z) : Hook unit :=
  let windowSize := getWindowSize s0 in
  s ← get;
  modify (setTopPositionsA (pushWindow windowSize (topPositionsA s) pA));;
  modify (setTopPositionsB (pushWindow windowSize (topPositionsB s) pB));;
  updateRepRanges.

Definition recordBottomPosition (s0 : WorkoutState) (pA pB : Z) : Hook unit :=
  let windowSize := getWindowSize s0 in
  s ← get;
  modify (setBottomPositionsA (pushWindow windowSize (bottomPositionsA s) pA));;
  modify (setBottomPositionsB (pushWindow windowSize (bottomPositionsB s) pB));;
  updateRepRanges.

(** JS truthiness of a [number | null]: [null] and [0] are falsy. *)
Definition truthy (v : option Z) : bool :=
  match v with
  | Some n => negb (n =? 0)
  | None => false
  end.

Definition isNull (v : option Z) : bool :=
  match v with
  | Some _ => false
  | None => true
  end.

(** [v || 0] *)
Definition orZero (v : option Z) : Z :=
  match v with
  | Some n => n
  | None => 0
  end.

(** [pos <= lo + range * 0.05].  Positions and averages are integers below
    2^16, for which the double-precision comparison agrees with the exact
    one. *)
Definition atOrBelowThreshold (pos lo range : Z) : bool :=
  Qle_bool (inject_Z pos) (inject_Z lo + inject_Z range * 0.05)%Q.

(** The locals [rangeA]/[rangeB], [checkCableA]/[checkCableB] and
    [inDangerZone] of [checkAutoStop]. *)
Definition cableRange (hi lo : option Z) : Z := orZero hi - orZero lo.

Definition minRangeThreshold : Z := 50.

Definition checkCable (hi lo : option Z) : bool :=
  minRangeThreshold <? cableRange hi lo.

Definition cableInDanger (pos : Z) (hi lo : option Z) : bool :=
  match lo with
  | Some lo' =>
      checkCable hi lo && atOrBelowThreshold pos lo' (cableRange hi lo)
  | None => false
  end.

Definition inDangerZone (sample : MonitorSample) (ranges : RepRanges) : bool :=
  cableInDanger (posA sample) (maxRepPosA ranges) (minRepPosA ranges)
  || cableInDanger (posB sample) (maxRepPosB ranges) (minRepPosB ranges).

Definition checkAutoStop (sample : MonitorSample) (ranges : RepRanges)
    (now : Z) : Hook unit :=
  if negb (truthy (minRepPosA ranges)) && negb (truthy (minRepPosB ranges))
  then modify (setAutoStopProgress 0%Q)
  else
    let checkCableA := checkCable (maxRepPosA ranges) (minRepPosA ranges) in
    let checkCableB := checkCable (maxRepPosB ranges) (minRepPosB ranges) in
    if negb checkCableA && negb checkCableB
    then modify (setAutoStopProgress 0%Q)
    else if inDangerZone sample ranges then
      s ← get;
      when (isNull (autoStopStartTime s))
        (modify (setAutoStopStartTime (Some now));;
         addLog MsgTimerStarted info);;
      s1 ← get;
      let elapsed := now - orZero (autoStopStartTime s1) in
      let progress :=
        Qmin (inject_Z elapsed / inject_Z AUTO_STOP_DURATION) 1 in
      modify (setAutoStopProgress progress);;
      when (AUTO_STOP_DURATION <=? elapsed)
        (addLog MsgAutoStopTriggered success;;
         emit OnAutoStop)
    else
      s ← get;
      when (negb (isNull (autoStopStartTime s)))
        (addLog MsgTimerReset info;;
         modify (setAutoStopStartTime None));;
      modify (setAutoStopProgress 0%Q).

Definition handleMonitorSample (sample : MonitorSample) (now : Z)
  : Hook unit :=
  s0 ← get;
  modify (setCurrentSampleRef (Some sample));;
  modify (setLiveStats (LiveStats.mk (posA sample) (posB sample)
                          (loadA sample) (loadB sample) (ticks sample)));;
  let currentMax := Z.max (posA sample) (posB sample) in
  when (maxPos s0 <? currentMax) (modify (setMaxPos (currentMax + 100)));;
  when (isJustLiftMode s0)
    (s ← get; checkAutoStop sample (repRanges s) now).

(** The [for] loop that fills [u16Values]: it runs while [i < length / 2],
    the length being halved without truncation, that is while
    [2 * i < length].  [fuel] bounds the number of iterations. *)
Fixpoint readU16Loop (fuel : nat) (data : list byte) (i : nat)
    (u16Values : list Z) : Completion (list Z) :=
  if (2 * i <? length data)%nat then
    match fuel with
    | O => Normal u16Values
    | S fuel' =>
        match getUint16 data (i * 2) with
        | Normal v => readU16Loop fuel' data (S i) (u16Values ++ [v])
        | Throw e => Throw e
        end
    end
  else Normal u16Values.

Definition readU16Values (data : list byte) : Completion (list Z) :=
  readU16Loop (length data) data 0 [].

(** The wrap-aware difference between a 16-bit counter and its last
    observed value (the same [if]/[else] computes [topDelta] and
    [delta]). *)
Definition counterDelta (counter last : Z) : Z :=
  if last <=? counter then counter - last
  else 0xffff - last + counter + 1.

Definition stampWarmupEnd (now : Z) (s : WorkoutState) : WorkoutState :=
  setCurrentWorkout
    (match currentWorkout s with
     | Some w =>
         Some (CurrentWorkout.mk (CurrentWorkout.mode w)
                 (CurrentWorkout.weightKg w) (CurrentWorkout.targetReps w)
                 (CurrentWorkout.startTime w) (Some now)
                 (CurrentWorkout.endTime w))
     | None => None
     end) s.

(** "Track top of range": [s0] holds the values the handler closed over.
    Here and in [countWorkingRep] a call of [onAutoStop] or
    [onWorkoutComplete] is only recorded; what the callbacks of the
    application then do to the state is in [trackTopWith] and
    [countWorkingRepWith] further down. *)
Definition trackTop (s0 : WorkoutState) (topCounter : Z)
    (sample : MonitorSample) : Hook unit :=
  s ← get;
  match lastTopCounter s with
  | None => modify (setLastTopCounter (Some topCounter))
  | Some last =>
      let topDelta := counterDelta topCounter last in
      when (0 <? topDelta)
        (addLog (MsgTopDetected last topCounter (posA sample) (posB sample))
           success;;
         recordTopPosition s0 (posA sample) (posB sample);;
         modify (setLastTopCounter (Some topCounter));;
         when (stopAtTop s0 && negb (isJustLiftMode s0)
               && (0 <? targetReps s0)
               && (workingReps s0 =? targetReps s0 - 1))
           (addLog MsgFinalRepTop success;;
            emit OnAutoStop;;
            emit OnWorkoutComplete))
  end.

(** The [setWarmupReps] / [setWorkingReps] updaters. *)
Definition countWarmupRep (s0 : WorkoutState) (now : Z) : Hook unit :=
  s ← get;
  let newCount := warmupReps s + 1 in
  addLog (MsgWarmupRep newCount (warmupTarget s0)) success;;
  when (newCount =? warmupTarget s0) (modify (stampWarmupEnd now));;
  modify (setWarmupReps newCount).

Definition countWorkingRep (s0 : WorkoutState) : Hook unit :=
  s ← get;
  let newCount := workingReps s + 1 in
  addLog (MsgWorkingRep newCount
            (if 0 <? targetReps s0 then targetReps s0 else 0)) success;;
  when (negb (stopAtTop s0) && negb (isJustLiftMode s0)
        && (0 <? targetReps s0) && (targetReps s0 <=? newCount))
    (addLog MsgTargetReached success;;
     emit OnWorkoutComplete);;
  modify (setWorkingReps newCount).

(** "Track rep complete / bottom of range". *)
Definition trackBottom (s0 : WorkoutState) (completeCounter : Z)
    (sample : MonitorSample) (now : Z) : Hook unit :=
  s ← get;
  match lastRepCounter s with
  | None => modify (setLastRepCounter (Some completeCounter))
  | Some last =>
      let delta := counterDelta completeCounter last in
      when (0 <? delta)
        (addLog (MsgBottomDetected last completeCounter
                   (posA sample) (posB sample)) success;;
         recordBottomPosition s0 (posA sample) (posB sample);;
         let totalReps := warmupReps s0 + workingReps s0 + 1 in
         if totalReps <=? warmupTarget s0 then countWarmupRep s0 now
         else countWorkingRep s0);;
      modify (setLastRepCounter (Some completeCounter))
  end.

(** The handler once [topCounter] and [completeCounter] are decoded. *)
Definition processRepCounters (topCounter completeCounter : Z) (now : Z)
    (s0 : WorkoutState) : Hook unit :=
  let sample := currentSampleRef s0 in
  addLog (MsgRepNotification topCounter completeCounter sample) info;;
  match sample, currentWorkout s0 with
  | Some smp, Some _ =>
      trackTop s0 topCounter smp;;
      trackBottom s0 completeCounter smp now
  | _, _ => ret tt
  end.

Definition handleRepNotification (data : list byte) (now : Z)
    (s0 : WorkoutState) : Completion (WorkoutState * list Effect) :=
  if (length data <? 6)%nat then Normal (s0, [])
  else
    match readU16Values data with
    | Throw e => Throw e
    | Normal u16Values =>
        if (length u16Values <? 3)%nat then Normal (s0, [])
        else
          let topCounter := nth 0 u16Values 0 in
          let completeCounter := nth 2 u16Values 0 in
          let r := processRepCounters topCounter completeCounter now s0 s0 in
          Normal (stateOf r, effectsOf r)
    end.

(** The log lines that announce a TOP and a BOTTOM event. *)
Definition isTopEvent (e : Effect) : bool :=
  match e with
  | AddLog (MsgTopDetected _ _ _ _) _ => true
  | _ => false
  end.

Definition isBottomEvent (e : Effect) : bool :=
  match e with
  | AddLog (MsgBottomDetected _ _ _ _) _ => true
  | _ => false
  end.

Definition isAutoStopCall (e : Effect) : bool :=
  match e with
  | OnAutoStop => true
  | _ => false
  end.

Definition isCompleteCall (e : Effect) : bool :=
  match e with
  | OnWorkoutComplete => true
  | _ => false
  end.

Definition clearTracking (s : WorkoutState) : WorkoutState :=
  setAutoStopStartTime None
    (setLastRepCounter None
       (setLastTopCounter None
          (setBottomPositionsB []
             (setTopPositionsB []
                (setBottomPositionsA [] (setTopPositionsA [] s)))))).

Definition startWorkout (mode : string) (weightKg : Q) (reps : Z)
    (isJustLift : bool) (now : Z) : Hook unit :=
  modify (setCurrentWorkout
            (Some (CurrentWorkout.mk mode weightKg reps now None None)));;
  modify (setTargetReps reps);;
  modify (setIsJustLiftMode isJustLift);;
  modify (setWarmupReps 0);;
  modify (setWorkingReps 0);;
  modify clearTracking;;
  modify (setAutoStopProgress 0%Q);;
  modify (setRepRanges emptyRanges).

Definition resetWorkout : Hook unit :=
  modify (setCurrentWorkout None);;
  modify (setWarmupReps 0);;
  modify (setWorkingReps 0);;
  modify (setTargetReps 0);;
  modify (setIsJustLiftMode false);;
  modify (setAutoStopProgress 0%Q);;
  modify clearTracking;;
  modify (setRepRanges emptyRanges).

Definition completeWorkout (now : Z) : Hook unit :=
  s ← get;
  match currentWorkout s with
  | Some w =>
      let completedWorkout :=
        Workout.mk (CurrentWorkout.mode w) (CurrentWorkout.weightKg w)
          (workingReps s) now (CurrentWorkout.startTime w)
          (CurrentWorkout.warmupEndTime w) now in
      modify (setWorkoutHistory (completedWorkout :: workoutHistory s));;
      addLog MsgWorkoutSaved success
  | None => ret tt
  end;;
  resetWorkout.

(** What can happen to the engine, and a run of such calls.  A rep
    notification that throws leaves the state as it was (the device's
    [dispatchRepNotification] catches the exception).  In [call] and
    [run] each handler is the one of the render of the state it is called
    in, and the callbacks are only recorded; [callOf] and [runOf] further
    down take the render of each handler as given and run the callbacks
    of the application. *)
Inductive Call : Type :=
| StartWorkout (mode : string) (weightKg : Q) (reps : Z) (isJustLift : bool)
    (now : Z)
| MonitorSampleArrives (sample : MonitorSample) (now : Z)
| RepNotification (data : list byte) (now : Z)
| CompleteWorkout (now : Z)
| ResetWorkout
| SetStopAtTop (value : bool).

Definition call (c : Call) (s : WorkoutState) : WorkoutState * list Effect :=
  match c with
  | StartWorkout mode weightKg reps isJustLift now =>
      let r := startWorkout mode weightKg reps isJustLift now s in
      (stateOf r, effectsOf r)
  | MonitorSampleArrives sample now =>
      let r := handleMonitorSample sample now s in (stateOf r, effectsOf r)
  | RepNotification data now =>
      match handleRepNotification data now s with
      | Normal r => r
      | Throw _ => (s, [])
      end
  | CompleteWorkout now =>
      let r := completeWorkout now s in (stateOf r, effectsOf r)
  | ResetWorkout => let r := resetWorkout s in (stateOf r, effectsOf r)
  | SetStopAtTop value => (setStopAtTop value s, [])
  end.

Fixpoint run (cs : list Call) (s : WorkoutState)
  : WorkoutState * list Effect :=
  match cs with
  | [] => (s, [])
  | c :: rest =>
      let '(s1, e1) := call c s in
      let '(s2, e2) := run rest s1 in
      (s2, e1 ++ e2)
  end.

(** Whether a rep notification gets as far as the counter logic: its
    payload decodes, and the handler finds a sample and a workout. *)
Definition findsSampleAndWorkout (s : WorkoutState) : bool :=
  match currentSampleRef s, currentWorkout s with
  | Some _, Some _ => true
  | _, _ => false
  end.

Definition decodes (data : list byte) : bool :=
  (6 <=? length data)%nat &&
  match readU16Values data with
  | Normal _ => true
  | Throw _ => false
  end.

(** ** device.js: the GATT operation queue

    [queueGattOperation] and [processGattQueue] run on the JS event loop.
    An operation is named by an [OpId]; the queue entry
    [{operation, resolve, reject}] of a submission is that name, since
    [resolve] and [reject] settle the promise handed to its submitter.
    Two things happen to the queue: a caller submits an operation, or the
    promise of a started operation settles and the suspended
    [processGattQueue] resumes after its [await].  [running] lists the
    operations that were called and have not settled; [settled] lists the
    [resolve]/[reject] calls made so far, oldest first. *)

Definition OpId : Type := nat.

Inductive Outcome : Type :=
| Resolved
| Rejected.

Record GattState : Type := mkGatt {
  gattQueue : list OpId;
  gattBusy : bool;
  running : list OpId;
  settled : list (OpId * Outcome);
}.

Definition initialGatt : GattState := mkGatt [] false [] [].

(** [processGattQueue] up to its [await operation()]. *)
Definition processGattQueue (d : GattState) : GattState :=
  if gattBusy d || (length (gattQueue d) =? 0)%nat then d
  else
    let d1 := mkGatt (gattQueue d) true (running d) (settled d) in
    match gattQueue d1 with
    | [] => mkGatt (gattQueue d1) false (running d1) (settled d1)
    | operation :: rest =>
        mkGatt rest (gattBusy d1) (running d1 ++ [operation]) (settled d1)
    end.

Definition queueGattOperation (operation : OpId) (d : GattState)
  : GattState :=
  processGattQueue
    (mkGatt (gattQueue d ++ [operation]) (gattBusy d) (running d) (settled d)).

Fixpoint removeFirst (op : OpId) (l : list OpId) : list OpId :=
  match l with
  | [] => []
  | x :: rest => if (x =? op)%nat then rest else x :: removeFirst op rest
  end.

(** [processGattQueue] from the [await] on, once [operation] has settled:
    [resolve] or [reject], then the [finally] block. *)
Definition resumeAfterAwait (operation : OpId) (o : Outcome) (d : GattState)
  : GattState :=
  let d1 := mkGatt (gattQueue d) (gattBusy d)
              (removeFirst operation (running d))
              (settled d ++ [(operation, o)]) in
  processGattQueue (mkGatt (gattQueue d1) false (running d1) (settled d1)).

Inductive GattEvent : Type :=
| Submit (operation : OpId)
| Settle (operation : OpId) (o : Outcome).

(** An operation can only settle while it is running. *)
Definition gattStep (ev : GattEvent) (d : GattState) : option GattState :=
  match ev with
  | Submit operation => Some (queueGattOperation operation d)
  | Settle operation o =>
      if bool_decide (operation ∈ running d)
      then Some (resumeAfterAwait operation o d)
      else None
  end.

Fixpoint gattRun (evs : list GattEvent) (d : GattState) : option GattState :=
  match evs with
  | [] => Some d
  | ev :: rest =>
      match gattStep ev d with
      | Some d' => gattRun rest d'
      | None => None
      end
  end.

Fixpoint submissions (evs : list GattEvent) : list OpId :=
  match evs with
  | [] => []
  | Submit operation :: rest => operation :: submissions rest
  | Settle _ _ :: rest => submissions rest
  end.

Fixpoint settlements (evs : list GattEvent) : list (OpId * Outcome) :=
  match evs with
  | [] => []
  | Submit _ :: rest => settlements rest
  | Settle operation o :: rest => (operation, o) :: settlements rest
  end.

(** ** protocol.js and modes.js: frame builders *)

(** The IEEE 754 binary32 bit pattern of a rational, rounded to nearest
    with ties to even, as [DataView.setFloat32] stores it. *)
Definition roundHalfEven (num den : Z) : Z :=
  let fl := num / den in
  let rem := num mod den in
  match 2 * rem ?= den with
  | Lt => fl
  | Gt => fl + 1
  | Eq => if Z.even fl then fl else fl + 1
  end.

(** Largest [e] with [2^e <= n/d], for positive [n] and [d]. *)
Definition floorLog2Ratio (n d : Z) : Z :=
  let e0 := Z.log2 n - Z.log2 d in
  let below :=
    if 0 <=? e0 then n <? d * 2 ^ e0 else n * 2 ^ (- e0) <? d in
  if below then e0 - 1 else e0.

Definition float32MagnitudeBits (n d : Z) : Z :=
  let e := Z.max (floorLog2Ratio n d) (-126) in
  let shift := 23 - e in
  let m :=
    if 0 <=? shift then roundHalfEven (n * 2 ^ shift) d
    else roundHalfEven n (d * 2 ^ (- shift)) in
  Z.min ((e + 126) * 2 ^ 23 + m) 0x7f800000.

Definition float32Bits (q : Q) : Z :=
  let n := Qnum q in
  let d := Zpos (Qden q) in
  if n =? 0 then 0
  else if 0 <? n then float32MagnitudeBits n d
  else 2 ^ 31 + float32MagnitudeBits (- n) d.

Definition float32LE (q : Q) : list byte :=
  let w := float32Bits q in
  [u8 w; u8 (w / 2 ^ 8); u8 (w / 2 ^ 16); u8 (w / 2 ^ 24)].

Definition uint16LE (v : Z) : list byte := [u8 v; u8 (v / 2 ^ 8)].

(** [DataView] stores and [frame.set]; every offset used below is a
    constant that fits the buffer. *)
Definition setFloat32 (off : nat) (value : Q) (buf : list byte) : list byte :=
  list_inserts off (float32LE value) buf.
Definition setUint16 (off : nat) (value : Z) (buf : list byte) : list byte :=
  list_inserts off (uint16LE value) buf.
Definition setInt16 (off : nat) (value : Z) (buf : list byte) : list byte :=
  list_inserts off (uint16LE value) buf.
Definition setByte (off : nat) (value : Z) (buf : list byte) : list byte :=
  <[off := u8 value]> buf.
Definition setBytes (off : nat) (src : list byte) (buf : list byte)
  : list byte :=
  list_inserts off src buf.

Definition writeU16LE := setUint16.
Definition writeI16LE := setInt16.
Definition writeF32LE := setFloat32.

Definition buildInitCommand : list byte := [x0a; x00; x00; x00].

Definition buildInitPreset : list byte :=
  [x11; x00; x00; x00; x00; x00; x00; x00; x00; x00; x00; x00;
   xcd; xcc; xcc; x3e;
   xff; x00; x4c; xff; x23; x8c; xff; x8c; x8c;
   xff; x00; x4c; xff; x23; x8c; xff; x8c; x8c].

Inductive ProgramMode : Type :=
| OLD_SCHOOL
| PUMP
| TUT
| TUT_BEAST
| ECCENTRIC_ONLY.

Definition profileFields (u0 u2 : Z) (f4 : Q) (u8' ua : Z) (fc : Q)
    (i10 i12 : Z) (f14 : Q) (i18 i1a : Z) (f1c : Q) (buffer : list byte)
  : list byte :=
  writeF32LE 0x1c f1c
    (writeI16LE 0x1a i1a
       (writeI16LE 0x18 i18
          (writeF32LE 0x14 f14
             (writeI16LE 0x12 i12
                (writeI16LE 0x10 i10
                   (writeF32LE 0x0c fc
                      (writeU16LE 0x0a ua
                         (writeU16LE 0x08 u8'
                            (writeF32LE 0x04 f4
                               (writeU16LE 0x02 u2
                                  (writeU16LE 0x00 u0 buffer))))))))))).

Definition getModeProfile (mode : ProgramMode) : list byte :=
  let buffer := replicate 32 x00 in
  match mode with
  | OLD_SCHOOL =>
      profileFields 0 20 3 75 600 50 (-1300) (-1200) 100 (-260) (-110) 0
        buffer
  | PUMP =>
      profileFields 50 450 10 500 600 50 (-700) (-550) 1 (-100) (-50) 1
        buffer
  | TUT =>
      profileFields 250 350 7 450 600 50 (-900) (-700) 70 (-100) (-50) 14
        buffer
  | TUT_BEAST =>
      profileFields 150 250 7 350 450 50 (-900) (-700) 70 (-100) (-50) 28
        buffer
  | ECCENTRIC_ONLY =>
      profileFields 50 550 50 650 750 10 (-900) (-700) 70 (-100) (-50) 20
        buffer
  end.

(** The fields of the parameter object that [buildProgramParams] reads. *)
Record ProgramParams : Type := mkProgramParams {
  mode : ProgramMode;
  baseMode : ProgramMode;
  isJustLift : bool;
  reps : Z;
  perCableKg : Q;
  effectiveKg : Q;
  progressionKg : option Q;
}.

(** [params.progressionKg || 0.0] *)
Definition progressionOrZero (p : option Q) : Q :=
  match p with
  | Some v => if Qeq_bool v 0 then 0%Q else v
  | None => 0%Q
  end.

Definition buildProgramParams (params : ProgramParams) : list byte :=
  let frame := replicate 96 x00 in
  let frame := setByte 3 0x00 (setByte 2 0x00 (setByte 1 0x00
                 (setByte 0 0x04 frame))) in
  let frame :=
    if isJustLift params then setByte 0x04 0xff frame
    else setByte 0x04 (reps params + 3) frame in
  let frame := setByte 7 0x00 (setByte 6 0x03 (setByte 5 0x03 frame)) in
  let frame := setFloat32 0x1c 5 (setFloat32 0x0c 5 (setFloat32 0x08 5 frame)) in
  let frame :=
    setByte 0x1b 0x00 (setByte 0x1a 0x1e (setByte 0x19 0x00
      (setByte 0x18 0xc8 (setByte 0x17 0x00 (setByte 0x16 0xfa
        (setByte 0x15 0x00 (setByte 0x14 0xfa frame))))))) in
  let frame :=
    setByte 0x2b 0x00 (setByte 0x2a 0x1e (setByte 0x29 0x00
      (setByte 0x28 0xc8 (setByte 0x27 0x00 (setByte 0x26 0xfa
        (setByte 0x25 0x00 (setByte 0x24 0xfa frame))))))) in
  let frame :=
    setByte 0x2f 0x00 (setByte 0x2e 0x50 (setByte 0x2d 0x00
      (setByte 0x2c 0xfa frame))) in
  let profileMode :=
    if isJustLift params then baseMode params else mode params in
  let profile := getModeProfile profileMode in
  let frame := setBytes 0x30 profile frame in
  let frame := setFloat32 0x54 (effectiveKg params) frame in
  let frame := setFloat32 0x58 (perCableKg params) frame in
  let frame :=
    setFloat32 0x5c (progressionOrZero (progressionKg params)) frame in
  frame.

(** The checks of [handleStartProgram] in App.tsx that a request passes
    before it is encoded. *)
Definition validProgramParams (params : ProgramParams) : Prop :=
  (0 <= perCableKg params <= 100)%Q /\
  (isJustLift params = false -> 1 <= reps params <= 100) /\
  (match progressionKg params with
   | Some p => -3 <= p <= 3
   | None => True
   end)%Q.

(** ** Example inputs used by the statements below *)

(** A monitor buffer whose cable A position is 60000 (bytes 60 ea) and
    whose cable B position is 300 (bytes 2c 01). *)
Definition spikeBuffer : list byte :=
  [x00; x00; x00; x00; x60; xea; x00; x00;
   x00; x00; x2c; x01; x00; x00; x00; x00].

(** A buffer whose tick counter has its top bit set. *)
Definition highTickBuffer : list byte :=
  [x01; x00; x00; x80; x00; x00; x00; x00;
   x00; x00; x00; x00; x00; x00; x00; x00].

(** A monitor sample with the given cable positions. *)
Definition scenarioSample (pA pB : Z) : MonitorSample :=
  mkSample 0 0 pA pB 0%Q 0%Q None.

(** A six-byte rep notification: the top counter in the first u16, the
    complete counter in the third. *)
Definition repPayload (top complete : Z) : list byte :=
  uint16LE top ++ uint16LE 0 ++ uint16LE complete.

(** The spec's end-to-end run: a 10-rep Old School program, one monitor
    sample, then rep notifications whose counters go up by one each. *)
Definition oldSchoolRun (notifications : list Call) : list Call :=
  StartWorkout "Old School" 10%Q 10 false 1000
  :: MonitorSampleArrives (scenarioSample 500 500) 1100
  :: notifications.

(** The notification whose two counters are both [n]. *)
Definition notification (n : Z) : Call :=
  RepNotification (repPayload n n) (2000 + n).

(** The run after its first notification, which stored the counters. *)
Definition afterFirstNotification : WorkoutState :=
  Eval vm_compute in
  fst (run (oldSchoolRun [notification 1]) initialState).

(** An unlimited-mode workout whose top average on cable A is 100 and
    whose bottom average is 0: the cable's range is 100 and a position of
    0 is at the very bottom of it. *)
Definition zeroBottomState : WorkoutState :=
  Eval vm_compute in
  fst (run [StartWorkout "Just Lift (Old School)" 10%Q 0 true 1000;
            MonitorSampleArrives (scenarioSample 100 100) 1100;
            RepNotification (repPayload 1 1) 1200;
            RepNotification (repPayload 2 1) 1300;
            MonitorSampleArrives (scenarioSample 0 0) 1400;
            RepNotification (repPayload 2 2) 1500] initialState).

(** An unlimited-mode workout with a top average of 260 and a bottom
    average of 200 on cable A (range 60), then three samples at the
    bottom, 0 ms, 5000 ms and 5100 ms into one danger-zone interval. *)
Definition rangeEstablished : WorkoutState :=
  Eval vm_compute in
  fst (run [StartWorkout "Just Lift (Old School)" 10%Q 0 true 1000;
            MonitorSampleArrives (scenarioSample 260 0) 1100;
            RepNotification (repPayload 1 0) 1200;
            RepNotification (repPayload 2 0) 1300;
            MonitorSampleArrives (scenarioSample 200 0) 1400;
            RepNotification (repPayload 2 1) 1500] initialState).

Definition restingSamples : list Call :=
  [MonitorSampleArrives (scenarioSample 200 0) 10000;
   MonitorSampleArrives (scenarioSample 200 0) 15000;
   MonitorSampleArrives (scenarioSample 200 0) 15100].


(** The invariant of the queue after the events of a run: [subs] are the
    operations submitted so far and [setl] the settlements so far. *)
Definition gattInv (subs : list OpId) (setl : list (OpId * Outcome))
    (d : GattState) : Prop :=
  (length (running d) <= 1)%nat /\
  subs = map fst (settled d) ++ running d ++ gattQueue d /\
  settled d = setl /\
  (gattBusy d = false -> running d = [] /\ gattQueue d = []) /\
  (gattBusy d = true -> exists op, running d = [op]).

(** Three operations, the second of which fails; the third is submitted
    after the first has settled. *)
Definition threeOperations : list GattEvent :=
  [Submit 1%nat; Submit 2%nat; Settle 1%nat Resolved; Submit 3%nat;
   Settle 2%nat Rejected; Settle 3%nat Resolved].

(** A 10-rep Pump program at 10 kg per cable, 20 kg effective, with a
    progression of 0.5 kg per rep. *)
Definition tenRepsPump : ProgramParams :=
  mkProgramParams PUMP PUMP false 10 10 20 (Some 0.5%Q).

(** ** More of hooks/useWorkout.ts *)

Definition viewWorkoutOnGraph (index : Z) : Hook (option Workout.t) :=
  s ← get;
  if (index <? 0) || (Z.of_nat (length (workoutHistory s)) <=? index)
  then addLog MsgInvalidIndex error;; mret None
  else mret (workoutHistory s !! Z.to_nat index).

(** The ranges [updateRepRanges] computes from the four windows. *)
Definition derivedRanges (s : WorkoutState) : RepRanges :=
  mkRepRanges
    (calculateAverage (bottomPositionsA s))
    (calculateAverage (topPositionsA s))
    (calculateAverage (bottomPositionsB s))
    (calculateAverage (topPositionsB s))
    (calculateRange (bottomPositionsA s))
    (calculateRange (topPositionsA s))
    (calculateRange (bottomPositionsB s))
    (calculateRange (topPositionsB s)).

(** Calls of [onAutoStop] and [onWorkoutComplete] among the effects. *)
Definition isCallback (e : Effect) : bool :=
  isAutoStopCall e || isCompleteCall e.

(** Whether a counter value is a TOP (resp. BOTTOM) event in a state. *)
Definition topFires (s : WorkoutState) (topCounter : Z) : bool :=
  match lastTopCounter s with
  | Some last => 0 <? counterDelta topCounter last
  | None => false
  end.

Definition bottomFires (s : WorkoutState) (completeCounter : Z) : bool :=
  match lastRepCounter s with
  | Some last => 0 <? counterDelta completeCounter last
  | None => false
  end.

(** The condition under which a TOP event ends the workout. *)
Definition finalTop (s0 : WorkoutState) : bool :=
  stopAtTop s0 && negb (isJustLiftMode s0) && (0 <? targetReps s0)
  && (workingReps s0 =? targetReps s0 - 1).

(** The condition under which a counted working rep ends the workout. *)
Definition finalRep (s0 : WorkoutState) (newCount : Z) : bool :=
  negb (stopAtTop s0) && negb (isJustLiftMode s0) && (0 <? targetReps s0)
  && (targetReps s0 <=? newCount).

(** A one-rep program with stop-at-top on, after its three warmup reps. *)
Definition beforeFinalTop : WorkoutState :=
  Eval vm_compute in
  fst (run [SetStopAtTop true;
            StartWorkout "Old School" 10%Q 1 false 1000;
            MonitorSampleArrives (scenarioSample 500 500) 1100;
            notification 1; notification 2; notification 3; notification 4]
         initialState).

(** ** More of device.js *)

(** The monitor poller: each read is decoded with the filter state left
    by the previous one.  A read is the clock value and the bytes. *)
Fixpoint decodeReads (dev : SpikeFilter) (reads : list (Z * list byte))
  : Completion (list MonitorSample * SpikeFilter) :=
  match reads with
  | [] => Normal ([], dev)
  | (now, data) :: rest =>
      match parseMonitorData dev now data with
      | Throw e => Throw e
      | Normal (sample, dev1) =>
          match decodeReads dev1 rest with
          | Throw e => Throw e
          | Normal (samples, dev2) => Normal (sample :: samples, dev2)
          end
      end
  end.

Definition validPosition (p : Z) : Prop := 0 <= p <= 50000.

Definition validFilter (dev : SpikeFilter) : Prop :=
  validPosition (lastGoodPosA dev) /\ validPosition (lastGoodPosB dev).

(** The two pollers.  [setInterval] and [clearInterval] act on the
    browser's set of running timers, kept here as [timers] (handle and
    period in ms); handles are positive, hence truthy, and fresh. *)
Definition CharId : Type := nat.
Definition TimerId : Type := positive.

Inductive DeviceLog : Type :=
| LogPropertyAlreadyRunning
| LogPropertyUnavailable
| LogPropertyStarted
| LogPropertyStopped
| LogMonitorAlreadyRunning
| LogMonitorUnavailable
| LogMonitorStarted
| LogMonitorStopped
| LogDisconnected.

Record Session : Type := mkSession {
  isConnected : bool;
  rxChar : option CharId;
  monitorChar : option CharId;
  propertyChar : option CharId;
  repNotifyChar : option CharId;
  propertyInterval : option TimerId;
  monitorInterval : option TimerId;
  timers : list (TimerId * Z);
  nextTimer : TimerId;
}.

(** The constructor's values, with no timer running. *)
Definition freshSession : Session :=
  mkSession false None None None None None None [] 1%positive.

Definition clearInterval (id : TimerId) (ts : list (TimerId * Z))
  : list (TimerId * Z) :=
  List.filter (fun t => negb (Pos.eqb (fst t) id)) ts.

Definition startPropertyPolling (d : Session) : Session * list DeviceLog :=
  match propertyInterval d with
  | Some _ => (d, [LogPropertyAlreadyRunning])
  | None =>
      match propertyChar d with
      | None => (d, [LogPropertyUnavailable])
      | Some _ =>
          (mkSession (isConnected d) (rxChar d) (monitorChar d)
             (propertyChar d) (repNotifyChar d)
             (Some (nextTimer d)) (monitorInterval d)
             (timers d ++ [(nextTimer d, 500)]) (Pos.succ (nextTimer d)),
           [LogPropertyStarted])
      end
  end.

Definition stopPropertyPolling (d : Session) : Session * list DeviceLog :=
  match propertyInterval d with
  | Some id =>
      (mkSession (isConnected d) (rxChar d) (monitorChar d)
         (propertyChar d) (repNotifyChar d)
         None (monitorInterval d)
         (clearInterval id (timers d)) (nextTimer d),
       [LogPropertyStopped])
  | None => (d, [])
  end.

Definition startMonitorPolling (d : Session) : Session * list DeviceLog :=
  match monitorInterval d with
  | Some _ => (d, [LogMonitorAlreadyRunning])
  | None =>
      match monitorChar d with
      | None => (d, [LogMonitorUnavailable])
      | Some _ =>
          (mkSession (isConnected d) (rxChar d) (monitorChar d)
             (propertyChar d) (repNotifyChar d)
             (propertyInterval d) (Some (nextTimer d))
             (timers d ++ [(nextTimer d, 100)]) (Pos.succ (nextTimer d)),
           [LogMonitorStarted])
      end
  end.

Definition stopMonitorPolling (d : Session) : Session * list DeviceLog :=
  match monitorInterval d with
  | Some id =>
      (mkSession (isConnected d) (rxChar d) (monitorChar d)
         (propertyChar d) (repNotifyChar d)
         (propertyInterval d) None
         (clearInterval id (timers d)) (nextTimer d),
       [LogMonitorStopped])
  | None => (d, [])
  end.

Definition handleDisconnect (d : Session) : Session * list DeviceLog :=
  let d0 := mkSession false (rxChar d) (monitorChar d) (propertyChar d)
              (repNotifyChar d) (propertyInterval d) (monitorInterval d)
              (timers d) (nextTimer d) in
  let '(d1, l1) := stopPropertyPolling d0 in
  let '(d2, l2) := stopMonitorPolling d1 in
  (mkSession (isConnected d2) None None None None
     (propertyInterval d2) (monitorInterval d2) (timers d2) (nextTimer d2),
   l1 ++ l2).

(** [gattConnected] is [this.device && this.device.gatt.connected]. *)
Definition disconnect (gattConnected : bool) (d : Session)
  : Session * list DeviceLog :=
  let '(d2, l2) :=
    if gattConnected then
      let '(d0, l0) := stopPropertyPolling d in
      let '(d1, l1) := stopMonitorPolling d0 in
      (d1, l0 ++ l1 ++ [LogDisconnected])
    else (d, []) in
  let '(d3, l3) := handleDisconnect d2 in
  (d3, l2 ++ l3).

(** What happens to a session: a successful [connect] stores the handles
    it found (the command handle always, the others if present);
    [startProgram] and [startEcho] start both pollers once their frame is
    written. *)
Inductive SessionCall : Type :=
| Connected (rx : CharId) (monitor property rep : option CharId)
| StartPolling
| StartProperty
| StartMonitor
| StopProperty
| StopMonitor
| LinkLost
| Disconnect (gattConnected : bool).

Definition sessionCall (c : SessionCall) (d : Session)
  : Session * list DeviceLog :=
  match c with
  | Connected rx monitor property rep =>
      (mkSession true (Some rx) monitor property rep
         (propertyInterval d) (monitorInterval d) (timers d) (nextTimer d),
       [])
  | StartPolling =>
      let '(d1, l1) := startPropertyPolling d in
      let '(d2, l2) := startMonitorPolling d1 in
      (d2, l1 ++ l2)
  | StartProperty => startPropertyPolling d
  | StartMonitor => startMonitorPolling d
  | StopProperty => stopPropertyPolling d
  | StopMonitor => stopMonitorPolling d
  | LinkLost => handleDisconnect d
  | Disconnect gattConnected => disconnect gattConnected d
  end.

Fixpoint sessionRun (cs : list SessionCall) (d : Session) : Session :=
  match cs with
  | [] => d
  | c :: rest => sessionRun rest (fst (sessionCall c d))
  end.

(** The timers a session accounts for. *)
Definition ownedTimers (d : Session) : list (TimerId * Z) :=
  match propertyInterval d with Some id => [(id, 500)] | None => [] end
  ++ match monitorInterval d with Some id => [(id, 100)] | None => [] end.

Definition sessionInv (d : Session) : Prop :=
  timers d ≡ₚ ownedTimers d /\
  (forall id, propertyInterval d = Some id -> (id < nextTimer d)%positive) /\
  (forall id, monitorInterval d = Some id -> (id < nextTimer d)%positive) /\
  (forall p m, propertyInterval d = Some p -> monitorInterval d = Some m ->
     p <> m).

(** ** modes.js and protocol.js: the Echo control frame *)

Inductive EchoLevel : Type :=
| HARD
| HARDER
| HARDEST
| EPIC.

Module EchoParams.
Record t : Type := mk {
  level : EchoLevel;
  eccentricPct : Z;
  concentricPct : Z;
  smoothing : Q;
  floor : Q;
  negLimit : Q;
  gain : Q;
  cap : Q;
}.
End EchoParams.

Definition getEchoParams (level : EchoLevel) (eccentricPct : Z)
  : EchoParams.t :=
  let params := EchoParams.mk level eccentricPct 50 0.1%Q 0%Q (-100)%Q 1%Q 50%Q in
  let withGainCap (gain cap : Q) :=
    EchoParams.mk (EchoParams.level params) (EchoParams.eccentricPct params)
      (EchoParams.concentricPct params) (EchoParams.smoothing params)
      (EchoParams.floor params) (EchoParams.negLimit params) gain cap in
  match level with
  | HARD => withGainCap 1%Q 50%Q
  | HARDER => withGainCap 1.25%Q 40%Q
  | HARDEST => withGainCap 1.667%Q 30%Q
  | EPIC => withGainCap 3.333%Q 15%Q
  end.

(** The fields of the parameter object that [buildEchoControl] reads;
    [None] is a field left [undefined]. *)
Module DeviceEchoParams.
Record t : Type := mk {
  level : EchoLevel;
  eccentricPct : Z;
  warmupReps : option Z;
  targetReps : option Z;
  isJustLift : bool;
}.
End DeviceEchoParams.

(** [params.warmupReps || 3] *)
Definition warmupRepsOrThree (v : option Z) : Z :=
  if truthy v then orZero v else 3.

(** [view.setUint32(off, value, true)] *)
Definition uint32LE (v : Z) : list byte :=
  [u8 v; u8 (v / 2 ^ 8); u8 (v / 2 ^ 16); u8 (v / 2 ^ 24)].
Definition setUint32 (off : nat) (value : Z) (buf : list byte) : list byte :=
  list_inserts off (uint32LE value) buf.

Definition buildEchoControl (params : DeviceEchoParams.t) : list byte :=
  let frame := replicate 32 x00 in
  let frame := setUint32 0x00 0x0000004e frame in
  let frame :=
    setByte 0x04 (warmupRepsOrThree (DeviceEchoParams.warmupReps params))
      frame in
  let frame :=
    if DeviceEchoParams.isJustLift params then setByte 0x05 0xff frame
    else
      setByte 0x05
        (match DeviceEchoParams.targetReps params with
         | Some n => n
         | None => 2
         end) frame in
  let frame := setUint16 0x06 0 frame in
  let echoParams :=
    getEchoParams (DeviceEchoParams.level params)
      (DeviceEchoParams.eccentricPct params) in
  let frame := setUint16 0x08 (EchoParams.eccentricPct echoParams) frame in
  let frame := setUint16 0x0a (EchoParams.concentricPct echoParams) frame in
  let frame := setFloat32 0x0c (EchoParams.smoothing echoParams) frame in
  let frame := setFloat32 0x10 (EchoParams.gain echoParams) frame in
  let frame := setFloat32 0x14 (EchoParams.cap echoParams) frame in
  let frame := setFloat32 0x18 (EchoParams.floor echoParams) frame in
  let frame := setFloat32 0x1c (EchoParams.negLimit echoParams) frame in
  frame.

(** The checks of [handleStartEcho] in App.tsx that a request passes
    before it is encoded; the handler always passes [warmupReps: 3]. *)
Definition validEchoParams (params : DeviceEchoParams.t) : Prop :=
  0 <= DeviceEchoParams.eccentricPct params <= 150 /\
  DeviceEchoParams.warmupReps params = Some 3 /\
  (DeviceEchoParams.isJustLift params = false ->
   exists n, DeviceEchoParams.targetReps params = Some n /\ 0 <= n <= 30).

(** The constant part of the program frame up to the mode profile, with
    the repetition byte at offset 4. *)
Definition programHeader (repsByte : byte) : list byte :=
  [x04; x00; x00; x00; repsByte; x03; x03; x00]
  ++ float32LE 5 ++ float32LE 5
  ++ [x00; x00; x00; x00]
  ++ [xfa; x00; xfa; x00; xc8; x00; x1e; x00]
  ++ float32LE 5
  ++ [x00; x00; x00; x00]
  ++ [xfa; x00; xfa; x00; xc8; x00; x1e; x00]
  ++ [xfa; x00; x50; x00].

(** A 100 percent eccentric Harder request for 8 repetitions. *)
Definition harderEight : DeviceEchoParams.t :=
  DeviceEchoParams.mk HARDER 100 (Some 3) (Some 8) false.

(** ** chart.ts: the load history of [ChartManager] *)

Module LoadHistoryPoint.
Record t : Type := mk {
  timestamp : Z;
  loadA : Q;
  loadB : Q;
  posA : Z;
  posB : Z;
}.
End LoadHistoryPoint.

(** The fields of [ChartManager] that [addData], [clear] and
    [getDataCount] touch.  [onLog] tells whether a callback is installed;
    [chartLogged] lists the calls made to it. *)
Record ChartManager : Type := mkChart {
  loadHistory : list LoadHistoryPoint.t;
  maxHistoryPoints : Z;
  onLog : bool;
  chartLogged : list (string * LogType);
}.

(** The constructor's initial values. *)
Definition newChartManager : ChartManager := mkChart [] 72000 false [].

Definition historyLimitMessage : string :=
  "Reached 2hr data limit. Oldest data points will be removed as new data arrives.".

Definition historyPoint (sample : MonitorSample) : LoadHistoryPoint.t :=
  LoadHistoryPoint.mk (timestamp sample) (loadA sample) (loadB sample)
    (posA sample) (posB sample).

Definition addData (sample : MonitorSample) (c : ChartManager)
  : ChartManager :=
  let history := loadHistory c ++ [historyPoint sample] in
  if maxHistoryPoints c <? Z.of_nat (length history) then
    let history := drop 1 history in
    if (Z.of_nat (length history) =? maxHistoryPoints c) && onLog c then
      mkChart history (maxHistoryPoints c) (onLog c)
        (chartLogged c ++ [(historyLimitMessage, info)])
    else mkChart history (maxHistoryPoints c) (onLog c) (chartLogged c)
  else mkChart history (maxHistoryPoints c) (onLog c) (chartLogged c).

(** [clear], without the redraw. *)
Definition clear (c : ChartManager) : ChartManager :=
  mkChart [] (maxHistoryPoints c) (onLog c) (chartLogged c).

Definition getDataCount (c : ChartManager) : Z :=
  Z.of_nat (length (loadHistory c)).

Inductive ChartCall : Type :=
| AddData (sample : MonitorSample)
| Clear.

Definition chartCall (c : ChartManager) (call : ChartCall) : ChartManager :=
  match call with
  | AddData sample => addData sample c
  | Clear => clear c
  end.

Definition chartRun (calls : list ChartCall) (c : ChartManager)
  : ChartManager :=
  fold_left chartCall calls c.

(** The samples handed to [addData] since the last [clear]. *)
Definition samplesSinceClear (calls : list ChartCall) : list MonitorSample :=
  fold_left
    (fun acc call =>
       match call with
       | AddData sample => acc ++ [sample]
       | Clear => []
       end) calls [].

(** ** hooks/useDevice.ts: the log buffer *)

Module LogEntry.
Record t : Type := mk {
  id : Z;
  message : string;
  type : LogType;
  timestamp : Z;
}.
End LogEntry.

Module UseDevice.

(** The [logs] state and the [logIdRef] counter of the hook. *)
Record t : Type := mk {
  logs : list LogEntry.t;
  logIdRef : Z;
}.

Definition initial : t := mk [] 0.

(** [addLog]; [now] is the [new Date()] of the entry. *)
Definition addLog (message : string) (type : LogType) (now : Z) (st : t)
  : t :=
  let id := logIdRef st + 1 in
  let newLogs := logs st ++ [LogEntry.mk id message type now] in
  mk (if (500 <? length newLogs)%nat
      then drop (length newLogs - 500) newLogs
      else newLogs)
     id.

Definition clearLogs (st : t) : t := mk [] (logIdRef st).

Inductive LogCall : Type :=
| CallAddLog (message : string) (type : LogType) (now : Z)
| CallClearLogs.

Definition logCall (st : t) (c : LogCall) : t :=
  match c with
  | CallAddLog message type now => addLog message type now st
  | CallClearLogs => clearLogs st
  end.

Definition isAddLog (c : LogCall) : bool :=
  match c with
  | CallAddLog _ _ _ => true
  | CallClearLogs => false
  end.

Definition logRun (calls : list LogCall) (st : t) : t :=
  fold_left logCall calls st.

(** Every entry written since the last [clearLogs], numbered by the
    count of all [addLog] calls so far: what the buffer would hold if it
    were never cut. *)
Definition written (calls : list LogCall) : list LogEntry.t * Z :=
  fold_left
    (fun acc c =>
       match c with
       | CallAddLog message type now =>
           (fst acc ++ [LogEntry.mk (snd acc + 1) message type now],
            snd acc + 1)
       | CallClearLogs => ([], snd acc)
       end) calls ([], 0).

End UseDevice.

(** Three samples for a chart that keeps two points. *)
Definition threeSamples : list MonitorSample :=
  [mkSample 100 1 10 11 1 2 None; mkSample 200 2 20 21 3 4 None;
   mkSample 300 3 30 31 5 6 None].

(** ** Handlers and the render that created them

    [useWorkout] returns new handlers from every render.  A handler reads
    the [useState] values of the render that created it (the values in its
    dependency list), while refs ([.current]) and state updaters
    ([setX(prev => ...)]) act on the state as it is when they run.  In the
    definitions of this section [c] is the state of the render that
    created the handler, of which only [useState] fields are read, and the
    state the [Hook] runs on is the live one.  What the two callbacks do
    to the state is a parameter: they are arguments of [useWorkout].

    The function handed to [setWarmupReps] or [setWorkingReps] is queued
    ([recordBottomPosition] has called [setRepRanges] just before, so the
    queue is not empty) and runs when React next renders, after the
    handler has returned: its effects come after the handler's last
    statement.  State updates that such a function makes itself (through
    [onWorkoutComplete]) are queued behind the value it returns. *)

Record Callbacks : Type := mkCallbacks {
  onAutoStop : Hook unit;
  onWorkoutComplete : Hook unit;
}.

(** Callbacks that leave the hook's state alone. *)
Definition inertCallbacks : Callbacks :=
  mkCallbacks (emit OnAutoStop) (emit OnWorkoutComplete).

Definition checkAutoStopWith (cb : Callbacks) (sample : MonitorSample)
    (ranges : RepRanges) (now : Z) : Hook unit :=
  if negb (truthy (minRepPosA ranges)) && negb (truthy (minRepPosB ranges))
  then modify (setAutoStopProgress 0%Q)
  else
    let checkCableA := checkCable (maxRepPosA ranges) (minRepPosA ranges) in
    let checkCableB := checkCable (maxRepPosB ranges) (minRepPosB ranges) in
    if negb checkCableA && negb checkCableB
    then modify (setAutoStopProgress 0%Q)
    else if inDangerZone sample ranges then
      s ← get;
      when (isNull (autoStopStartTime s))
        (modify (setAutoStopStartTime (Some now));;
         addLog MsgTimerStarted info);;
      s1 ← get;
      let elapsed := now - orZero (autoStopStartTime s1) in
      let progress :=
        Qmin (inject_Z elapsed / inject_Z AUTO_STOP_DURATION) 1 in
      modify (setAutoStopProgress progress);;
      when (AUTO_STOP_DURATION <=? elapsed)
        (addLog MsgAutoStopTriggered success;;
         onAutoStop cb)
    else
      s ← get;
      when (negb (isNull (autoStopStartTime s)))
        (addLog MsgTimerReset info;;
         modify (setAutoStopStartTime None));;
      modify (setAutoStopProgress 0%Q).

(** [handleMonitorSample] as created by render [c]: [maxPos] and
    [isJustLiftMode] are that render's. *)
Definition handleMonitorSampleWith (cb : Callbacks) (c : WorkoutState)
    (sample : MonitorSample) (now : Z) : Hook unit :=
  modify (setCurrentSampleRef (Some sample));;
  modify (setLiveStats (LiveStats.mk (posA sample) (posB sample)
                          (loadA sample) (loadB sample) (ticks sample)));;
  let currentMax := Z.max (posA sample) (posB sample) in
  when (maxPos c <? currentMax) (modify (setMaxPos (currentMax + 100)));;
  when (isJustLiftMode c)
    (s ← get; checkAutoStopWith cb sample (repRanges s) now).

(** "Track top of range" of the handler created by render [c]. *)
Definition trackTopWith (cb : Callbacks) (c : WorkoutState) (topCounter : Z)
    (sample : MonitorSample) : Hook unit :=
  s ← get;
  match lastTopCounter s with
  | None => modify (setLastTopCounter (Some topCounter))
  | Some last =>
      let topDelta := counterDelta topCounter last in
      when (0 <? topDelta)
        (addLog (MsgTopDetected last topCounter (posA sample) (posB sample))
           success;;
         recordTopPosition c (posA sample) (posB sample);;
         modify (setLastTopCounter (Some topCounter));;
         when (stopAtTop c && negb (isJustLiftMode c)
               && (0 <? targetReps c)
               && (workingReps c =? targetReps c - 1))
           (addLog MsgFinalRepTop success;;
            onAutoStop cb;;
            onWorkoutComplete cb))
  end.

(** The function handed to [setWorkingReps]: the new count is the value
    of this update, and what [onWorkoutComplete] queues comes after it. *)
Definition countWorkingRepWith (cb : Callbacks) (c : WorkoutState)
  : Hook unit :=
  s ← get;
  let newCount := workingReps s + 1 in
  addLog (MsgWorkingRep newCount
            (if 0 <? targetReps c then targetReps c else 0)) success;;
  modify (setWorkingReps newCount);;
  when (negb (stopAtTop c) && negb (isJustLiftMode c)
        && (0 <? targetReps c) && (targetReps c <=? newCount))
    (addLog MsgTargetReached success;;
     onWorkoutComplete cb).

(** "Track rep complete / bottom of range" of the handler created by
    render [c], followed by the queued counter update. *)
Definition trackBottomWith (cb : Callbacks) (c : WorkoutState)
    (completeCounter : Z) (sample : MonitorSample) (now : Z) : Hook unit :=
  s ← get;
  match lastRepCounter s with
  | None => modify (setLastRepCounter (Some completeCounter))
  | Some last =>
      let delta := counterDelta completeCounter last in
      if 0 <? delta then
        addLog (MsgBottomDetected last completeCounter
                  (posA sample) (posB sample)) success;;
        recordBottomPosition c (posA sample) (posB sample);;
        modify (setLastRepCounter (Some completeCounter));;
        let totalReps := warmupReps c + workingReps c + 1 in
        if totalReps <=? warmupTarget c then countWarmupRep c now
        else countWorkingRepWith cb c
      else modify (setLastRepCounter (Some completeCounter))
  end.

(** The handler once the two counters are decoded: [currentSampleRef] is
    a ref, [currentWorkout] is the render's. *)
Definition processRepCountersWith (cb : Callbacks) (c : WorkoutState)
    (topCounter completeCounter : Z) (now : Z) : Hook unit :=
  s ← get;
  let sample := currentSampleRef s in
  addLog (MsgRepNotification topCounter completeCounter sample) info;;
  match sample, currentWorkout c with
  | Some smp, Some _ =>
      trackTopWith cb c topCounter smp;;
      trackBottomWith cb c completeCounter smp now
  | _, _ => ret tt
  end.

Definition handleRepNotificationWith (cb : Callbacks) (c : WorkoutState)
    (data : list byte) (now : Z) (s : WorkoutState)
  : Completion (WorkoutState * list Effect) :=
  if (length data <? 6)%nat then Normal (s, [])
  else
    match readU16Values data with
    | Throw e => Throw e
    | Normal u16Values =>
        if (length u16Values <? 3)%nat then Normal (s, [])
        else
          let topCounter := nth 0 u16Values 0 in
          let completeCounter := nth 2 u16Values 0 in
          let r := processRepCountersWith cb c topCounter completeCounter
                     now s in
          Normal (stateOf r, effectsOf r)
    end.

(** [completeWorkout] as created by render [c]: the record is built from
    that render's [currentWorkout] and [workingReps]. *)
Definition completeWorkoutOf (c : WorkoutState) (now : Z) : Hook unit :=
  match currentWorkout c with
  | Some w =>
      let completedWorkout :=
        Workout.mk (CurrentWorkout.mode w) (CurrentWorkout.weightKg w)
          (workingReps c) now (CurrentWorkout.startTime w)
          (CurrentWorkout.warmupEndTime w) now in
      s ← get;
      modify (setWorkoutHistory (completedWorkout :: workoutHistory s));;
      addLog MsgWorkoutSaved success
  | None => ret tt
  end;;
  resetWorkout.

(** App.tsx: the callbacks [App] hands to [useWorkout] in render [c].
    [handleAutoStop] sends the stop command and touches nothing of the
    hook; [() => completeWorkout()] calls the render's [completeWorkout]. *)
Definition appCallbacks (c : WorkoutState) (now : Z) : Callbacks :=
  mkCallbacks (emit OnAutoStop)
    (emit OnWorkoutComplete;; completeWorkoutOf c now).

(** A call made through a handler that render [c] created. *)
Definition callOf (c : WorkoutState) (call : Call) (s : WorkoutState)
  : WorkoutState * list Effect :=
  match call with
  | StartWorkout mode weightKg reps isJustLift now =>
      let r := startWorkout mode weightKg reps isJustLift now s in
      (stateOf r, effectsOf r)
  | MonitorSampleArrives sample now =>
      let r := handleMonitorSampleWith (appCallbacks c now) c sample now s in
      (stateOf r, effectsOf r)
  | RepNotification data now =>
      match handleRepNotificationWith (appCallbacks c now) c data now s with
      | Normal r => r
      | Throw _ => (s, [])
      end
  | CompleteWorkout now =>
      let r := completeWorkoutOf c now s in (stateOf r, effectsOf r)
  | ResetWorkout => let r := resetWorkout s in (stateOf r, effectsOf r)
  | SetStopAtTop value => (setStopAtTop value s, [])
  end.

(** Calls, each made through a handler of the render given with it. *)
Fixpoint runOf (cs : list (WorkoutState * Call)) (s : WorkoutState)
  : WorkoutState * list Effect :=
  match cs with
  | [] => (s, [])
  | (c, call) :: rest =>
      let '(s1, e1) := callOf c call s in
      let '(s2, e2) := runOf rest s1 in
      (s2, e1 ++ e2)
  end.

(** Calls, each made through the handler of the latest render: the one
    that closes over the state the previous call left. *)
Fixpoint latestRun (cs : list Call) (s : WorkoutState)
  : WorkoutState * list Effect :=
  match cs with
  | [] => (s, [])
  | call :: rest =>
      let '(s1, e1) := callOf s call s in
      let '(s2, e2) := latestRun rest s1 in
      (s2, e1 ++ e2)
  end.

(** App.tsx, [handleStartProgram] and [handleStartEcho] of render [c],
    for inputs that pass the checks and a device that accepts the
    program: [startWorkout] first, then the render's own [onMonitorSample]
    and [handleRepNotification] are added to the device's listeners.  The
    result is the render whose handlers were registered: [c] itself, not
    the render that follows [startWorkout]. *)
Definition handleStart (c : WorkoutState) (modeName : string)
    (weightKg : Q) (reps : Z) (isJustLift : bool) (now : Z)
  : Hook WorkoutState :=
  startWorkout modeName weightKg reps isJustLift now;;
  mret c.

(** What the device delivers to registered listeners. *)
Definition isDelivery (call : Call) : bool :=
  match call with
  | MonitorSampleArrives _ _ | RepNotification _ _ => true
  | _ => false
  end.

(** A Start click in render [c] followed by deliveries to the handlers
    that click registered. *)
Definition sessionAfterStart (c : WorkoutState) (modeName : string)
    (weightKg : Q) (reps : Z) (isJustLift : bool) (now : Z)
    (deliveries : list Call) : WorkoutState * list Effect :=
  let '(registered, s, _) :=
    handleStart c modeName weightKg reps isJustLift now c in
  runOf (map (fun call => (registered, call)) deliveries) s.

(** Whether a BOTTOM event makes the handler of render [c] call
    [onWorkoutComplete]: it is counted as the working rep that reaches
    the target. *)
Definition completesAtBottom (c s : WorkoutState) (completeCounter : Z)
  : bool :=
  bottomFires s completeCounter
  && negb (warmupReps c + workingReps c + 1 <=? warmupTarget c)
  && finalRep c (workingReps s + 1).

(** What holds of the hook's state whatever handlers are called. *)
Definition programInv (s : WorkoutState) : Prop :=
  warmupTarget s = WARMUP_TARGET_DEFAULT /\
  0 <= warmupReps s /\
  0 <= workingReps s /\
  (length (topPositionsA s) <= WINDOW_SIZE_WORKING)%nat /\
  (length (bottomPositionsA s) <= WINDOW_SIZE_WORKING)%nat /\
  length (topPositionsB s) = length (topPositionsA s) /\
  length (bottomPositionsB s) = length (bottomPositionsA s) /\
  repRanges s = derivedRanges s.

(** The state once a TOP (resp. BOTTOM) event has been recorded: the
    positions are in the windows, the ranges are recomputed and the
    counter is stored. *)
Definition withTopRecorded (c s : WorkoutState) (topCounter : Z)
    (sample : MonitorSample) : WorkoutState :=
  setLastTopCounter (Some topCounter)
    (stateOf (recordTopPosition c (posA sample) (posB sample) s)).

Definition withBottomRecorded (c s : WorkoutState) (completeCounter : Z)
    (sample : MonitorSample) : WorkoutState :=
  setLastRepCounter (Some completeCounter)
    (stateOf (recordBottomPosition c (posA sample) (posB sample) s)).



(** A running workout whose top counter was last seen at 65530 and whose
    complete counter was last seen at 7, each call having gone through
    the handler of the latest render. *)
Definition wrappingState : WorkoutState :=
  Eval vm_compute in
  fst (latestRun [StartWorkout "Old School" 10%Q 10 false 0;
                  MonitorSampleArrives (scenarioSample 500 500) 1;
                  RepNotification (repPayload 65530 7) 2] initialState).





(** * Verified properties *)

(** ** Bytes *)

Lemma byteVal_range (b : byte) : 0 <= byteVal b < 256.
Proof.
  unfold byteVal. pose proof (Byte.to_N_bounded b) as Hb. lia.
Qed.

Lemma getUint16_cons (b : byte) (data : list byte) (off : nat) :
  getUint16 (b :: data) (S off) = getUint16 data off.
Proof. reflexivity. Qed.

Lemma getUint16_Normal (data : list byte) (off : nat) :
  (S off < length data)%nat ->
  exists v, getUint16 data off = Normal v /\ 0 <= v < 65536.
Proof.
  intros Hlen. unfold getUint16.
  destruct (lookup_lt_is_Some_2 data off) as [lo Hlo]; [lia|].
  destruct (lookup_lt_is_Some_2 data (S off)) as [hi Hhi]; [lia|].
  rewrite Hlo, Hhi. eexists; split; [reflexivity|].
  pose proof (byteVal_range lo). pose proof (byteVal_range hi). lia.
Qed.

Lemma getUint16_Throw (data : list byte) (off : nat) :
  (length data <= S off)%nat -> getUint16 data off = Throw RangeError.
Proof.
  intros Hlen. unfold getUint16.
  rewrite (lookup_ge_None_2 data (S off)) by lia.
  destruct (data !! off); reflexivity.
Qed.

Lemma toInt32_small (z : Z) : - 2 ^ 31 <= z < 2 ^ 31 -> toInt32 z = z.
Proof.
  intros Hz. unfold toInt32. rewrite Z.mod_small by lia. lia.
Qed.

Lemma toInt32_high (z : Z) :
  2 ^ 31 <= z < 2 ^ 32 -> toInt32 z = z - 2 ^ 32.
Proof.
  intros Hz. unfold toInt32.
  replace (z + 2 ^ 31) with (z - 2 ^ 31 + 1 * 2 ^ 32) by lia.
  rewrite Z.mod_add by lia. rewrite Z.mod_small by lia. lia.
Qed.

Lemma jsShiftLeft_u16 (v : Z) :
  0 <= v < 65536 ->
  jsShiftLeft v 16 =
    if v <? 32768 then v * 65536 else v * 65536 - 2 ^ 32.
Proof.
  intros Hv. unfold jsShiftLeft.
  rewrite (toInt32_small v) by lia.
  change (Z.land 16 31) with 16.
  rewrite Z.shiftl_mul_pow2 by lia. change (2 ^ 16) with 65536.
  destruct (v <? 32768) eqn:Hlt.
  - apply Z.ltb_lt in Hlt. apply toInt32_small. lia.
  - apply Z.ltb_ge in Hlt. apply toInt32_high. lia.
Qed.

(** ** The monitor decoder *)

(** What [parseMonitorData] returns on a buffer that holds the six fields. *)
Lemma parseMonitorData_long (dev : SpikeFilter) (now : Z) (data : list byte) :
  (16 <= length data)%nat ->
  exists f0 f1 f2 f4 f5 f7,
    getUint16 data 0 = Normal f0 /\ getUint16 data 2 = Normal f1 /\
    getUint16 data 4 = Normal f2 /\ getUint16 data 8 = Normal f4 /\
    getUint16 data 10 = Normal f5 /\ getUint16 data 14 = Normal f7 /\
    0 <= f1 < 65536 /\
    parseMonitorData dev now data =
      Normal (mkSample now (f0 + jsShiftLeft f1 16)
                (if 50000 <? f2 then lastGoodPosA dev else f2)
                (if 50000 <? f5 then lastGoodPosB dev else f5)
                (inject_Z f4 / 100)%Q (inject_Z f7 / 100)%Q (Some data),
              mkFilter (if 50000 <? f2 then lastGoodPosA dev else f2)
                       (if 50000 <? f5 then lastGoodPosB dev else f5)).
Proof.
  intros Hlen.
  destruct (getUint16_Normal data 0) as (f0 & E0 & _); [lia|].
  destruct (getUint16_Normal data 2) as (f1 & E1 & R1); [lia|].
  destruct (getUint16_Normal data 4) as (f2 & E2 & _); [lia|].
  destruct (getUint16_Normal data 8) as (f4 & E4 & _); [lia|].
  destruct (getUint16_Normal data 10) as (f5 & E5 & _); [lia|].
  destruct (getUint16_Normal data 14) as (f7 & E7 & _); [lia|].
  exists f0, f1, f2, f4, f5, f7.
  repeat (split; [assumption|]).
  unfold parseMonitorData.
  destruct (length data <? 16)%nat eqn:Hshort;
    [apply Nat.ltb_lt in Hshort; lia|].
  rewrite E0, E1, E2, E4, E5, E7.
  destruct (50000 <? f2), (50000 <? f5); reflexivity.
Qed.

(** C5: on a buffer of at least 16 bytes, each cable's decoded position
    above 50000 is replaced by that cable's last good value, which stays
    as it was; a decoded position of at most 50000 is emitted as it is and
    becomes the last good value. *)
Theorem spike_filter (dev : SpikeFilter) (now : Z) (data : list byte) :
  (16 <= length data)%nat ->
  exists decodedA decodedB sample dev',
    getUint16 data 4 = Normal decodedA /\
    getUint16 data 10 = Normal decodedB /\
    parseMonitorData dev now data = Normal (sample, dev') /\
    (if 50000 <? decodedA
     then posA sample = lastGoodPosA dev /\ lastGoodPosA dev' = lastGoodPosA dev
     else posA sample = decodedA /\ lastGoodPosA dev' = decodedA) /\
    (if 50000 <? decodedB
     then posB sample = lastGoodPosB dev /\ lastGoodPosB dev' = lastGoodPosB dev
     else posB sample = decodedB /\ lastGoodPosB dev' = decodedB).
Proof.
  intros Hlen.
  destruct (parseMonitorData_long dev now data Hlen)
    as (f0 & f1 & f2 & f4 & f5 & f7 & _ & _ & E2 & _ & E5 & _ & _ & Hp).
  exists f2, f5. eexists. eexists.
  split; [exact E2|]. split; [exact E5|]. split; [exact Hp|].
  simpl. destruct (50000 <? f2), (50000 <? f5); auto.
Qed.

(** The spec's two examples, one on each cable: with last good values of
    120, the decoded 60000 emits 120 and keeps 120, and the decoded 300
    emits 300 and stores 300. *)
Lemma spike_filter_witness :
  (16 <= length spikeBuffer)%nat /\
  exists decodedA decodedB sample dev',
    getUint16 spikeBuffer 4 = Normal decodedA /\
    getUint16 spikeBuffer 10 = Normal decodedB /\
    parseMonitorData (mkFilter 120 120) 0 spikeBuffer = Normal (sample, dev') /\
    (if 50000 <? decodedA
     then posA sample = 120 /\ lastGoodPosA dev' = 120
     else posA sample = decodedA /\ lastGoodPosA dev' = decodedA) /\
    (if 50000 <? decodedB
     then posB sample = 120 /\ lastGoodPosB dev' = 120
     else posB sample = decodedB /\ lastGoodPosB dev' = decodedB).
Proof.
  split; [simpl; lia|].
  apply (spike_filter (mkFilter 120 120) 0 spikeBuffer). simpl; lia.
Defined.

Example spike_filter_example :
  parseMonitorData (mkFilter 120 120) 0 spikeBuffer =
    Normal (mkSample 0 0 120 300 (0 / 100)%Q (0 / 100)%Q (Some spikeBuffer),
            mkFilter 120 300).
Proof. reflexivity. Qed.

(** C6: the decoder is to rebuild the 32-bit tick counter from its two
    halves (its own comment), but it shifts the high half with the int32
    operator: on the buffer 01 00 00 80 ..., whose halves are 1 and
    0x8000, the ticks come out as -2147483647 and not as
    1 + 0x8000 * 2^16. *)
Lemma monitor_ticks_high_half :
  getUint16 highTickBuffer 0 = Normal 1 /\
  getUint16 highTickBuffer 2 = Normal 32768 /\
  (exists sample dev',
     parseMonitorData initialFilter 0 highTickBuffer = Normal (sample, dev') /\
     ticks sample = -2147483647) /\
  ~ (exists sample dev',
       parseMonitorData initialFilter 0 highTickBuffer = Normal (sample, dev') /\
       ticks sample = 1 + Z.shiftl 32768 16).
Proof.
  split; [reflexivity|]. split; [reflexivity|]. split.
  - eexists. eexists. split; reflexivity.
  - intros (sample & dev' & Hp & Ht).
    vm_compute in Hp. injection Hp as <- _. vm_compute in Ht. discriminate.
Qed.

(** X23: what the decoder computes on any buffer.  A buffer shorter than
    16 bytes gives, without raising, a sample whose ticks, positions and
    loads are zero and whose raw field is the buffer; on a longer buffer
    the loads are the u16s at offsets 8 and 14 divided by 100, and the
    ticks are the u16 at offset 0 plus the int32 value of the u16 at
    offset 2 shifted left by 16: the sum of the two halves while the high
    half is below 0x8000, and 2^32 less from there on. *)
Theorem monitor_decode (dev : SpikeFilter) (now : Z) (data : list byte) :
  if (length data <? 16)%nat
  then parseMonitorData dev now data =
         Normal (mkSample now 0 0 0 0%Q 0%Q (Some data), dev)
  else exists f0 f1 f4 f7 sample dev',
    getUint16 data 0 = Normal f0 /\ getUint16 data 2 = Normal f1 /\
    getUint16 data 8 = Normal f4 /\ getUint16 data 14 = Normal f7 /\
    parseMonitorData dev now data = Normal (sample, dev') /\
    ticks sample = f0 + toInt32 (f1 * 2 ^ 16) /\
    ticks sample =
      (if f1 <? 2 ^ 15 then f0 + f1 * 2 ^ 16
       else f0 + f1 * 2 ^ 16 - 2 ^ 32) /\
    loadA sample = (inject_Z f4 / 100)%Q /\
    loadB sample = (inject_Z f7 / 100)%Q /\
    raw sample = Some data.
Proof.
  destruct (length data <? 16)%nat eqn:Hshort.
  - unfold parseMonitorData. rewrite Hshort. reflexivity.
  - apply Nat.ltb_ge in Hshort.
    destruct (parseMonitorData_long dev now data Hshort)
      as (f0 & f1 & f2 & f4 & f5 & f7 & E0 & E1 & _ & E4 & _ & E7 & R1 & Hp).
    exists f0, f1, f4, f7. eexists. eexists.
    repeat (split; [eassumption|]).
    cbn [ticks loadA loadB raw].
    pose proof (jsShiftLeft_u16 f1 R1) as Hsh.
    change (2 ^ 15) with 32768. change (2 ^ 16) with 65536.
    repeat split.
    + rewrite Hsh. destruct (f1 <? 32768) eqn:Hlt.
      * apply Z.ltb_lt in Hlt. rewrite toInt32_small; lia.
      * apply Z.ltb_ge in Hlt. rewrite toInt32_high; lia.
    + rewrite Hsh. destruct (f1 <? 32768); lia.
Qed.

Example monitor_decode_short :
  parseMonitorData (mkFilter 120 7) 5 [x01; x02; x03] =
    Normal (mkSample 5 0 0 0 0%Q 0%Q (Some [x01; x02; x03]), mkFilter 120 7).
Proof. reflexivity. Qed.

(** ** The rep-notification payload *)

Lemma readU16Loop_odd (data : list byte) (fuel i : nat) (acc : list Z) :
  Nat.odd (length data) = true ->
  (2 * i < length data)%nat ->
  (length data <= fuel + 2 * i)%nat ->
  readU16Loop fuel data i acc = Throw RangeError.
Proof.
  intros Hodd. apply Nat.odd_spec in Hodd as [k Hk].
  revert i acc. induction fuel as [|fuel IH]; intros i acc Hi Hfuel; [lia|].
  cbn [readU16Loop].
  destruct (2 * i <? length data)%nat eqn:Hc;
    [|apply Nat.ltb_ge in Hc; lia].
  destruct (Nat.lt_ge_cases (S (i * 2)) (length data)) as [Hin|Hout].
  - destruct (getUint16_Normal data (i * 2) Hin) as (v & -> & _).
    apply IH; lia.
  - rewrite getUint16_Throw by lia. reflexivity.
Qed.

Lemma readU16Loop_even (data : list byte) (fuel i : nat) (acc : list Z) :
  Nat.even (length data) = true ->
  (length data <= fuel + 2 * i)%nat ->
  exists vs, readU16Loop fuel data i acc = Normal vs.
Proof.
  intros Heven. apply Nat.even_spec in Heven as [k Hk].
  revert i acc. induction fuel as [|fuel IH]; intros i acc Hfuel.
  - cbn [readU16Loop].
    destruct (2 * i <? length data)%nat; eexists; reflexivity.
  - cbn [readU16Loop].
    destruct (2 * i <? length data)%nat eqn:Hc; [|eexists; reflexivity].
    apply Nat.ltb_lt in Hc.
    destruct (getUint16_Normal data (i * 2)) as (v & -> & _); [lia|].
    apply IH; lia.
Qed.

Lemma readU16Loop_length (data : list byte) (fuel i : nat) (acc vs : list Z) :
  readU16Loop fuel data i acc = Normal vs ->
  (length data <= fuel + 2 * i)%nat ->
  (length data <= 2 * (length vs - length acc + i))%nat /\
  (length acc <= length vs)%nat.
Proof.
  revert i acc. induction fuel as [|fuel IH]; intros i acc Hr Hfuel.
  - cbn [readU16Loop] in Hr.
    destruct (2 * i <? length data)%nat eqn:Hc.
    + apply Nat.ltb_lt in Hc. lia.
    + apply Nat.ltb_ge in Hc. injection Hr as <-. lia.
  - cbn [readU16Loop] in Hr.
    destruct (2 * i <? length data)%nat eqn:Hc.
    + destruct (getUint16 data (i * 2)) as [v|e]; [|discriminate].
      apply IH in Hr; [|lia]. rewrite length_app in Hr. simpl in Hr. lia.
    + apply Nat.ltb_ge in Hc. injection Hr as <-. lia.
Qed.

Lemma readU16Values_length (data : list byte) (vs : list Z) :
  readU16Values data = Normal vs -> (length data <= 2 * length vs)%nat.
Proof.
  intros Hr. apply readU16Loop_length in Hr; [|lia]. simpl in Hr. lia.
Qed.

(** A payload of six bytes or more whose values decode reaches the counter
    logic. *)
Lemma handleRepNotification_decoded (data : list byte) (now : Z)
    (s : WorkoutState) (vs : list Z) :
  (6 <= length data)%nat ->
  readU16Values data = Normal vs ->
  handleRepNotification data now s =
    Normal (stateOf (processRepCounters (nth 0 vs 0) (nth 2 vs 0) now s s),
            effectsOf (processRepCounters (nth 0 vs 0) (nth 2 vs 0) now s s)).
Proof.
  intros Hlen Hr. unfold handleRepNotification.
  destruct (length data <? 6)%nat eqn:H6; [apply Nat.ltb_lt in H6; lia|].
  rewrite Hr.
  pose proof (readU16Values_length data vs Hr) as Hvs.
  destruct (length vs <? 3)%nat eqn:H3; [apply Nat.ltb_lt in H3; lia|].
  reflexivity.
Qed.

(** C8 fails on the code: a payload of odd length, seven bytes or more,
    makes the handler raise [RangeError] (the last loop iteration reads
    two bytes where one is left). *)
Theorem rep_notification_odd_length_throws (data : list byte) (now : Z)
    (s : WorkoutState) :
  (7 <= length data)%nat ->
  Nat.odd (length data) = true ->
  handleRepNotification data now s = Throw RangeError.
Proof.
  intros Hlen Hodd. unfold handleRepNotification.
  destruct (length data <? 6)%nat eqn:H6; [apply Nat.ltb_lt in H6; lia|].
  unfold readU16Values. rewrite readU16Loop_odd; [reflexivity|assumption|lia|lia].
Qed.

Lemma rep_notification_odd_length_throws_witness :
  handleRepNotification [x01; x00; x00; x00; x01; x00; x00] 0 initialState
    = Throw RangeError.
Proof.
  apply rep_notification_odd_length_throws; [simpl; lia | reflexivity].
Defined.

(** The rest of C8 holds: short payloads are ignored, and payloads of even
    length are decoded without raising. *)
Lemma rep_notification_short_ignored (data : list byte) (now : Z)
    (s : WorkoutState) :
  (length data < 6)%nat -> handleRepNotification data now s = Normal (s, []).
Proof.
  intros Hlen. unfold handleRepNotification.
  apply Nat.ltb_lt in Hlen. rewrite Hlen. reflexivity.
Qed.

Lemma rep_notification_even_length_returns (data : list byte) (now : Z)
    (s : WorkoutState) :
  Nat.even (length data) = true ->
  exists r, handleRepNotification data now s = Normal r.
Proof.
  intros Heven.
  destruct (Nat.lt_ge_cases (length data) 6) as [Hs|Hl].
  - rewrite rep_notification_short_ignored by assumption. eexists; reflexivity.
  - destruct (readU16Loop_even data (length data) 0 [] Heven) as [vs Hvs]; [lia|].
    erewrite handleRepNotification_decoded by eassumption.
    eexists; reflexivity.
Qed.

(** ** The workout engine *)

(** Unfold the hook's plumbing and the setters, then project. *)
Ltac hook_simpl :=
  cbv beta iota zeta delta
    [stateOf effectsOf when addLog emit modify get mbind hook_bind bind
     mret hook_ret ret
     setCurrentWorkout setWarmupReps setWorkingReps setTargetReps
     setWorkoutHistory setIsJustLiftMode setStopAtTop setAutoStopProgress
     setMaxPos setLiveStats setRepRanges setTopPositionsA
     setBottomPositionsA setTopPositionsB setBottomPositionsB
     setLastTopCounter setLastRepCounter setAutoStopStartTime
     setCurrentSampleRef clearTracking stampWarmupEnd];
  cbn [fst snd app
     currentWorkout warmupReps workingReps warmupTarget targetReps
     workoutHistory isJustLiftMode stopAtTop autoStopProgress maxPos
     liveStats repRanges topPositionsA bottomPositionsA topPositionsB
     bottomPositionsB lastTopCounter lastRepCounter autoStopStartTime
     currentSampleRef].

Ltac hook_cases :=
  repeat (hook_simpl;
          match goal with
          | |- context [if ?c then _ else _] => destruct c eqn:?
          | |- context [match ?o with Some _ => _ | None => _ end] =>
              destruct o eqn:?
          end);
  hook_simpl.

Ltac hook_finish :=
  repeat split; try reflexivity; try assumption; try congruence; try lia.

Example counter_wraparound : counterDelta 4 65530 = 10.
Proof. reflexivity. Qed.

(** ** Runs of the engine *)

Lemma run_cons (c : Call) (rest : list Call) (s : WorkoutState) :
  fst (run (c :: rest) s) = fst (run rest (fst (call c s))).
Proof.
  cbn [run]. destruct (call c s) as [s1 e1]. cbn [fst].
  destruct (run rest s1) as [s2 e2]. reflexivity.
Qed.

(** A notification that does not find both a sample and a workout is
    logged and changes nothing. *)
Lemma processRepCounters_dropped (s : WorkoutState) (c k now : Z) :
  findsSampleAndWorkout s = false ->
  processRepCounters c k now s s =
    (tt, s, [AddLog (MsgRepNotification c k (currentSampleRef s)) info]).
Proof.
  unfold findsSampleAndWorkout, processRepCounters. intros Hf.
  destruct (currentSampleRef s), (currentWorkout s); try discriminate;
    reflexivity.
Qed.

Lemma call_rep_not_decoded (data : list byte) (now : Z) (s : WorkoutState) :
  decodes data = false -> fst (call (RepNotification data now) s) = s.
Proof.
  unfold decodes. intros Hd. cbn [call]. unfold handleRepNotification.
  destruct (length data <? 6)%nat eqn:H6; [reflexivity|].
  apply Nat.ltb_ge in H6. apply Nat.leb_le in H6. rewrite H6 in Hd.
  destruct (readU16Values data); [discriminate | reflexivity].
Qed.

Lemma decodes_Normal (data : list byte) :
  decodes data = true ->
  (6 <= length data)%nat /\ exists vs, readU16Values data = Normal vs.
Proof.
  unfold decodes. intros Hd. apply andb_true_iff in Hd as [H6 Hr].
  apply Nat.leb_le in H6. split; [exact H6|].
  destruct (readU16Values data) as [vs|]; [eauto | discriminate].
Qed.

Lemma call_rep_dropped (data : list byte) (now : Z) (s : WorkoutState) :
  findsSampleAndWorkout s = false ->
  fst (call (RepNotification data now) s) = s.
Proof.
  intros Hf. destruct (decodes data) eqn:Hd.
  - apply decodes_Normal in Hd as (H6 & vs & Hvs).
    cbn [call]. rewrite (handleRepNotification_decoded data now s vs H6 Hvs).
    rewrite processRepCounters_dropped by assumption. reflexivity.
  - apply call_rep_not_decoded. exact Hd.
Qed.

(** ** Auto-stop *)

(** C10: in unlimited mode, when both bottom-window averages are unset or
    0, a monitor sample sets the progress to 0, leaves the timer as it
    was (so does not arm it) and calls nothing, whatever the top averages
    and the position are. *)
Theorem auto_stop_needs_bottom_average (s : WorkoutState)
    (sample : MonitorSample) (now : Z) :
  isJustLiftMode s = true ->
  truthy (minRepPosA (repRanges s)) = false ->
  truthy (minRepPosB (repRanges s)) = false ->
  let r := handleMonitorSample sample now s in
  autoStopProgress (stateOf r) = 0%Q /\
  autoStopStartTime (stateOf r) = autoStopStartTime s /\
  effectsOf r = [].
Proof.
  intros Hjl HA HB. unfold handleMonitorSample, checkAutoStop.
  hook_simpl. rewrite Hjl.
  destruct (maxPos s <? Z.max (posA sample) (posB sample));
    hook_simpl; rewrite HA, HB; hook_simpl; repeat split; reflexivity.
Qed.

Lemma auto_stop_needs_bottom_average_witness :
  maxRepPosA (repRanges zeroBottomState) = Some 100 /\
  minRepPosA (repRanges zeroBottomState) = Some 0 /\
  checkCable (Some 100) (Some 0) = true /\
  inDangerZone (scenarioSample 0 0) (repRanges zeroBottomState) = true /\
  let r := handleMonitorSample (scenarioSample 0 0) 2000 zeroBottomState in
  autoStopProgress (stateOf r) = 0%Q /\
  autoStopStartTime (stateOf r) = None /\
  effectsOf r = [].
Proof.
  split; [reflexivity|]. split; [reflexivity|]. split; [reflexivity|].
  split; [reflexivity|].
  apply (auto_stop_needs_bottom_average zeroBottomState (scenarioSample 0 0)
           2000); reflexivity.
Defined.

(** What [checkAutoStop] does on a sample in the danger zone: the timer
    starts now unless it is running, the progress is
    [min (elapsed / 5000, 1)], and [onAutoStop] is called exactly when
    the elapsed time has reached 5000 ms; the timer keeps running. *)
Lemma checkAutoStop_in_danger (sample : MonitorSample) (ranges : RepRanges)
    (now : Z) (s : WorkoutState) :
  truthy (minRepPosA ranges) || truthy (minRepPosB ranges) = true ->
  checkCable (maxRepPosA ranges) (minRepPosA ranges)
  || checkCable (maxRepPosB ranges) (minRepPosB ranges) = true ->
  inDangerZone sample ranges = true ->
  let start := match autoStopStartTime s with Some t => t | None => now end in
  let elapsed := now - start in
  let r := checkAutoStop sample ranges now s in
  stateOf r =
    setAutoStopProgress (Qmin (inject_Z elapsed / inject_Z 5000) 1)
      (setAutoStopStartTime (Some start) s) /\
  filter isAutoStopCall (effectsOf r) =
    (if 5000 <=? elapsed then [OnAutoStop] else []).
Proof.
  intros Hmin Hcheck Hdanger. unfold checkAutoStop.
  apply orb_true_iff in Hmin. apply orb_true_iff in Hcheck.
  destruct (negb (truthy (minRepPosA ranges))
            && negb (truthy (minRepPosB ranges))) eqn:H1.
  { apply andb_true_iff in H1 as [Ha Hb].
    apply negb_true_iff in Ha, Hb. destruct Hmin; congruence. }
  destruct (negb (checkCable (maxRepPosA ranges) (minRepPosA ranges))
            && negb (checkCable (maxRepPosB ranges) (minRepPosB ranges)))
    eqn:H2.
  { apply andb_true_iff in H2 as [Ha Hb].
    apply negb_true_iff in Ha, Hb. destruct Hcheck; congruence. }
  rewrite Hdanger. unfold AUTO_STOP_DURATION.
  destruct (autoStopStartTime s) as [t|] eqn:Ht;
    hook_simpl; rewrite ?Ht; unfold isNull, orZero;
    hook_simpl; rewrite ?Ht; cbv beta iota.
  - destruct (5000 <=? now - t); hook_simpl; rewrite ?Ht; split; reflexivity.
  - destruct (5000 <=? now - now); hook_simpl; split; reflexivity.
Qed.

(** C1 fails on the code: within one uninterrupted danger-zone interval
    [onAutoStop] is called on every sample from 5000 ms on, here twice. *)
Theorem auto_stop_repeats_within_interval :
  inDangerZone (scenarioSample 200 0) (repRanges rangeEstablished) = true /\
  autoStopStartTime rangeEstablished = None /\
  autoStopStartTime (fst (run restingSamples rangeEstablished)) = Some 10000 /\
  filter isAutoStopCall (snd (run restingSamples rangeEstablished))
    = [OnAutoStop; OnAutoStop].
Proof. repeat split; reflexivity. Qed.

(** ** The GATT operation queue *)

Lemma gattInv_initial : gattInv [] [] initialGatt.
Proof.
  unfold gattInv, initialGatt. cbn.
  repeat split; try reflexivity; try lia; intros H; discriminate H.
Qed.

Lemma removeFirst_head (op : OpId) (l : list OpId) :
  removeFirst op (op :: l) = l.
Proof. cbn. rewrite Nat.eqb_refl. reflexivity. Qed.

Ltac gatt_finish Hsubs :=
  unfold gattInv; cbn;
  repeat split;
  try assumption; try lia; try congruence;
  try (intros H; discriminate H);
  try (intros _; eexists; reflexivity);
  try (rewrite Hsubs; cbn; rewrite ?map_app; cbn;
       rewrite <- ?app_assoc, ?app_nil_r; reflexivity).

Lemma gattInv_submit (subs : list OpId) (setl : list (OpId * Outcome))
    (d : GattState) (op : OpId) :
  gattInv subs setl d ->
  gattInv (subs ++ [op]) setl (queueGattOperation op d).
Proof.
  intros (Hone & Hsubs & Hset & Hidle & Hbusy).
  destruct d as [q busy run setd]. cbn in *.
  unfold queueGattOperation, processGattQueue. cbn.
  destruct busy.
  - cbn. destruct (Hbusy eq_refl) as [r ->]. gatt_finish Hsubs.
  - destruct (Hidle eq_refl) as [-> ->]. cbn. gatt_finish Hsubs.
Qed.

Lemma gattInv_settle (subs : list OpId) (setl : list (OpId * Outcome))
    (d : GattState) (op : OpId) (o : Outcome) :
  gattInv subs setl d ->
  op ∈ running d ->
  gattInv subs (setl ++ [(op, o)]) (resumeAfterAwait op o d).
Proof.
  intros (Hone & Hsubs & Hset & Hidle & Hbusy) Hin.
  destruct d as [q busy run setd]. cbn in *.
  destruct run as [|r [|r' run]]; [inversion Hin | | cbn in Hone; lia].
  apply list_elem_of_singleton in Hin. subst r.
  unfold resumeAfterAwait, processGattQueue.
  cbn [running gattQueue gattBusy settled].
  rewrite removeFirst_head. cbn [orb].
  destruct q as [|h rest]; cbn; gatt_finish Hsubs.
Qed.

Lemma gattRun_inv (evs : list GattEvent) (subs : list OpId)
    (setl : list (OpId * Outcome)) (d d' : GattState) :
  gattInv subs setl d ->
  gattRun evs d = Some d' ->
  gattInv (subs ++ submissions evs) (setl ++ settlements evs) d'.
Proof.
  revert subs setl d. induction evs as [|ev rest IH]; intros subs setl d Hinv Hrun.
  - cbn in *. injection Hrun as <-. rewrite !app_nil_r. exact Hinv.
  - cbn [gattRun] in Hrun. destruct ev as [op|op o]; cbn [gattStep] in Hrun.
    + cbn [submissions settlements].
      replace (subs ++ op :: submissions rest)
        with ((subs ++ [op]) ++ submissions rest)
        by (rewrite <- app_assoc; reflexivity).
      eapply IH; [|exact Hrun]. apply gattInv_submit. exact Hinv.
    + destruct (bool_decide (op ∈ running d)) eqn:Hin; [|discriminate].
      apply bool_decide_eq_true in Hin.
      cbn [submissions settlements].
      replace (setl ++ (op, o) :: settlements rest)
        with ((setl ++ [(op, o)]) ++ settlements rest)
        by (rewrite <- app_assoc; reflexivity).
      eapply IH; [|exact Hrun]. apply gattInv_settle; assumption.
Qed.

(** However the settlement comes out, the next queued operation is
    started by the resumed [processGattQueue] itself. *)
Lemma resume_starts_next (d : GattState) (op next : OpId) (o : Outcome)
    (rest : list OpId) :
  running d = [op] ->
  gattQueue d = next :: rest ->
  let d' := resumeAfterAwait op o d in
  running d' = [next] /\ gattQueue d' = rest /\ gattBusy d' = true /\
  settled d' = settled d ++ [(op, o)].
Proof.
  intros Hrun Hq. unfold resumeAfterAwait, processGattQueue.
  cbn [running gattQueue gattBusy settled]. rewrite Hrun, Hq.
  rewrite removeFirst_head. cbn. repeat split; reflexivity.
Qed.

(** C3: after any sequence of submissions and settlements, at most one
    operation is running; the operations settled so far are, in order,
    the first ones submitted, each with the outcome of its own operation,
    the others still being the running one and the queue, in submission
    order; nothing waits while the link is idle; and a settlement, success
    or failure, starts the next queued operation. *)
Theorem gatt_queue_serializes (evs : list GattEvent) (d : GattState) :
  gattRun evs initialGatt = Some d ->
  (length (running d) <= 1)%nat /\
  submissions evs = map fst (settled d) ++ running d ++ gattQueue d /\
  settled d = settlements evs /\
  (gattBusy d = false -> running d = [] /\ gattQueue d = []) /\
  (gattQueue d <> [] -> exists op, running d = [op]) /\
  (forall op next rest o,
     running d = [op] -> gattQueue d = next :: rest ->
     running (resumeAfterAwait op o d) = [next] /\
     gattQueue (resumeAfterAwait op o d) = rest /\
     settled (resumeAfterAwait op o d) = settled d ++ [(op, o)]) /\
  (length (settlements evs) = length (submissions evs) ->
   map fst (settled d) = submissions evs).
Proof.
  intros Hrun.
  pose proof (gattRun_inv evs [] [] initialGatt d gattInv_initial Hrun)
    as (Hone & Hsubs & Hset & Hidle & Hbusy).
  cbn [app] in Hsubs, Hset.
  split; [exact Hone|]. split; [exact Hsubs|]. split; [exact Hset|].
  split; [exact Hidle|]. split; [|split].
  - intros Hq. destruct (gattBusy d) eqn:Hb.
    + apply Hbusy. reflexivity.
    + destruct (Hidle eq_refl) as [_ Hempty]. contradiction.
  - intros op next rest o Hr Hq.
    destruct (resume_starts_next d op next o rest Hr Hq) as (H1 & H2 & _ & H4).
    repeat split; assumption.
  - intros Hlen. rewrite Hsubs in Hlen |- *. rewrite <- Hset in Hlen.
    rewrite !length_app, length_map in Hlen.
    assert (Hr : running d = []) by (destruct (running d); [reflexivity | cbn in Hlen; lia]).
    assert (Hq : gattQueue d = []) by (destruct (gattQueue d); [reflexivity | cbn in Hlen; lia]).
    rewrite Hr, Hq, !app_nil_r. reflexivity.
Qed.

Lemma gatt_queue_serializes_witness :
  exists d,
    gattRun threeOperations initialGatt = Some d /\
    settled d = [(1%nat, Resolved); (2%nat, Rejected); (3%nat, Resolved)] /\
    (length (running d) <= 1)%nat /\
    map fst (settled d) = [1%nat; 2%nat; 3%nat].
Proof.
  eexists. split; [reflexivity|].
  destruct (gatt_queue_serializes threeOperations _ eq_refl)
    as (Hone & _ & Hset & _ & _ & _ & Hall).
  split; [exact Hset|]. split; [exact Hone|].
  apply Hall. reflexivity.
Defined.

(** An operation cannot settle before it has been started: the second
    operation is still queued while the first is running. *)
Example queued_operation_not_running :
  gattRun [Submit 1%nat; Submit 2%nat; Settle 2%nat Resolved] initialGatt
    = None.
Proof. reflexivity. Qed.

(** ** Frames *)

Lemma byteVal_u8 (z : Z) : 0 <= z < 256 -> byteVal (u8 z) = z.
Proof.
  intros Hz. unfold byteVal, u8. rewrite Z.mod_small by lia.
  destruct (Byte.of_N (Z.to_N z)) as [b|] eqn:Hb.
  - apply Byte.to_of_N in Hb. rewrite Hb. lia.
  - apply Byte.of_N_None_iff in Hb. lia.
Qed.

(** The encoder agrees with the bit patterns the source spells out: the
    0.4 of the init preset (bytes cd cc cc 3e at offset 12) and the
    usual encodings of 5.0, -100.0 and 0.0. *)
Example float32LE_known :
  float32LE 0.4 = [xcd; xcc; xcc; x3e] /\
  take 4 (drop 12 buildInitPreset) = float32LE 0.4 /\
  float32LE 5 = [x00; x00; xa0; x40] /\
  float32LE (-100) = [x00; x00; xc8; xc2] /\
  float32LE 0 = [x00; x00; x00; x00].
Proof. repeat split; reflexivity. Qed.

Ltac frame_compute :=
  cbv beta iota zeta delta
    [buildProgramParams setByte setFloat32 setBytes setUint16 setInt16
     writeU16LE writeI16LE writeF32LE profileFields getModeProfile
     float32LE uint16LE list_inserts insert list_insert replicate
     take drop lookup list_lookup length fmap option_fmap option_map
     Pos.to_nat Pos.iter_op Init.Nat.add].

(** C4: the program frame has 96 bytes; byte 0x04 is 0xFF for an
    unlimited request and [reps + 3] otherwise; bytes 0x30-0x4F are the
    mode profile of the base mode when unlimited and of the selected mode
    otherwise; and the little-endian float32 fields at 0x54, 0x58 and 0x5C
    hold the effective weight, the per-cable weight and the progression
    (0.0 when there is none). *)
Theorem program_frame_layout (params : ProgramParams) :
  validProgramParams params ->
  let frame := buildProgramParams params in
  let profileMode :=
    if isJustLift params then baseMode params else mode params in
  length frame = 96%nat /\
  byteVal <$> frame !! 0x04%nat =
    Some (if isJustLift params then 0xFF else reps params + 3) /\
  take 32 (drop 0x30 frame) = getModeProfile profileMode /\
  take 4 (drop 0x54 frame) = float32LE (effectiveKg params) /\
  take 4 (drop 0x58 frame) = float32LE (perCableKg params) /\
  take 4 (drop 0x5c frame) =
    float32LE (progressionOrZero (progressionKg params)).
Proof.
  intros (_ & Hreps & _). cbv zeta.
  assert (Hbyte : isJustLift params = false ->
                  byteVal (u8 (reps params + 3)) = reps params + 3).
  { intros Hjl. apply byteVal_u8. specialize (Hreps Hjl). lia. }
  unfold buildProgramParams.
  destruct (isJustLift params).
  - destruct (baseMode params); frame_compute;
      repeat split; reflexivity.
  - specialize (Hbyte eq_refl).
    destruct (mode params); frame_compute;
      repeat split; try reflexivity; rewrite Hbyte; reflexivity.
Qed.

Lemma program_frame_layout_witness :
  validProgramParams tenRepsPump /\
  length (buildProgramParams tenRepsPump) = 96%nat /\
  byteVal <$> buildProgramParams tenRepsPump !! 0x04%nat = Some 13 /\
  take 32 (drop 0x30 (buildProgramParams tenRepsPump)) = getModeProfile PUMP /\
  take 4 (drop 0x54 (buildProgramParams tenRepsPump)) = [x00; x00; xa0; x41] /\
  take 4 (drop 0x58 (buildProgramParams tenRepsPump)) = [x00; x00; x20; x41] /\
  take 4 (drop 0x5c (buildProgramParams tenRepsPump)) = [x00; x00; x00; x3f].
Proof.
  assert (Hvalid : validProgramParams tenRepsPump).
  { unfold validProgramParams, tenRepsPump. cbn.
    repeat split; try lia; unfold Qle; cbn; lia. }
  split; [exact Hvalid|].
  destruct (program_frame_layout tenRepsPump Hvalid)
    as (Hlen & Hb & Hp & He & Hc & Hg).
  split; [exact Hlen|]. split; [exact Hb|]. split; [exact Hp|].
  split; [rewrite He; reflexivity|].
  split; [rewrite Hc; reflexivity|].
  rewrite Hg. reflexivity.
Defined.

(** * Further properties *)

(** ** Windows, averages and ranges *)

Lemma fold_left_min_le (l : list Z) (a : Z) :
  fold_left Z.min l a <= a /\ Forall (fun x => fold_left Z.min l a <= x) l.
Proof.
  revert a. induction l as [|x l IH]; intros a; cbn [fold_left].
  - split; [lia | constructor].
  - destruct (IH (Z.min a x)) as [H1 H2]. split; [lia|].
    constructor; [lia | exact H2].
Qed.

Lemma fold_left_max_ge (l : list Z) (a : Z) :
  a <= fold_left Z.max l a /\ Forall (fun x => x <= fold_left Z.max l a) l.
Proof.
  revert a. induction l as [|x l IH]; intros a; cbn [fold_left].
  - split; [lia | constructor].
  - destruct (IH (Z.max a x)) as [H1 H2]. split; [lia|].
    constructor; [lia | exact H2].
Qed.

Lemma fold_left_add_bounds (l : list Z) (a lo hi : Z) :
  Forall (fun x => lo <= x <= hi) l ->
  a + lo * Z.of_nat (length l) <= fold_left Z.add l a
    <= a + hi * Z.of_nat (length l).
Proof.
  revert a. induction l as [|x l IH]; intros a Hl; cbn [fold_left length].
  - lia.
  - inversion Hl as [|? ? Hx Hrest]; subst.
    specialize (IH (a + x) Hrest). lia.
Qed.

Lemma roundDiv_bounds (sum n lo hi : Z) :
  0 < n -> lo * n <= sum <= hi * n -> lo <= roundDiv sum n <= hi.
Proof.
  intros Hn Hs. unfold roundDiv. split.
  - apply Z.div_le_lower_bound; [lia | nia].
  - apply Z.lt_succ_r. apply Z.div_lt_upper_bound; [lia | nia].
Qed.

(** X1: the rolling average of a window lies within the window's range. *)
Theorem average_within_range (arr : list Z) :
  arr <> [] ->
  exists avg r,
    calculateAverage arr = Some avg /\
    calculateRange arr = Some r /\
    PositionRange.min r <= avg <= PositionRange.max r /\
    Forall (fun x => PositionRange.min r <= x <= PositionRange.max r) arr.
Proof.
  intros Hne. destruct arr as [|x rest]; [congruence|].
  eexists. eexists. split; [reflexivity|]. split; [reflexivity|].
  cbn [PositionRange.min PositionRange.max].
  destruct (fold_left_min_le rest x) as [Hm1 Hm2].
  destruct (fold_left_max_ge rest x) as [HM1 HM2].
  assert (Hall : Forall (fun y => fold_left Z.min rest x <= y
                                  <= fold_left Z.max rest x) (x :: rest)).
  { constructor; [lia|].
    rewrite Forall_forall in *. intros y Hy.
    specialize (Hm2 y Hy). specialize (HM2 y Hy). lia. }
  split; [|exact Hall].
  apply roundDiv_bounds; [cbn [length]; lia|].
  pose proof (fold_left_add_bounds (x :: rest) 0 _ _ Hall) as Hsum.
  lia.
Qed.

Lemma average_within_range_witness :
  exists avg r,
    calculateAverage [200; 210; 205] = Some avg /\
    calculateRange [200; 210; 205] = Some r /\
    PositionRange.min r <= avg <= PositionRange.max r /\
    Forall (fun x => PositionRange.min r <= x <= PositionRange.max r)
      [200; 210; 205].
Proof. apply average_within_range. discriminate. Defined.

(** ** The rep handler, step by step *)

Lemma processRepCounters_steps (s : WorkoutState) (c k now : Z)
    (smp : MonitorSample) (w : CurrentWorkout.t)
    (s1 s2 : WorkoutState) (e1 e2 : list Effect) :
  currentSampleRef s = Some smp ->
  currentWorkout s = Some w ->
  trackTop s c smp s = (tt, s1, e1) ->
  trackBottom s k smp now s1 = (tt, s2, e2) ->
  processRepCounters c k now s s =
    (tt, s2, AddLog (MsgRepNotification c k (Some smp)) info :: e1 ++ e2).
Proof.
  intros Hsmp Hw Htop Hbot. unfold processRepCounters. rewrite Hsmp, Hw.
  hook_simpl. rewrite Htop. hook_simpl. rewrite Hbot. reflexivity.
Qed.

Lemma trackTop_spec (s0 s : WorkoutState) (c : Z) (smp : MonitorSample) :
  exists s1 e1,
  trackTop s0 c smp s = (tt, s1, e1) /\
  List.filter isCallback e1 =
    (if topFires s c && finalTop s0 then [OnAutoStop; OnWorkoutComplete]
     else []) /\
  existsb isBottomEvent e1 = false /\
  repRanges s1 = (if topFires s c then derivedRanges s1 else repRanges s) /\
  topPositionsA s1 =
    (if topFires s c
     then pushWindow (getWindowSize s0) (topPositionsA s) (posA smp)
     else topPositionsA s) /\
  topPositionsB s1 =
    (if topFires s c
     then pushWindow (getWindowSize s0) (topPositionsB s) (posB smp)
     else topPositionsB s) /\
  bottomPositionsA s1 = bottomPositionsA s /\
  bottomPositionsB s1 = bottomPositionsB s /\
  warmupReps s1 = warmupReps s /\ workingReps s1 = workingReps s /\
  warmupTarget s1 = warmupTarget s /\
  lastRepCounter s1 = lastRepCounter s /\
  currentWorkout s1 = currentWorkout s /\
  workoutHistory s1 = workoutHistory s /\
  maxPos s1 = maxPos s /\
  autoStopProgress s1 = autoStopProgress s /\
  autoStopStartTime s1 = autoStopStartTime s.
Proof.
  unfold trackTop, recordTopPosition, updateRepRanges, topFires, finalTop.
  destruct (lastTopCounter s) as [last|] eqn:Hl; hook_simpl; rewrite ?Hl.
  - destruct (0 <? counterDelta c last); hook_simpl.
    + destruct (stopAtTop s0 && negb (isJustLiftMode s0)
                && (0 <? targetReps s0)
                && (workingReps s0 =? targetReps s0 - 1));
        hook_simpl; eexists; eexists; (split; [reflexivity|]);
        unfold derivedRanges; hook_simpl; repeat split; reflexivity.
    + eexists; eexists; (split; [reflexivity|]); repeat split; reflexivity.
  - eexists; eexists; (split; [reflexivity|]); repeat split; reflexivity.
Qed.

Lemma trackBottom_spec (s0 s : WorkoutState) (k now : Z)
    (smp : MonitorSample) :
  let warm := warmupReps s0 + workingReps s0 + 1 <=? warmupTarget s0 in
  exists s2 e2,
  trackBottom s0 k smp now s = (tt, s2, e2) /\
  List.filter isCallback e2 =
    (if bottomFires s k && negb warm && finalRep s0 (workingReps s + 1)
     then [OnWorkoutComplete] else []) /\
  existsb isTopEvent e2 = false /\
  lastRepCounter s2 = Some k /\
  repRanges s2 = (if bottomFires s k then derivedRanges s2 else repRanges s) /\
  bottomPositionsA s2 =
    (if bottomFires s k
     then pushWindow (getWindowSize s0) (bottomPositionsA s) (posA smp)
     else bottomPositionsA s) /\
  bottomPositionsB s2 =
    (if bottomFires s k
     then pushWindow (getWindowSize s0) (bottomPositionsB s) (posB smp)
     else bottomPositionsB s) /\
  topPositionsA s2 = topPositionsA s /\
  topPositionsB s2 = topPositionsB s /\
  warmupReps s2 =
    (if bottomFires s k && warm then warmupReps s + 1 else warmupReps s) /\
  workingReps s2 =
    (if bottomFires s k && negb warm then workingReps s + 1
     else workingReps s) /\
  warmupTarget s2 = warmupTarget s /\
  lastTopCounter s2 = lastTopCounter s /\
  workoutHistory s2 = workoutHistory s /\
  maxPos s2 = maxPos s /\
  autoStopProgress s2 = autoStopProgress s /\
  autoStopStartTime s2 = autoStopStartTime s.
Proof.
  unfold trackBottom, recordBottomPosition, updateRepRanges, countWarmupRep,
    countWorkingRep, bottomFires, finalRep. cbv zeta.
  destruct (lastRepCounter s) as [last|] eqn:Hl; hook_simpl; rewrite ?Hl.
  - destruct (0 <? counterDelta k last); hook_simpl.
    + destruct (warmupReps s0 + workingReps s0 + 1 <=? warmupTarget s0);
        hook_simpl.
      * destruct (warmupReps s + 1 =? warmupTarget s0); hook_simpl;
          eexists; eexists; (split; [reflexivity|]);
          unfold derivedRanges; hook_simpl; repeat split; reflexivity.
      * destruct (negb (stopAtTop s0) && negb (isJustLiftMode s0)
                  && (0 <? targetReps s0)
                  && (targetReps s0 <=? workingReps s + 1));
          hook_simpl; eexists; eexists; (split; [reflexivity|]);
          unfold derivedRanges; hook_simpl; repeat split; reflexivity.
    + eexists; eexists; (split; [reflexivity|]); repeat split; reflexivity.
  - eexists; eexists; (split; [reflexivity|]); repeat split; reflexivity.
Qed.

(** What a notification that reaches the counter logic does to the
    state, in one place. *)
Lemma rep_notification_effect (s : WorkoutState) (data : list byte) (now : Z)
    (vs : list Z) (smp : MonitorSample) (w : CurrentWorkout.t) :
  (6 <= length data)%nat ->
  readU16Values data = Normal vs ->
  currentSampleRef s = Some smp ->
  currentWorkout s = Some w ->
  let c := nth 0 vs 0 in
  let k := nth 2 vs 0 in
  let warm := warmupReps s + workingReps s + 1 <=? warmupTarget s in
  exists s' effs,
    handleRepNotification data now s = Normal (s', effs) /\
    List.filter isCallback effs =
      (if topFires s c && finalTop s then [OnAutoStop; OnWorkoutComplete]
       else [])
      ++ (if bottomFires s k && negb warm && finalRep s (workingReps s + 1)
          then [OnWorkoutComplete] else []) /\
    topPositionsA s' =
      (if topFires s c
       then pushWindow (getWindowSize s) (topPositionsA s) (posA smp)
       else topPositionsA s) /\
    topPositionsB s' =
      (if topFires s c
       then pushWindow (getWindowSize s) (topPositionsB s) (posB smp)
       else topPositionsB s) /\
    bottomPositionsA s' =
      (if bottomFires s k
       then pushWindow (getWindowSize s) (bottomPositionsA s) (posA smp)
       else bottomPositionsA s) /\
    bottomPositionsB s' =
      (if bottomFires s k
       then pushWindow (getWindowSize s) (bottomPositionsB s) (posB smp)
       else bottomPositionsB s) /\
    warmupReps s' =
      (if bottomFires s k && warm then warmupReps s + 1 else warmupReps s) /\
    workingReps s' =
      (if bottomFires s k && negb warm then workingReps s + 1
       else workingReps s) /\
    warmupTarget s' = warmupTarget s /\
    repRanges s' =
      (if topFires s c || bottomFires s k then derivedRanges s'
       else repRanges s) /\
    workoutHistory s' = workoutHistory s /\
    maxPos s' = maxPos s /\
    autoStopProgress s' = autoStopProgress s /\
    autoStopStartTime s' = autoStopStartTime s.
Proof.
  intros Hlen Hvs Hsmp Hw c k warm.
  rewrite (handleRepNotification_decoded data now s vs Hlen Hvs).
  fold c k.
  destruct (trackTop_spec s s c smp)
    as (s1 & e1 & Htop & Hcb1 & _ & Hr1 & HtA & HtB & HbA & HbB & Hwu1 & Hwk1
        & Hwt1 & Hlr1 & _ & Hh1 & Hm1 & Hp1 & Hst1).
  destruct (trackBottom_spec s s1 k now smp)
    as (s2 & e2 & Hbot & Hcb2 & _ & _ & Hr2 & HbA2 & HbB2 & HtA2 & HtB2
        & Hwu2 & Hwk2 & Hwt2 & _ & Hh2 & Hm2 & Hp2 & Hst2).
  cbv zeta in Hcb2, Hwu2, Hwk2.
  rewrite (processRepCounters_steps s c k now smp w s1 s2 e1 e2
             Hsmp Hw Htop Hbot).
  assert (Hfire : bottomFires s1 k = bottomFires s k)
    by (unfold bottomFires; rewrite Hlr1; reflexivity).
  rewrite Hfire in *. rewrite Hwk1 in *. rewrite Hwu1 in *.
  exists s2, (AddLog (MsgRepNotification c k (Some smp)) info :: e1 ++ e2).
  unfold stateOf, effectsOf. cbn [fst snd].
  split; [reflexivity|].
  split.
  { cbn [List.filter isCallback isAutoStopCall isCompleteCall orb].
    rewrite List.filter_app, Hcb1, Hcb2. reflexivity. }
  split; [rewrite HtA2; exact HtA|]. split; [rewrite HtB2; exact HtB|].
  split; [rewrite HbA2, HbA; reflexivity|].
  split; [rewrite HbB2, HbB; reflexivity|].
  split; [exact Hwu2|]. split; [exact Hwk2|].
  split; [rewrite Hwt2; exact Hwt1|].
  split.
  { rewrite Hr2. destruct (bottomFires s k).
    - rewrite orb_true_r. reflexivity.
    - rewrite orb_false_r. rewrite Hr1.
      destruct (topFires s c); [|reflexivity].
      unfold derivedRanges. rewrite HtA2, HtB2, HbA2, HbB2. reflexivity. }
  repeat split; congruence.
Qed.

(** X2: a rep notification calls [onAutoStop] and [onWorkoutComplete] in two
    situations only: on a TOP event that is the top of the final rep with
    stop-at-top on (both callbacks, in this order), and on a BOTTOM event
    that counts a working rep reaching the target with stop-at-top off
    ([onWorkoutComplete] alone). *)
Theorem rep_notification_callbacks (s : WorkoutState) (data : list byte)
    (now : Z) (vs : list Z) (smp : MonitorSample) (w : CurrentWorkout.t) :
  (6 <= length data)%nat ->
  readU16Values data = Normal vs ->
  currentSampleRef s = Some smp ->
  currentWorkout s = Some w ->
  exists s' effs,
    handleRepNotification data now s = Normal (s', effs) /\
    List.filter isCallback effs =
      (if topFires s (nth 0 vs 0) && stopAtTop s && negb (isJustLiftMode s)
          && (0 <? targetReps s) && (workingReps s =? targetReps s - 1)
       then [OnAutoStop; OnWorkoutComplete] else [])
      ++ (if bottomFires s (nth 2 vs 0)
             && (warmupTarget s <=? warmupReps s + workingReps s)
             && negb (stopAtTop s) && negb (isJustLiftMode s)
             && (0 <? targetReps s) && (targetReps s <=? workingReps s + 1)
          then [OnWorkoutComplete] else []).
Proof.
  intros Hlen Hvs Hsmp Hw.
  destruct (rep_notification_effect s data now vs smp w Hlen Hvs Hsmp Hw)
    as (s' & effs & Hr & Hcb & _).
  exists s', effs. split; [exact Hr|]. rewrite Hcb.
  unfold finalTop, finalRep.
  replace (negb (warmupReps s + workingReps s + 1 <=? warmupTarget s))
    with (warmupTarget s <=? warmupReps s + workingReps s)
    by (destruct (warmupTarget s <=? warmupReps s + workingReps s) eqn:E1;
        destruct (warmupReps s + workingReps s + 1 <=? warmupTarget s) eqn:E2;
        try reflexivity; lia).
  rewrite !andb_assoc. reflexivity.
Qed.

Lemma rep_notification_callbacks_witness :
  exists s' effs,
    handleRepNotification (repPayload 5 4) 3000 beforeFinalTop
      = Normal (s', effs) /\
    List.filter isCallback effs = [OnAutoStop; OnWorkoutComplete].
Proof.
  destruct (rep_notification_callbacks beforeFinalTop (repPayload 5 4) 3000
              [5; 0; 4] (scenarioSample 500 500)
              (CurrentWorkout.mk "Old School" 10%Q 1 1000 (Some 2004) None))
    as (s' & effs & Hr & Hcb);
    [simpl; lia | reflexivity | reflexivity | reflexivity |].
  exists s', effs. split; [exact Hr|]. rewrite Hcb. reflexivity.
Defined.

(** X3: in unlimited mode no rep notification, whatever its payload, calls
    [onAutoStop] or [onWorkoutComplete]: only the auto-stop timer or the
    user ends such a workout. *)
Theorem unlimited_mode_never_completes_by_rep (s : WorkoutState)
    (data : list byte) (now : Z) :
  isJustLiftMode s = true ->
  List.filter isCallback (snd (call (RepNotification data now) s)) = [].
Proof.
  intros Hjl. cbn [call].
  destruct (decodes data) eqn:Hd.
  - apply decodes_Normal in Hd as (H6 & vs & Hvs).
    destruct (findsSampleAndWorkout s) eqn:Hf.
    + unfold findsSampleAndWorkout in Hf.
      destruct (currentSampleRef s) as [smp|] eqn:Hsmp; [|discriminate].
      destruct (currentWorkout s) as [w|] eqn:Hw; [|discriminate].
      destruct (rep_notification_effect s data now vs smp w H6 Hvs Hsmp Hw)
        as (s' & effs & Hr & Hcb & _).
      rewrite Hr. cbn [snd]. rewrite Hcb. unfold finalTop, finalRep.
      rewrite Hjl. cbn [negb]. rewrite ?andb_false_r. cbn [andb].
      rewrite ?andb_false_r. reflexivity.
    + rewrite (handleRepNotification_decoded data now s vs H6 Hvs).
      rewrite processRepCounters_dropped by assumption. reflexivity.
  - unfold decodes in Hd. unfold handleRepNotification.
    destruct (length data <? 6)%nat eqn:H6; [reflexivity|].
    apply Nat.ltb_ge in H6. apply Nat.leb_le in H6. rewrite H6 in Hd.
    destruct (readU16Values data); [discriminate | reflexivity].
Qed.

Lemma unlimited_mode_never_completes_by_rep_witness :
  List.filter isCallback
    (snd (call (RepNotification (repPayload 3 2) 1600) rangeEstablished)) = [].
Proof.
  apply unlimited_mode_never_completes_by_rep. reflexivity.
Defined.

(** ** Window sizes *)

Lemma pushWindow_length (w : nat) (l : list Z) (x : Z) :
  length (pushWindow w l x) =
    if (w <? S (length l))%nat then length l else S (length l).
Proof.
  unfold pushWindow. cbv zeta.
  assert (Hlen : length (l ++ [x]) = S (length l))
    by (rewrite length_app; cbn; lia).
  rewrite Hlen.
  destruct (w <? S (length l))%nat.
  - rewrite length_drop, Hlen. lia.
  - exact Hlen.
Qed.

Lemma getWindowSize_values (s : WorkoutState) :
  getWindowSize s = 2%nat \/ getWindowSize s = 3%nat.
Proof.
  unfold getWindowSize, WINDOW_SIZE_WARMUP, WINDOW_SIZE_WORKING.
  destruct (warmupReps s + workingReps s <? warmupTarget s); auto.
Qed.

Lemma handleMonitorSample_keeps (sample : MonitorSample) (now : Z)
    (s : WorkoutState) :
  let s' := stateOf (handleMonitorSample sample now s) in
  topPositionsA s' = topPositionsA s /\
  topPositionsB s' = topPositionsB s /\
  bottomPositionsA s' = bottomPositionsA s /\
  bottomPositionsB s' = bottomPositionsB s /\
  warmupTarget s' = warmupTarget s /\
  workoutHistory s' = workoutHistory s /\
  targetReps s' = targetReps s /\
  stopAtTop s' = stopAtTop s.
Proof.
  unfold handleMonitorSample, checkAutoStop.
  hook_cases. all: hook_finish.
Qed.

(** ** Workout history *)

Lemma call_history (c : Call) (s : WorkoutState) :
  exists added, workoutHistory (fst (call c s)) = added ++ workoutHistory s.
Proof.
  destruct c as [m wkg r jl now|sample now|data now|now| |value].
  - exists []. reflexivity.
  - pose proof (handleMonitorSample_keeps sample now s)
      as (_ & _ & _ & _ & _ & Hh & _).
    exists []. cbn [call fst]. rewrite Hh. reflexivity.
  - exists [].
    destruct (decodes data) eqn:Hd;
      [|rewrite call_rep_not_decoded by assumption; reflexivity].
    destruct (findsSampleAndWorkout s) eqn:Hf;
      [|rewrite call_rep_dropped by assumption; reflexivity].
    apply decodes_Normal in Hd as (H6 & vs & Hvs).
    unfold findsSampleAndWorkout in Hf.
    destruct (currentSampleRef s) as [smp|] eqn:Hsmp; [|discriminate].
    destruct (currentWorkout s) as [w|] eqn:Hw; [|discriminate].
    destruct (rep_notification_effect s data now vs smp w H6 Hvs Hsmp Hw)
      as (s' & effs & Hr & _ & _ & _ & _ & _ & _ & _ & _ & _ & Hh & _).
    cbn [call]. rewrite Hr. cbn [fst]. rewrite Hh. reflexivity.
  - cbn [call fst]. unfold completeWorkout.
    destruct (currentWorkout s) as [w|] eqn:Hw.
    + eexists [_]. hook_simpl. rewrite Hw. reflexivity.
    + exists []. hook_simpl. rewrite Hw. reflexivity.
  - exists []. reflexivity.
  - exists []. reflexivity.
Qed.

(** X5: the history is append-only: whatever is called, the workouts recorded
    before are still there, in the same order, behind the newer ones. *)
Theorem history_is_kept (cs : list Call) (s : WorkoutState) :
  exists newer,
    workoutHistory (fst (run cs s)) = newer ++ workoutHistory s.
Proof.
  revert s. induction cs as [|c rest IH]; intros s.
  - exists []. reflexivity.
  - rewrite run_cons.
    destruct (IH (fst (call c s))) as [newer Hn].
    destruct (call_history c s) as [added Ha].
    exists (newer ++ added). rewrite Hn, Ha, app_assoc. reflexivity.
Qed.

(** Evaluation on a state given field by field. *)
Ltac hook_eval :=
  cbv beta iota zeta delta
    [stateOf effectsOf when addLog emit modify get mbind hook_bind bind
     mret hook_ret ret
     setCurrentWorkout setWarmupReps setWorkingReps setTargetReps
     setWorkoutHistory setIsJustLiftMode setStopAtTop setAutoStopProgress
     setMaxPos setLiveStats setRepRanges setTopPositionsA
     setBottomPositionsA setTopPositionsB setBottomPositionsB
     setLastTopCounter setLastRepCounter setAutoStopStartTime
     setCurrentSampleRef clearTracking stampWarmupEnd
     completeWorkout resetWorkout startWorkout
     fst snd app
     currentWorkout warmupReps workingReps warmupTarget targetReps
     workoutHistory isJustLiftMode stopAtTop autoStopProgress maxPos
     liveStats repRanges topPositionsA bottomPositionsA topPositionsB
     bottomPositionsB lastTopCounter lastRepCounter autoStopStartTime
     currentSampleRef].

Lemma completeWorkout_active (s : WorkoutState) (w : CurrentWorkout.t)
    (now : Z) :
  currentWorkout s = Some w ->
  exists s1,
    completeWorkout now s = (tt, s1, [AddLog MsgWorkoutSaved success]) /\
    workoutHistory s1 =
      Workout.mk (CurrentWorkout.mode w) (CurrentWorkout.weightKg w)
        (workingReps s) now (CurrentWorkout.startTime w)
        (CurrentWorkout.warmupEndTime w) now :: workoutHistory s /\
    currentWorkout s1 = None /\
    warmupReps s1 = 0 /\ workingReps s1 = 0 /\
    lastTopCounter s1 = None /\ lastRepCounter s1 = None /\
    autoStopStartTime s1 = None.
Proof.
  intros Hw.
  destruct s as [cw wu wk wt tr wh jl st ap mp ls rr ta ba tb bb lt lr ast cs].
  cbn [currentWorkout] in Hw. subst.
  hook_eval. eexists. split; [reflexivity|]. repeat split; reflexivity.
Qed.

Lemma completeWorkout_idle (s : WorkoutState) (now : Z) :
  currentWorkout s = None ->
  workoutHistory (stateOf (completeWorkout now s)) = workoutHistory s /\
  effectsOf (completeWorkout now s) = [].
Proof.
  intros Hw.
  destruct s as [cw wu wk wt tr wh jl st ap mp ls rr ta ba tb bb lt lr ast cs].
  cbn [currentWorkout] in Hw. subst.
  hook_eval. split; reflexivity.
Qed.

Lemma viewWorkoutOnGraph_cases (index : Z) (s : WorkoutState) :
  viewWorkoutOnGraph index s =
    if (index <? 0) || (Z.of_nat (length (workoutHistory s)) <=? index)
    then (None, s, [AddLog MsgInvalidIndex error])
    else (workoutHistory s !! Z.to_nat index, s, []).
Proof.
  unfold viewWorkoutOnGraph. hook_simpl.
  destruct ((index <? 0) || (Z.of_nat (length (workoutHistory s)) <=? index));
    reflexivity.
Qed.

(** X6: completing an active workout saves exactly one record, at the front
    of the history, with the working reps counted and [now] as its end
    time, and clears the transient state; viewing index 0 then returns
    that record, viewing an index before the start or past the end returns
    nothing and logs an error, and completing again saves nothing more. *)
Theorem complete_saves_then_view (s : WorkoutState) (w : CurrentWorkout.t)
    (now later : Z) :
  currentWorkout s = Some w ->
  let s1 := stateOf (completeWorkout now s) in
  let saved :=
    Workout.mk (CurrentWorkout.mode w) (CurrentWorkout.weightKg w)
      (workingReps s) now (CurrentWorkout.startTime w)
      (CurrentWorkout.warmupEndTime w) now in
  workoutHistory s1 = saved :: workoutHistory s /\
  currentWorkout s1 = None /\
  warmupReps s1 = 0 /\ workingReps s1 = 0 /\
  lastTopCounter s1 = None /\ lastRepCounter s1 = None /\
  autoStopStartTime s1 = None /\
  viewWorkoutOnGraph 0 s1 = (Some saved, s1, []) /\
  viewWorkoutOnGraph (Z.of_nat (length (workoutHistory s1))) s1
    = (None, s1, [AddLog MsgInvalidIndex error]) /\
  viewWorkoutOnGraph (-1) s1 = (None, s1, [AddLog MsgInvalidIndex error]) /\
  workoutHistory (stateOf (completeWorkout later s1)) = workoutHistory s1.
Proof.
  intros Hw.
  destruct (completeWorkout_active s w now Hw)
    as (s1 & Heq & Hh & Hcw & Hwu & Hwk & Ht & Hr & Ha).
  rewrite Heq. unfold stateOf. cbn [fst snd].
  repeat (split; [assumption|]).
  rewrite !viewWorkoutOnGraph_cases, Hh.
  split; [reflexivity|].
  split; [rewrite Z.leb_refl, orb_true_r; reflexivity|].
  split; [reflexivity|].
  destruct (completeWorkout_idle s1 later Hcw) as [Hidle _].
  unfold stateOf in Hidle. rewrite Hidle. exact Hh.
Qed.

Lemma complete_saves_then_view_witness :
  workoutHistory (stateOf (completeWorkout 5000 afterFirstNotification)) =
    [Workout.mk "Old School" 10%Q 0 5000 1000 None 5000] /\
  viewWorkoutOnGraph 0 (stateOf (completeWorkout 5000 afterFirstNotification))
    = (Some (Workout.mk "Old School" 10%Q 0 5000 1000 None 5000),
       stateOf (completeWorkout 5000 afterFirstNotification), []).
Proof.
  destruct (complete_saves_then_view afterFirstNotification
              (CurrentWorkout.mk "Old School" 10%Q 10 1000 None None)
              5000 6000 eq_refl) as (Hh & _ & _ & _ & _ & _ & _ & Hv & _).
  split; [exact Hh | exact Hv].
Defined.

(** ** Monitor samples and auto-stop *)

(** X7: outside unlimited mode a monitor sample never touches the auto-stop
    timer or progress and calls nothing. *)
Theorem monitor_outside_unlimited_mode (s : WorkoutState)
    (sample : MonitorSample) (now : Z) :
  isJustLiftMode s = false ->
  let r := handleMonitorSample sample now s in
  autoStopStartTime (stateOf r) = autoStopStartTime s /\
  autoStopProgress (stateOf r) = autoStopProgress s /\
  effectsOf r = [].
Proof.
  intros Hjl. unfold handleMonitorSample. hook_simpl. rewrite Hjl.
  destruct (maxPos s <? Z.max (posA sample) (posB sample)); hook_simpl;
    repeat split; reflexivity.
Qed.

Lemma monitor_outside_unlimited_mode_witness :
  let r := handleMonitorSample (scenarioSample 0 0) 9000 afterFirstNotification in
  autoStopStartTime (stateOf r) = None /\
  autoStopProgress (stateOf r) = 0%Q /\
  effectsOf r = [].
Proof.
  apply (monitor_outside_unlimited_mode afterFirstNotification
           (scenarioSample 0 0) 9000). reflexivity.
Defined.

(** X9: in unlimited mode, with an eligible cable and the sample not in the
    danger zone, the timer is cleared, the progress is 0 and nothing is
    called. *)
Theorem leaving_danger_zone_resets (s : WorkoutState)
    (sample : MonitorSample) (now : Z) :
  isJustLiftMode s = true ->
  truthy (minRepPosA (repRanges s)) || truthy (minRepPosB (repRanges s))
    = true ->
  checkCable (maxRepPosA (repRanges s)) (minRepPosA (repRanges s))
  || checkCable (maxRepPosB (repRanges s)) (minRepPosB (repRanges s))
    = true ->
  inDangerZone sample (repRanges s) = false ->
  let r := handleMonitorSample sample now s in
  autoStopStartTime (stateOf r) = None /\
  autoStopProgress (stateOf r) = 0%Q /\
  List.filter isCallback (effectsOf r) = [].
Proof.
  intros Hjl Hmin Hcheck Hdanger.
  unfold handleMonitorSample, checkAutoStop. hook_simpl. rewrite Hjl.
  apply orb_true_iff in Hmin. apply orb_true_iff in Hcheck.
  destruct (maxPos s <? Z.max (posA sample) (posB sample)); hook_simpl.
  all: destruct (negb (truthy (minRepPosA (repRanges s)))
                 && negb (truthy (minRepPosB (repRanges s)))) eqn:H1;
    [apply andb_true_iff in H1 as [Ha Hb];
     apply negb_true_iff in Ha, Hb; destruct Hmin; congruence|].
  all: destruct (negb (checkCable (maxRepPosA (repRanges s))
                         (minRepPosA (repRanges s)))
                 && negb (checkCable (maxRepPosB (repRanges s))
                            (minRepPosB (repRanges s)))) eqn:H2;
    [apply andb_true_iff in H2 as [Ha Hb];
     apply negb_true_iff in Ha, Hb; destruct Hcheck; congruence|].
  all: rewrite Hdanger; hook_simpl.
  all: destruct (autoStopStartTime s) eqn:Ht; unfold isNull; hook_simpl;
    rewrite ?Ht; repeat split; reflexivity.
Qed.

Lemma leaving_danger_zone_resets_witness :
  let armed := fst (run restingSamples rangeEstablished) in
  let r := handleMonitorSample (scenarioSample 400 0) 16000 armed in
  autoStopStartTime armed = Some 10000 /\
  autoStopStartTime (stateOf r) = None /\
  autoStopProgress (stateOf r) = 0%Q /\
  List.filter isCallback (effectsOf r) = [].
Proof.
  split; [reflexivity|].
  apply (leaving_danger_zone_resets (fst (run restingSamples rangeEstablished))
           (scenarioSample 400 0) 16000); reflexivity.
Defined.

Lemma progress_value_bounds (elapsed : Z) :
  0 <= elapsed ->
  (0 <= Qmin (inject_Z elapsed / inject_Z 5000) 1 <= 1)%Q.
Proof.
  intros He. split.
  - apply Q.min_glb; [|unfold Qle; cbn; lia].
    unfold Qle, Qdiv, Qmult, Qinv, inject_Z. cbn. lia.
  - apply Q.le_min_r.
Qed.

Lemma checkAutoStop_progress_bounds (sample : MonitorSample)
    (ranges : RepRanges) (now : Z) (s : WorkoutState) :
  (forall t, autoStopStartTime s = Some t -> t <= now) ->
  (0 <= autoStopProgress (stateOf (checkAutoStop sample ranges now s)) <= 1)%Q.
Proof.
  intros Hclock.
  assert (Hzero : (0 <= 0 <= 1)%Q) by (split; unfold Qle; cbn; lia).
  unfold checkAutoStop, AUTO_STOP_DURATION.
  destruct (negb (truthy (minRepPosA ranges))
            && negb (truthy (minRepPosB ranges))); [exact Hzero|].
  destruct (negb (checkCable (maxRepPosA ranges) (minRepPosA ranges))
            && negb (checkCable (maxRepPosB ranges) (minRepPosB ranges)));
    [exact Hzero|].
  destruct (inDangerZone sample ranges).
  - destruct (autoStopStartTime s) as [t|] eqn:Ht;
      hook_simpl; rewrite ?Ht; unfold isNull, orZero;
      hook_simpl; rewrite ?Ht; cbv beta iota.
    + specialize (Hclock t eq_refl).
      pose proof (progress_value_bounds (now - t) ltac:(lia)) as Hp.
      destruct (5000 <=? now - t); hook_simpl; exact Hp.
    + pose proof (progress_value_bounds (now - now) ltac:(lia)) as Hp.
      destruct (5000 <=? now - now); hook_simpl; exact Hp.
  - destruct (autoStopStartTime s) as [t|] eqn:Ht;
      hook_simpl; rewrite ?Ht; unfold isNull; hook_simpl; exact Hzero.
Qed.

(** X10: in unlimited mode the auto-stop progress after a monitor sample lies
    between 0 and 1, provided the clock has not gone back behind the start
    of a running timer. *)
Theorem auto_stop_progress_bounds (s : WorkoutState)
    (sample : MonitorSample) (now : Z) :
  isJustLiftMode s = true ->
  (forall t, autoStopStartTime s = Some t -> t <= now) ->
  let s' := stateOf (handleMonitorSample sample now s) in
  (0 <= autoStopProgress s' <= 1)%Q.
Proof.
  intros Hjl Hclock.
  unfold handleMonitorSample. hook_simpl. rewrite Hjl.
  destruct (maxPos s <? Z.max (posA sample) (posB sample)); hook_simpl.
  all: match goal with
       | |- context [checkAutoStop ?a ?b ?c ?st] =>
           pose proof (checkAutoStop_progress_bounds a b c st Hclock) as Hb;
           destruct (checkAutoStop a b c st) as [[u s2] e2]
       end.
  all: exact Hb.
Qed.

Lemma auto_stop_progress_bounds_witness :
  (0 <= autoStopProgress
          (stateOf (handleMonitorSample (scenarioSample 200 0) 12500
                      (fst (run [MonitorSampleArrives (scenarioSample 200 0)
                                   10000] rangeEstablished))))
     <= 1)%Q.
Proof.
  apply (auto_stop_progress_bounds
           (fst (run [MonitorSampleArrives (scenarioSample 200 0) 10000]
                   rangeEstablished)) (scenarioSample 200 0) 12500).
  - reflexivity.
  - intros t Ht. vm_compute in Ht. injection Ht as <-. lia.
Defined.

(** ** The monitor decoder over time *)

Lemma parseMonitorData_ranges (dev : SpikeFilter) (now : Z)
    (data : list byte) :
  validFilter dev ->
  exists sample dev',
    parseMonitorData dev now data = Normal (sample, dev') /\
    validFilter dev' /\
    validPosition (posA sample) /\ validPosition (posB sample) /\
    - 2 ^ 31 <= ticks sample < 2 ^ 31 /\
    (0 <= loadA sample <= 655.35)%Q /\ (0 <= loadB sample <= 655.35)%Q /\
    timestamp sample = now /\ raw sample = Some data.
Proof.
  intros [HA HB]. unfold validFilter, validPosition in *.
  destruct (Nat.lt_ge_cases (length data) 16) as [Hshort|Hlong].
  - unfold parseMonitorData. apply Nat.ltb_lt in Hshort. rewrite Hshort.
    eexists. eexists. split; [reflexivity|]. cbn.
    repeat split; try assumption; try lia; unfold Qle; cbn; lia.
  - destruct (parseMonitorData_long dev now data Hlong)
      as (f0 & f1 & f2 & f4 & f5 & f7 & E0 & E1 & E2 & E4 & E5 & E7 & R1 & Hp).
    destruct (getUint16_Normal data 0) as (f0' & E0' & R0); [lia|].
    destruct (getUint16_Normal data 4) as (f2' & E2' & R2); [lia|].
    destruct (getUint16_Normal data 8) as (f4' & E4' & R4); [lia|].
    destruct (getUint16_Normal data 10) as (f5' & E5' & R5); [lia|].
    destruct (getUint16_Normal data 14) as (f7' & E7' & R7); [lia|].
    assert (f0' = f0) by congruence. assert (f2' = f2) by congruence.
    assert (f4' = f4) by congruence. assert (f5' = f5) by congruence.
    assert (f7' = f7) by congruence. subst.
    rewrite Hp. eexists. eexists. split; [reflexivity|].
    cbn [lastGoodPosA lastGoodPosB posA posB ticks loadA loadB timestamp raw].
    rewrite (jsShiftLeft_u16 f1 R1).
    assert (HpA : 0 <= (if 50000 <? f2 then lastGoodPosA dev else f2) <= 50000)
      by (destruct (50000 <? f2) eqn:E; [lia | apply Z.ltb_ge in E; lia]).
    assert (HpB : 0 <= (if 50000 <? f5 then lastGoodPosB dev else f5) <= 50000)
      by (destruct (50000 <? f5) eqn:E; [lia | apply Z.ltb_ge in E; lia]).
    repeat split; try lia;
      try (destruct (f1 <? 32768) eqn:E;
           [apply Z.ltb_lt in E | apply Z.ltb_ge in E]; lia);
      unfold Qle, Qdiv, Qmult, Qinv, inject_Z; cbn; lia.
Qed.

(** X11: whatever the buffer, a decode with last good values within
    0..50000 returns a sample whose positions are within 0..50000, whose
    ticks are a signed 32-bit integer and whose loads are within
    0..655.35, and leaves last good values within 0..50000. *)
Theorem decoded_sample_ranges (dev : SpikeFilter) (now : Z)
    (data : list byte) :
  validFilter dev ->
  exists sample dev',
    parseMonitorData dev now data = Normal (sample, dev') /\
    validFilter dev' /\
    validPosition (posA sample) /\ validPosition (posB sample) /\
    - 2 ^ 31 <= ticks sample < 2 ^ 31 /\
    (0 <= loadA sample <= 655.35)%Q /\ (0 <= loadB sample <= 655.35)%Q /\
    timestamp sample = now /\ raw sample = Some data.
Proof. apply parseMonitorData_ranges. Qed.

Lemma decoded_sample_ranges_witness :
  exists sample dev',
    parseMonitorData (mkFilter 120 120) 0 spikeBuffer = Normal (sample, dev') /\
    validFilter dev' /\
    validPosition (posA sample) /\ validPosition (posB sample).
Proof.
  destruct (decoded_sample_ranges (mkFilter 120 120) 0 spikeBuffer)
    as (sample & dev' & Hp & Hd & HA & HB & _).
  { unfold validFilter, validPosition. cbn. lia. }
  exists sample, dev'.
  split; [exact Hp|]. split; [exact Hd|]. split; [exact HA | exact HB].
Defined.

(** X12: over any sequence of monitor reads from a fresh device, the decoder
    never raises, emits one sample per read, and no position above 50000
    ever gets out: every emitted position and the last good values stay
    within 0..50000. *)
Theorem spikes_never_emitted (reads : list (Z * list byte)) :
  exists samples dev',
    decodeReads initialFilter reads = Normal (samples, dev') /\
    length samples = length reads /\
    validFilter dev' /\
    Forall (fun sample =>
              validPosition (posA sample) /\ validPosition (posB sample))
      samples.
Proof.
  assert (Hgen : forall reads dev, validFilter dev ->
            exists samples dev',
              decodeReads dev reads = Normal (samples, dev') /\
              length samples = length reads /\
              validFilter dev' /\
              Forall (fun sample =>
                        validPosition (posA sample)
                        /\ validPosition (posB sample)) samples).
  { clear reads. intros reads.
    induction reads as [|[now data] rest IH]; intros dev Hdev.
    - exists [], dev.
      split; [reflexivity|]. split; [reflexivity|]. split; [exact Hdev|].
      constructor.
    - destruct (parseMonitorData_ranges dev now data Hdev)
        as (sample & dev1 & Hp & Hd1 & HA & HB & _).
      destruct (IH dev1 Hd1) as (samples & dev2 & Hrest & Hlen & Hd2 & Hall).
      exists (sample :: samples), dev2.
      cbn [decodeReads]. rewrite Hp, Hrest.
      split; [reflexivity|]. split; [cbn; lia|]. split; [exact Hd2|].
      constructor; [split; assumption | exact Hall]. }
  apply Hgen. unfold validFilter, validPosition, initialFilter. cbn. lia.
Qed.

(** ** The position scale *)

Lemma call_maxPos (c : Call) (s : WorkoutState) :
  match c with
  | MonitorSampleArrives sample _ =>
      maxPos (fst (call c s)) = maxPos s \/
      maxPos (fst (call c s)) = Z.max (posA sample) (posB sample) + 100
      /\ maxPos s < Z.max (posA sample) (posB sample)
  | _ => maxPos (fst (call c s)) = maxPos s
  end.
Proof.
  destruct c as [m wkg r jl now|sample now|data now|now| |value].
  - reflexivity.
  - cbn [call fst]. unfold handleMonitorSample, checkAutoStop.
    hook_cases.
    all: try (left; reflexivity).
    all: right; split; [reflexivity | lia].
  - destruct (decodes data) eqn:Hd;
      [|rewrite call_rep_not_decoded by assumption; reflexivity].
    destruct (findsSampleAndWorkout s) eqn:Hf;
      [|rewrite call_rep_dropped by assumption; reflexivity].
    apply decodes_Normal in Hd as (H6 & vs & Hvs).
    unfold findsSampleAndWorkout in Hf.
    destruct (currentSampleRef s) as [smp|] eqn:Hsmp; [|discriminate].
    destruct (currentWorkout s) as [w|] eqn:Hw; [|discriminate].
    destruct (rep_notification_effect s data now vs smp w H6 Hvs Hsmp Hw)
      as (s' & effs & Hr & _ & _ & _ & _ & _ & _ & _ & _ & _ & _ & Hm & _).
    cbn [call]. rewrite Hr. exact Hm.
  - cbn [call fst].
    destruct (currentWorkout s) as [w|] eqn:Hw.
    + destruct s as [cw wu wk wt tr wh jl st ap mp ls rr ta ba tb bb lt lr
                        ast cs].
      cbn [currentWorkout] in Hw. subst. reflexivity.
    + destruct s as [cw wu wk wt tr wh jl st ap mp ls rr ta ba tb bb lt lr
                        ast cs].
      cbn [currentWorkout] in Hw. subst. reflexivity.
  - reflexivity.
  - reflexivity.
Qed.

(** X13: fed by the decoder, the engine's position scale stays within
    1000..50100 whatever else is called in between: it starts at 1000 and
    only a monitor sample moves it, to 100 above a position that is at
    most 50000. *)
Theorem position_scale_bounded (cs : list Call) :
  (forall sample now, In (MonitorSampleArrives sample now) cs ->
     posA sample <= 50000 /\ posB sample <= 50000) ->
  1000 <= maxPos (fst (run cs initialState)) <= 50100.
Proof.
  assert (Hgen : forall cs s,
            (forall sample now, In (MonitorSampleArrives sample now) cs ->
               posA sample <= 50000 /\ posB sample <= 50000) ->
            1000 <= maxPos s <= 50100 ->
            1000 <= maxPos (fst (run cs s)) <= 50100).
  { clear cs. intros cs. induction cs as [|c rest IH]; intros s Hall Hs.
    - exact Hs.
    - rewrite run_cons. apply IH.
      + intros sample now Hin. apply (Hall sample now). right. exact Hin.
      + pose proof (call_maxPos c s) as Hc.
        destruct c as [m wkg r jl now|sample now|data now|now| |value];
          try (rewrite Hc; exact Hs).
        destruct (Hall sample now (or_introl eq_refl)) as [HA HB].
        destruct Hc as [Hc|[Hc Hlt]]; rewrite Hc; lia. }
  intros Hall. apply (Hgen cs initialState Hall). cbn. lia.
Qed.

Lemma position_scale_bounded_witness :
  1000 <= maxPos (fst (run [MonitorSampleArrives (scenarioSample 49000 3) 5]
                         initialState)) <= 50100.
Proof.
  apply position_scale_bounded.
  intros sample now [Heq|[]]. injection Heq as <- _. cbn. lia.
Defined.

(** ** The pollers *)

Lemma clearInterval_perm (id : TimerId) (ts ts' : list (TimerId * Z)) :
  ts ≡ₚ ts' -> clearInterval id ts ≡ₚ clearInterval id ts'.
Proof.
  intros Hp. unfold clearInterval.
  induction Hp; cbn [List.filter].
  - reflexivity.
  - match goal with
    | |- context [if ?b then _ else _] => destruct b
    end; [apply perm_skip|]; assumption.
  - repeat match goal with
           | |- context [if ?b then _ else _] => destruct b
           end; try reflexivity. apply perm_swap.
  - etransitivity; eassumption.
Qed.

Lemma sessionInv_fresh : sessionInv freshSession.
Proof.
  unfold sessionInv, freshSession, ownedTimers. cbn.
  repeat split; try reflexivity; intros; discriminate.
Qed.

Lemma sessionInv_startProperty (d : Session) :
  sessionInv d -> sessionInv (fst (startPropertyPolling d)).
Proof.
  intros Hinv. unfold startPropertyPolling.
  destruct (propertyInterval d) as [p|] eqn:Hp; [exact Hinv|].
  destruct (propertyChar d); [|exact Hinv].
  destruct Hinv as (Hperm & _ & Hm & _).
  unfold sessionInv, ownedTimers in *. cbn. rewrite Hp in Hperm. cbn in Hperm.
  split; [|split; [|split]].
  - rewrite Hperm. destruct (monitorInterval d); cbn; [constructor|];
      reflexivity.
  - intros id [= <-]. lia.
  - intros id Hid. specialize (Hm id Hid). lia.
  - intros p m [= <-] Hmid. specialize (Hm m Hmid). lia.
Qed.

Lemma sessionInv_startMonitor (d : Session) :
  sessionInv d -> sessionInv (fst (startMonitorPolling d)).
Proof.
  intros Hinv. unfold startMonitorPolling.
  destruct (monitorInterval d) as [m|] eqn:Hm; [exact Hinv|].
  destruct (monitorChar d); [|exact Hinv].
  destruct Hinv as (Hperm & Hp & _ & _).
  unfold sessionInv, ownedTimers in *. cbn. rewrite Hm in Hperm.
  rewrite app_nil_r in Hperm.
  split; [|split; [|split]].
  - rewrite Hperm. reflexivity.
  - intros id Hid. specialize (Hp id Hid). lia.
  - intros id [= <-]. lia.
  - intros p m Hpid [= <-]. specialize (Hp p Hpid). lia.
Qed.

Lemma sessionInv_stopProperty (d : Session) :
  sessionInv d ->
  sessionInv (fst (stopPropertyPolling d)) /\
  propertyInterval (fst (stopPropertyPolling d)) = None /\
  monitorInterval (fst (stopPropertyPolling d)) = monitorInterval d.
Proof.
  intros Hinv. unfold stopPropertyPolling.
  destruct (propertyInterval d) as [p|] eqn:Hp; [|auto].
  cbn [fst propertyInterval monitorInterval].
  split; [|split; reflexivity].
  destruct Hinv as (Hperm & _ & Hm & Hne).
  unfold sessionInv, ownedTimers in *. cbn. rewrite Hp in Hperm.
  split; [|split; [|split]].
  - rewrite (clearInterval_perm p _ _ Hperm). unfold clearInterval. cbn.
    rewrite Pos.eqb_refl. cbn.
    destruct (monitorInterval d) as [m|]; cbn; [|reflexivity].
    specialize (Hne p m Hp eq_refl).
    destruct (Pos.eqb_spec m p); [congruence | reflexivity].
  - intros id Hid; discriminate.
  - exact Hm.
  - intros ? ? Hid; discriminate.
Qed.

Lemma sessionInv_stopMonitor (d : Session) :
  sessionInv d ->
  sessionInv (fst (stopMonitorPolling d)) /\
  monitorInterval (fst (stopMonitorPolling d)) = None /\
  propertyInterval (fst (stopMonitorPolling d)) = propertyInterval d.
Proof.
  intros Hinv. unfold stopMonitorPolling.
  destruct (monitorInterval d) as [m|] eqn:Hm; [|auto].
  cbn [fst propertyInterval monitorInterval].
  split; [|split; reflexivity].
  destruct Hinv as (Hperm & Hp & _ & Hne).
  unfold sessionInv, ownedTimers in *. cbn. rewrite Hm in Hperm.
  split; [|split; [|split]].
  - rewrite (clearInterval_perm m _ _ Hperm). unfold clearInterval.
    rewrite List.filter_app. cbn. rewrite Pos.eqb_refl. cbn.
    destruct (propertyInterval d) as [p|]; cbn; [|reflexivity].
    specialize (Hne p m eq_refl Hm).
    destruct (Pos.eqb_spec p m); [congruence | reflexivity].
  - exact Hp.
  - intros id Hid; discriminate.
  - intros ? ? _ Hid; discriminate.
Qed.

Lemma stops_clear_all (d : Session) :
  sessionInv d ->
  let d1 := fst (stopPropertyPolling d) in
  let d2 := fst (stopMonitorPolling d1) in
  sessionInv d2 /\
  timers d2 = [] /\
  propertyInterval d2 = None /\ monitorInterval d2 = None /\
  isConnected d2 = isConnected d /\
  rxChar d2 = rxChar d /\ monitorChar d2 = monitorChar d /\
  propertyChar d2 = propertyChar d /\ repNotifyChar d2 = repNotifyChar d /\
  nextTimer d2 = nextTimer d.
Proof.
  intros Hinv d1 d2.
  destruct (sessionInv_stopProperty d Hinv) as (H1 & Hp1 & Hm1).
  fold d1 in H1, Hp1, Hm1.
  destruct (sessionInv_stopMonitor d1 H1) as (H2 & Hm2 & Hp2).
  fold d2 in H2, Hm2, Hp2.
  assert (Hp : propertyInterval d2 = None) by congruence.
  split; [exact H2|].
  split.
  { destruct H2 as (Hperm & _). unfold ownedTimers in Hperm.
    rewrite Hp, Hm2 in Hperm. cbn in Hperm.
    apply Permutation_nil_r in Hperm. exact Hperm. }
  split; [exact Hp|]. split; [exact Hm2|].
  subst d2 d1. unfold stopMonitorPolling, stopPropertyPolling.
  destruct (propertyInterval d); cbn;
    destruct (monitorInterval d); cbn; repeat split; reflexivity.
Qed.

Lemma handleDisconnect_spec (d : Session) :
  sessionInv d ->
  let d' := fst (handleDisconnect d) in
  sessionInv d' /\
  timers d' = [] /\
  propertyInterval d' = None /\ monitorInterval d' = None /\
  isConnected d' = false /\
  rxChar d' = None /\ monitorChar d' = None /\ propertyChar d' = None /\
  repNotifyChar d' = None.
Proof.
  intros Hinv. unfold handleDisconnect.
  set (d0 := mkSession false (rxChar d) (monitorChar d) (propertyChar d)
               (repNotifyChar d) (propertyInterval d) (monitorInterval d)
               (timers d) (nextTimer d)).
  assert (H0 : sessionInv d0) by exact Hinv.
  pose proof (stops_clear_all d0 H0) as Hs. cbv zeta in Hs.
  destruct (stopPropertyPolling d0) as [d1 l1]. cbn [fst] in Hs.
  destruct (stopMonitorPolling d1) as [d2 l2]. cbn [fst] in Hs.
  destruct Hs as (H2 & Ht & Hp & Hm & Hc & _).
  cbn [fst isConnected rxChar monitorChar propertyChar repNotifyChar
       propertyInterval monitorInterval timers].
  split; [exact H2|].
  repeat split; try assumption; try reflexivity.
Qed.

Lemma disconnect_spec (gattConnected : bool) (d : Session) :
  sessionInv d ->
  let d' := fst (disconnect gattConnected d) in
  sessionInv d' /\
  timers d' = [] /\
  propertyInterval d' = None /\ monitorInterval d' = None /\
  isConnected d' = false /\
  rxChar d' = None /\ monitorChar d' = None /\ propertyChar d' = None /\
  repNotifyChar d' = None.
Proof.
  intros Hinv. unfold disconnect.
  destruct gattConnected.
  - pose proof (stops_clear_all d Hinv) as Hs. cbv zeta in Hs.
    destruct (stopPropertyPolling d) as [d0 l0]. cbn [fst] in Hs.
    destruct (stopMonitorPolling d0) as [d1 l1]. cbn [fst] in Hs.
    destruct Hs as (H1 & _).
    pose proof (handleDisconnect_spec d1 H1) as Hh. cbv zeta in Hh.
    destruct (handleDisconnect d1) as [d3 l3]. exact Hh.
  - pose proof (handleDisconnect_spec d Hinv) as Hh. cbv zeta in Hh.
    destruct (handleDisconnect d) as [d3 l3]. exact Hh.
Qed.

Lemma sessionInv_call (c : SessionCall) (d : Session) :
  sessionInv d -> sessionInv (fst (sessionCall c d)).
Proof.
  intros Hinv. destruct c; cbn [sessionCall].
  - exact Hinv.
  - pose proof (sessionInv_startProperty d Hinv) as H1.
    destruct (startPropertyPolling d) as [d1 l1]. cbn [fst] in H1.
    pose proof (sessionInv_startMonitor d1 H1) as H2.
    destruct (startMonitorPolling d1) as [d2 l2]. exact H2.
  - apply sessionInv_startProperty. exact Hinv.
  - apply sessionInv_startMonitor. exact Hinv.
  - apply sessionInv_stopProperty. exact Hinv.
  - apply sessionInv_stopMonitor. exact Hinv.
  - apply handleDisconnect_spec. exact Hinv.
  - apply disconnect_spec. exact Hinv.
Qed.

Lemma sessionInv_run (cs : list SessionCall) (d : Session) :
  sessionInv d -> sessionInv (sessionRun cs d).
Proof.
  revert d. induction cs as [|c rest IH]; intros d Hinv; [exact Hinv|].
  cbn [sessionRun]. apply IH. apply sessionInv_call. exact Hinv.
Qed.

(** X14: whatever is called on a session, the running timers are exactly the
    ones it holds a handle to: at most one property timer (500 ms) and at
    most one monitor timer (100 ms), so a second start never adds a
    timer; and a lost link or a disconnect leaves no timer running, no
    handle and the session disconnected. *)
Theorem pollers_never_leak (cs : list SessionCall) :
  let d := sessionRun cs freshSession in
  timers d ≡ₚ ownedTimers d /\
  (length (timers d) <= 2)%nat /\
  (forall gattConnected,
     let d' := fst (disconnect gattConnected d) in
     timers d' = [] /\ propertyInterval d' = None /\
     monitorInterval d' = None /\ isConnected d' = false /\
     rxChar d' = None /\ monitorChar d' = None /\
     propertyChar d' = None /\ repNotifyChar d' = None) /\
  (let d' := fst (handleDisconnect d) in
   timers d' = [] /\ propertyInterval d' = None /\
   monitorInterval d' = None /\ isConnected d' = false /\
   rxChar d' = None /\ monitorChar d' = None /\
   propertyChar d' = None /\ repNotifyChar d' = None) /\
  fst (startMonitorPolling (fst (startMonitorPolling d)))
    = fst (startMonitorPolling d) /\
  fst (startPropertyPolling (fst (startPropertyPolling d)))
    = fst (startPropertyPolling d).
Proof.
  intros d.
  pose proof (sessionInv_run cs freshSession sessionInv_fresh) as Hinv.
  fold d in Hinv.
  split; [exact (proj1 Hinv)|].
  split.
  { rewrite (Permutation_length (proj1 Hinv)). unfold ownedTimers.
    destruct (propertyInterval d), (monitorInterval d); cbn; lia. }
  split; [intros g; apply (disconnect_spec g d Hinv)|].
  split; [apply (handleDisconnect_spec d Hinv)|].
  split.
  - unfold startMonitorPolling.
    destruct (monitorInterval d) eqn:Hm; cbn; [rewrite Hm; reflexivity|].
    destruct (monitorChar d) eqn:Hc; cbn; [reflexivity|].
    rewrite Hm, Hc. reflexivity.
  - unfold startPropertyPolling.
    destruct (propertyInterval d) eqn:Hp; cbn; [rewrite Hp; reflexivity|].
    destruct (propertyChar d) eqn:Hc; cbn; [reflexivity|].
    rewrite Hp, Hc. reflexivity.
Qed.

(** ** The GATT queue drains *)

Lemma gatt_drain_running (o : OpId -> Outcome) (q : list OpId) :
  forall (op : OpId) (d : GattState),
    running d = [op] -> gattQueue d = q ->
    exists d',
      gattRun (map (fun p => Settle p (o p)) (op :: q)) d = Some d' /\
      gattBusy d' = false /\ running d' = [] /\ gattQueue d' = [] /\
      settled d' = settled d ++ map (fun p => (p, o p)) (op :: q).
Proof.
  induction q as [|next rest IH]; intros op d Hrun Hq.
  - cbn [map gattRun gattStep]. rewrite Hrun.
    rewrite bool_decide_eq_true_2 by (apply list_elem_of_singleton; reflexivity).
    eexists. split; [reflexivity|].
    unfold resumeAfterAwait, processGattQueue.
    cbn [running gattQueue gattBusy settled]. rewrite Hq, Hrun.
    rewrite removeFirst_head. cbn. repeat split; reflexivity.
  - destruct (resume_starts_next d op next (o op) rest Hrun Hq)
      as (Hr' & Hq' & _ & Hs').
    destruct (IH next (resumeAfterAwait op (o op) d) Hr' Hq')
      as (d' & Hgo & Hb & Hr & Hqe & Hs).
    exists d'. split.
    + change (map (fun p => Settle p (o p)) (op :: next :: rest))
        with (Settle op (o op) :: map (fun p => Settle p (o p)) (next :: rest)).
      cbn [gattRun gattStep]. rewrite Hrun.
      rewrite bool_decide_eq_true_2 by (apply list_elem_of_singleton; reflexivity).
      exact Hgo.
    + split; [exact Hb|]. split; [exact Hr|]. split; [exact Hqe|].
      rewrite Hs, Hs'. rewrite <- app_assoc. reflexivity.
Qed.

(** X15: the queue never wedges.  From any state the queue can reach,
    letting the pending operations settle one after the other, each with
    any outcome, is always possible, and it leaves the link idle with
    nothing running or queued and every submitted operation settled once,
    in submission order, with its own outcome. *)
Theorem gatt_queue_drains (evs : list GattEvent) (d : GattState)
    (o : OpId -> Outcome) :
  gattRun evs initialGatt = Some d ->
  exists d',
    gattRun (map (fun p => Settle p (o p)) (running d ++ gattQueue d)) d
      = Some d' /\
    gattBusy d' = false /\ running d' = [] /\ gattQueue d' = [] /\
    map fst (settled d') = submissions evs /\
    settled d' =
      settlements evs ++ map (fun p => (p, o p)) (running d ++ gattQueue d).
Proof.
  intros Hrun.
  pose proof (gattRun_inv evs [] [] initialGatt d gattInv_initial Hrun)
    as (Hone & Hsubs & Hset & Hidle & Hbusy).
  cbn [app] in Hsubs, Hset.
  destruct (gattBusy d) eqn:Hb.
  - destruct (Hbusy eq_refl) as [op Hop].
    destruct (gatt_drain_running o (gattQueue d) op d Hop eq_refl)
      as (d' & Hgo & Hb' & Hr' & Hq' & Hs').
    exists d'. rewrite Hop. cbn [app].
    split; [exact Hgo|]. split; [exact Hb'|]. split; [exact Hr'|].
    split; [exact Hq'|]. split.
    + rewrite Hs', Hsubs, Hop, map_app, map_map. cbn [fst].
      rewrite map_id. reflexivity.
    + rewrite Hs', Hset. reflexivity.
  - destruct (Hidle eq_refl) as [Hr Hq]. exists d.
    split; [rewrite Hr, Hq; reflexivity|]. split; [exact Hb|].
    split; [exact Hr|]. split; [exact Hq|]. split.
    + rewrite Hsubs, Hr, Hq, !app_nil_r. reflexivity.
    + rewrite Hr, Hq. cbn [app map]. rewrite app_nil_r. exact Hset.
Qed.

Lemma gatt_queue_drains_witness :
  exists d',
    gattRun [Settle 1%nat Rejected; Settle 2%nat Rejected]
      (mkGatt [2%nat] true [1%nat] []) = Some d' /\
    gattBusy d' = false /\
    settled d' = [(1%nat, Rejected); (2%nat, Rejected)].
Proof.
  destruct (gatt_queue_drains [Submit 1%nat; Submit 2%nat] _
              (fun _ => Rejected) eq_refl)
    as (d' & Hgo & Hb & _ & _ & _ & Hs).
  exists d'. split; [exact Hgo|]. split; [exact Hb|]. exact Hs.
Defined.

(** ** Frames, continued *)

Lemma byteVal_u8_mod (z : Z) : byteVal (u8 z) = z mod 256.
Proof.
  assert (Hu : u8 z = u8 (z mod 256)).
  { unfold u8. rewrite Z.mod_mod by lia. reflexivity. }
  rewrite Hu. apply byteVal_u8. apply Z.mod_pos_bound. lia.
Qed.

Lemma uint16_value (v : Z) :
  byteVal (u8 v) + 256 * byteVal (u8 (v / 2 ^ 8)) = v mod 65536.
Proof.
  rewrite !byteVal_u8_mod. change (2 ^ 8) with 256.
  change 65536 with (256 * 256).
  rewrite Z.rem_mul_r by lia. reflexivity.
Qed.

(** X16: a 16-bit store followed by a load.  A value written with
    [setUint16] or [setInt16] at an offset that fits the buffer is read
    back by [getUint16] at that offset reduced modulo 65536 (so a negative
    [v] of the int16 range reads back as [v + 65536]), the buffer keeps
    its length, and a 16-bit field that does not overlap the written one
    reads as before. *)
Theorem uint16_store_load (buf : list byte) (off : nat) (v : Z) :
  (S off < length buf)%nat ->
  getUint16 (setUint16 off v buf) off = Normal (v mod 65536) /\
  setInt16 off v buf = setUint16 off v buf /\
  (- 32768 <= v < 0 ->
   getUint16 (setInt16 off v buf) off = Normal (v + 65536)) /\
  length (setUint16 off v buf) = length buf /\
  (forall off' : nat,
     (S off' < off \/ S off < off')%nat ->
     getUint16 (setUint16 off v buf) off' = getUint16 buf off').
Proof.
  intros Hfit.
  assert (Hget : getUint16 (setUint16 off v buf) off = Normal (v mod 65536)).
  { unfold getUint16, setUint16, uint16LE.
    rewrite (list_lookup_inserts _ off _ off) by (cbn; lia).
    rewrite (list_lookup_inserts _ off _ (S off)) by (cbn; lia).
    rewrite Nat.sub_diag. replace (S off - off)%nat with 1%nat by lia.
    cbn [lookup list_lookup]. rewrite uint16_value. reflexivity. }
  split; [exact Hget|]. split; [reflexivity|]. split; [|split].
  - intros Hv. unfold setInt16. fold (setUint16 off v buf). rewrite Hget.
    f_equal. rewrite <- (Z.mod_add v 1 65536) by lia.
    rewrite Z.mod_small by lia. lia.
  - unfold setUint16. apply length_inserts.
  - intros off' Hapart. unfold getUint16, setUint16, uint16LE.
    destruct Hapart as [Hlt | Hgt].
    + rewrite !list_lookup_inserts_lt by lia. reflexivity.
    + rewrite !list_lookup_inserts_ge by (cbn; lia). reflexivity.
Qed.

Lemma uint16_store_load_witness :
  getUint16 (writeI16LE 0x10 (-1300) (replicate 32 x00)) 0x10
    = Normal 64236 /\
  getUint16 (getModeProfile OLD_SCHOOL) 0x10 = Normal (65536 - 1300).
Proof.
  assert (Hfit : (S 0x10 < length (replicate 32 x00))%nat)
    by (rewrite length_replicate; lia).
  destruct (uint16_store_load (replicate 32 x00) 0x10 (-1300) Hfit)
    as (_ & _ & Hneg & _ & _).
  split; [apply Hneg; lia | reflexivity].
Defined.

Ltac echo_compute :=
  cbv beta iota zeta delta
    [buildEchoControl getEchoParams setByte setFloat32 setUint16 setUint32
     uint32LE float32LE uint16LE list_inserts insert list_insert replicate
     take drop lookup list_lookup length app
     EchoParams.level EchoParams.eccentricPct EchoParams.concentricPct
     EchoParams.smoothing EchoParams.floor EchoParams.negLimit
     EchoParams.gain EchoParams.cap
     Pos.to_nat Pos.iter_op Init.Nat.add].

(** Every field of the Echo frame, in order: the sequential stores of
    [buildEchoControl] leave no gap and do not overlap. *)
Lemma buildEchoControl_parts (params : DeviceEchoParams.t) :
  let echoParams :=
    getEchoParams (DeviceEchoParams.level params)
      (DeviceEchoParams.eccentricPct params) in
  buildEchoControl params =
    uint32LE 0x4e
    ++ [u8 (warmupRepsOrThree (DeviceEchoParams.warmupReps params));
        u8 (if DeviceEchoParams.isJustLift params then 0xff
            else match DeviceEchoParams.targetReps params with
                 | Some n => n
                 | None => 2
                 end)]
    ++ uint16LE 0
    ++ uint16LE (DeviceEchoParams.eccentricPct params)
    ++ uint16LE 50
    ++ float32LE 0.1%Q
    ++ float32LE (EchoParams.gain echoParams)
    ++ float32LE (EchoParams.cap echoParams)
    ++ float32LE 0%Q
    ++ float32LE (-100)%Q.
Proof.
  destruct params as [level ecc warm target jl].
  cbn [DeviceEchoParams.level DeviceEchoParams.eccentricPct
       DeviceEchoParams.warmupReps DeviceEchoParams.targetReps
       DeviceEchoParams.isJustLift].
  destruct jl, level; echo_compute; reflexivity.
Qed.

(** X17: the Echo control frame of a request that passed the checks of
    the start handler.  It has 32 bytes: command 0x4E as a little-endian
    u32, warm-up count 3, then 0xFF for an unlimited set and the target
    repetitions otherwise, a zero u16, the eccentric percentage and 50 as
    little-endian u16, and five little-endian float32: 0.1, the gain and
    the cap of the level (1 and 50, 1.25 and 40, 1.667 and 30, 3.333 and
    15), 0 and -100. *)
Theorem echo_frame_layout (params : DeviceEchoParams.t) :
  validEchoParams params ->
  let frame := buildEchoControl params in
  let gainCap : Q * Q :=
    match DeviceEchoParams.level params with
    | HARD => (1, 50)
    | HARDER => (1.25, 40)
    | HARDEST => (1.667, 30)
    | EPIC => (3.333, 15)
    end%Q in
  length frame = 32%nat /\
  take 4 frame = [x4e; x00; x00; x00] /\
  byteVal <$> frame !! 4%nat = Some 3 /\
  byteVal <$> frame !! 5%nat =
    Some (if DeviceEchoParams.isJustLift params then 0xFF
          else orZero (DeviceEchoParams.targetReps params)) /\
  getUint16 frame 6 = Normal 0 /\
  getUint16 frame 8 = Normal (DeviceEchoParams.eccentricPct params) /\
  getUint16 frame 10 = Normal 50 /\
  take 4 (drop 0x0c frame) = float32LE 0.1%Q /\
  take 4 (drop 0x10 frame) = float32LE (fst gainCap) /\
  take 4 (drop 0x14 frame) = float32LE (snd gainCap) /\
  take 4 (drop 0x18 frame) = float32LE 0%Q /\
  take 4 (drop 0x1c frame) = float32LE (-100)%Q.
Proof.
  intros (Hecc & Hwarm & Htarget). cbv zeta.
  rewrite buildEchoControl_parts.
  destruct params as [level ecc warm target jl].
  cbn [DeviceEchoParams.level DeviceEchoParams.eccentricPct
       DeviceEchoParams.warmupReps DeviceEchoParams.targetReps
       DeviceEchoParams.isJustLift] in *.
  subst warm.
  assert (Hu16 : byteVal (u8 ecc) + 256 * byteVal (u8 (ecc / 2 ^ 8)) = ecc).
  { rewrite uint16_value. apply Z.mod_small. lia. }
  assert (Hb5 : byteVal (u8 (if jl then 0xff else
                   match target with Some n => n | None => 2 end)) =
                if jl then 0xFF else orZero target).
  { destruct jl; [reflexivity|].
    destruct (Htarget eq_refl) as (n & -> & Hn).
    cbn [orZero]. apply byteVal_u8. lia. }
  unfold getUint16, uint32LE, uint16LE, float32LE.
  cbn [app length take drop lookup list_lookup fmap option_fmap option_map
       Pos.to_nat Pos.iter_op Init.Nat.add].
  rewrite Hb5, Hu16.
  destruct level; repeat split; reflexivity.
Qed.

Lemma echo_frame_layout_witness :
  validEchoParams harderEight /\
  buildEchoControl harderEight =
    [x4e; x00; x00; x00; x03; x08; x00; x00; x64; x00; x32; x00;
     xcd; xcc; xcc; x3d; x00; x00; xa0; x3f; x00; x00; x20; x42;
     x00; x00; x00; x00; x00; x00; xc8; xc2] /\
  getUint16 (buildEchoControl harderEight) 8 = Normal 100.
Proof.
  assert (Hvalid : validEchoParams harderEight).
  { unfold validEchoParams, harderEight. cbn.
    split; [lia|]. split; [reflexivity|].
    intros _. exists 8. split; [reflexivity | lia]. }
  split; [exact Hvalid|]. split; [reflexivity|].
  destruct (echo_frame_layout harderEight Hvalid)
    as (_ & _ & _ & _ & _ & Hecc & _).
  exact Hecc.
Defined.

(** Every byte of the program frame, in order. *)
Lemma buildProgramParams_parts (params : ProgramParams) :
  buildProgramParams params =
    programHeader
      (if isJustLift params then xff else u8 (reps params + 3))
    ++ getModeProfile
         (if isJustLift params then baseMode params else mode params)
    ++ [x00; x00; x00; x00]
    ++ float32LE (effectiveKg params)
    ++ float32LE (perCableKg params)
    ++ float32LE (progressionOrZero (progressionKg params)).
Proof.
  unfold buildProgramParams, programHeader.
  destruct (isJustLift params).
  - destruct (baseMode params); frame_compute; reflexivity.
  - destruct (mode params); frame_compute; reflexivity.
Qed.

(** X18: the whole program frame.  It is a fixed 48-byte header in which
    only byte 4 varies, the 32-byte mode profile, four zero bytes and the
    three float32 weights; so two requests give frames that agree on
    every byte outside offset 4, 0x30-0x4F and 0x54-0x5F. *)
Theorem program_frame_parts (params other : ProgramParams) :
  buildProgramParams params =
    programHeader
      (if isJustLift params then xff else u8 (reps params + 3))
    ++ getModeProfile
         (if isJustLift params then baseMode params else mode params)
    ++ [x00; x00; x00; x00]
    ++ float32LE (effectiveKg params)
    ++ float32LE (perCableKg params)
    ++ float32LE (progressionOrZero (progressionKg params)) /\
  take 4 (buildProgramParams params) = take 4 (buildProgramParams other) /\
  take 43 (drop 5 (buildProgramParams params))
    = take 43 (drop 5 (buildProgramParams other)) /\
  take 4 (drop 0x50 (buildProgramParams params))
    = take 4 (drop 0x50 (buildProgramParams other)).
Proof.
  split; [apply buildProgramParams_parts|].
  rewrite !buildProgramParams_parts.
  assert (Hlen : forall m, length (getModeProfile m) = 32%nat)
    by (intros []; reflexivity).
  assert (Hdrop : forall (b : byte) (m : ProgramMode) (rest : list byte),
            take 4 (drop 0x50 (programHeader b ++ getModeProfile m ++ rest))
            = take 4 rest).
  { intros b m rest. rewrite app_assoc.
    rewrite drop_app_length'; [reflexivity|].
    rewrite length_app, Hlen. reflexivity. }
  split; [reflexivity|]. split; [reflexivity|].
  rewrite !Hdrop. reflexivity.
Qed.

(** X19: the five mode profiles are 32 bytes long and pairwise different,
    so program frames built for different modes differ. *)
Theorem mode_profiles_distinct (m1 m2 : ProgramMode) :
  m1 <> m2 ->
  length (getModeProfile m1) = 32%nat /\
  getModeProfile m1 <> getModeProfile m2 /\
  (forall p1 p2 : ProgramParams,
     (if isJustLift p1 then baseMode p1 else mode p1) = m1 ->
     (if isJustLift p2 then baseMode p2 else mode p2) = m2 ->
     buildProgramParams p1 <> buildProgramParams p2).
Proof.
  intros Hne.
  assert (Hlen : forall m, length (getModeProfile m) = 32%nat)
    by (intros []; reflexivity).
  assert (Hdiff : getModeProfile m1 <> getModeProfile m2).
  { intros Heq. apply Hne.
    destruct m1, m2; try reflexivity;
      apply (f_equal (take 16)) in Heq; vm_compute in Heq; discriminate Heq. }
  split; [apply Hlen|]. split; [exact Hdiff|].
  intros p1 p2 H1 H2 Heq. apply Hdiff.
  rewrite !buildProgramParams_parts, H1, H2 in Heq.
  apply (f_equal (fun l => take 32 (drop 48 l))) in Heq.
  rewrite !drop_app_length' in Heq by reflexivity.
  rewrite !take_app_length' in Heq by (symmetry; apply Hlen).
  exact Heq.
Qed.

Lemma mode_profiles_distinct_witness :
  PUMP <> TUT /\
  getModeProfile PUMP <> getModeProfile TUT.
Proof.
  assert (Hne : PUMP <> TUT) by discriminate.
  split; [exact Hne|].
  destruct (mode_profiles_distinct PUMP TUT Hne) as (_ & Hdiff & _).
  exact Hdiff.
Defined.

(** ** Bounded buffers *)

Lemma keep_last_snoc {A : Type} (n : nat) (xs : list A) (x : A) :
  let h := drop (length xs - n) xs in
  drop (length (h ++ [x]) - n) (h ++ [x])
  = drop (length (xs ++ [x]) - n) (xs ++ [x]).
Proof.
  cbv zeta. rewrite !length_app, length_drop. cbn [length].
  destruct (decide (length xs < n)%nat) as [Hlt | Hge].
  - replace (length xs - n)%nat with 0%nat by lia.
    rewrite drop_0, Nat.sub_0_r. reflexivity.
  - replace (length xs - (length xs - n) + 1 - n)%nat with 1%nat by lia.
    replace (length xs + 1 - n)%nat with ((length xs - n) + 1)%nat by lia.
    rewrite <- drop_drop. rewrite (drop_app_le xs) by lia. reflexivity.
Qed.

Lemma keep_last_length {A : Type} (n : nat) (xs : list A) :
  (length (drop (length xs - n) xs) <= n)%nat.
Proof. rewrite length_drop. lia. Qed.

Lemma addData_history (sample : MonitorSample) (c : ChartManager) :
  (length (loadHistory c) <= Z.to_nat (maxHistoryPoints c))%nat ->
  let history := loadHistory c ++ [historyPoint sample] in
  loadHistory (addData sample c)
    = drop (length history - Z.to_nat (maxHistoryPoints c)) history /\
  maxHistoryPoints (addData sample c) = maxHistoryPoints c /\
  onLog (addData sample c) = onLog c /\
  chartLogged (addData sample c) =
    chartLogged c ++
    (if onLog c && (0 <=? maxHistoryPoints c)
        && (length (loadHistory c) =? Z.to_nat (maxHistoryPoints c))%nat
     then [(historyLimitMessage, info)] else []).
Proof.
  intros Hlen. cbv zeta. unfold addData.
  rewrite length_app. cbn [length].
  destruct (maxHistoryPoints c <? Z.of_nat (length (loadHistory c) + 1))
    eqn:Hfull.
  - apply Z.ltb_lt in Hfull.
    assert (Hone : (length (loadHistory c) + 1
                    - Z.to_nat (maxHistoryPoints c))%nat = 1%nat) by lia.
    rewrite Hone, length_drop, length_app. cbn [length].
    destruct (0 <=? maxHistoryPoints c) eqn:Hpos.
    + apply Z.leb_le in Hpos.
      assert (Heq : length (loadHistory c) = Z.to_nat (maxHistoryPoints c))
        by lia.
      rewrite (proj2 (Z.eqb_eq _ _)) by lia.
      rewrite (proj2 (Nat.eqb_eq _ _) Heq).
      destruct (onLog c); cbn; rewrite ?app_nil_r; repeat split; reflexivity.
    + apply Z.leb_gt in Hpos.
      rewrite (proj2 (Z.eqb_neq _ _)) by lia.
      rewrite andb_false_r. cbn. rewrite app_nil_r.
      repeat split; reflexivity.
  - apply Z.ltb_ge in Hfull.
    replace (length (loadHistory c) + 1 - Z.to_nat (maxHistoryPoints c))%nat
      with 0%nat by lia.
    rewrite drop_0.
    replace (length (loadHistory c) =? Z.to_nat (maxHistoryPoints c))%nat
      with false by (symmetry; apply Nat.eqb_neq; lia).
    rewrite andb_false_r. cbn. rewrite app_nil_r.
    repeat split; reflexivity.
Qed.

Lemma samplesSinceClear_snoc (calls : list ChartCall) (call : ChartCall) :
  samplesSinceClear (calls ++ [call]) =
    match call with
    | AddData sample => samplesSinceClear calls ++ [sample]
    | Clear => []
    end.
Proof. unfold samplesSinceClear. rewrite fold_left_app. reflexivity. Qed.

Lemma chartRun_history (max : Z) (cb : bool) (logged : list (string * LogType))
    (calls : list ChartCall) :
  let c := chartRun calls (mkChart [] max cb logged) in
  loadHistory c =
    historyPoint <$>
      drop (length (samplesSinceClear calls) - Z.to_nat max)
        (samplesSinceClear calls) /\
  maxHistoryPoints c = max /\ onLog c = cb.
Proof.
  cbv zeta. induction calls as [|call calls IH] using rev_ind.
  - cbn. repeat split; reflexivity.
  - destruct IH as (Hh & Hm & Hcb).
    unfold chartRun in *. rewrite fold_left_app. cbn [fold_left].
    rewrite samplesSinceClear_snoc.
    set (c := fold_left chartCall calls (mkChart [] max cb logged)) in *.
    destruct call as [sample|]; cbn [chartCall].
    + assert (Hlen : (length (loadHistory c)
                      <= Z.to_nat (maxHistoryPoints c))%nat).
      { rewrite Hh, Hm, length_fmap. apply keep_last_length. }
      destruct (addData_history sample c Hlen) as (Ha & Hb & Hc & _).
      rewrite Ha, Hb, Hc, Hm, Hh. split; [|split; [reflexivity | exact Hcb]].
      rewrite <- (keep_last_snoc (Z.to_nat max) (samplesSinceClear calls)
                    sample).
      cbv zeta. rewrite !fmap_drop, fmap_app, !fmap_drop.
      rewrite !length_app, !length_drop, !length_fmap. reflexivity.
    + cbn. rewrite Hm, Hcb. repeat split; reflexivity.
Qed.

Lemma chartRun_adds_logged (max : Z) (samples : list MonitorSample) :
  0 <= max ->
  chartLogged (chartRun (AddData <$> samples) (mkChart [] max true []))
  = replicate (length samples - Z.to_nat max) (historyLimitMessage, info).
Proof.
  intros Hmax. induction samples as [|sample samples IH] using rev_ind.
  - reflexivity.
  - pose proof (chartRun_history max true [] (AddData <$> samples))
      as (Hh & Hm & Hcb). cbv zeta in Hh, Hm, Hcb.
    assert (Hsince : samplesSinceClear (AddData <$> samples) = samples).
    { clear. induction samples as [|s l IH] using rev_ind; [reflexivity|].
      rewrite fmap_app. cbn [fmap list_fmap].
      rewrite samplesSinceClear_snoc, IH. reflexivity. }
    rewrite Hsince in Hh.
    rewrite fmap_app. cbn [fmap list_fmap].
    unfold chartRun in *. rewrite fold_left_app. cbn [fold_left chartCall].
    set (c := fold_left chartCall (AddData <$> samples)
                (mkChart [] max true [])) in *.
    assert (Hlen : (length (loadHistory c)
                    <= Z.to_nat (maxHistoryPoints c))%nat).
    { rewrite Hh, Hm, length_fmap. apply keep_last_length. }
    destruct (addData_history sample c Hlen) as (_ & _ & _ & Hl).
    rewrite Hl, IH, Hcb, Hm, Hh, length_fmap, length_drop, length_app.
    cbn [length andb].
    rewrite (proj2 (Z.leb_le _ _) Hmax).
    destruct (decide (length samples < Z.to_nat max)%nat) as [Hlt | Hge].
    + replace (length samples - (length samples - Z.to_nat max)
               =? Z.to_nat max)%nat with false
        by (symmetry; apply Nat.eqb_neq; lia).
      replace (length samples + 1 - Z.to_nat max)%nat with 0%nat by lia.
      replace (length samples - Z.to_nat max)%nat with 0%nat by lia.
      reflexivity.
    + replace (length samples - (length samples - Z.to_nat max)
               =? Z.to_nat max)%nat with true
        by (symmetry; apply Nat.eqb_eq; lia).
      replace (length samples + 1 - Z.to_nat max)%nat
        with (S (length samples - Z.to_nat max)) by lia.
      rewrite replicate_S_end. reflexivity.
Qed.

(** X20: the chart keeps the newest points.  After any sequence of
    [addData] and [clear] calls on a chart that started empty, the history
    holds the points of the last [maxHistoryPoints] samples added since
    the last [clear], oldest first, so [getDataCount] never exceeds the
    limit; and in a run of [addData] calls alone, with a log callback
    installed, the limit message is logged by every call that arrives
    after the history is full, not only by the first. *)
Theorem chart_history_keeps_newest (max : Z) (cb : bool)
    (calls : list ChartCall) :
  0 <= max ->
  let c := chartRun calls (mkChart [] max cb []) in
  loadHistory c =
    historyPoint <$>
      drop (length (samplesSinceClear calls) - Z.to_nat max)
        (samplesSinceClear calls) /\
  0 <= getDataCount c <= max /\
  (forall samples : list MonitorSample,
     chartLogged (chartRun (AddData <$> samples) (mkChart [] max true []))
     = replicate (length samples - Z.to_nat max)
         (historyLimitMessage, info)).
Proof.
  intros Hmax. cbv zeta.
  destruct (chartRun_history max cb [] calls) as (Hh & _ & _).
  split; [exact Hh|]. split.
  - unfold getDataCount. rewrite Hh, length_fmap.
    pose proof (keep_last_length (Z.to_nat max) (samplesSinceClear calls)).
    lia.
  - intros samples. apply chartRun_adds_logged. exact Hmax.
Qed.

Lemma chart_history_keeps_newest_witness :
  loadHistory (chartRun (AddData <$> threeSamples) (mkChart [] 2 true []))
    = [LoadHistoryPoint.mk 200 3 4 20 21; LoadHistoryPoint.mk 300 5 6 30 31]
  /\
  chartLogged (chartRun (AddData <$> threeSamples) (mkChart [] 2 true []))
    = [(historyLimitMessage, info)].
Proof.
  assert (Hmax : 0 <= 2) by lia.
  destruct (chart_history_keeps_newest 2 true (AddData <$> threeSamples) Hmax)
    as (Hh & _ & Hlog).
  split; [rewrite Hh; reflexivity | rewrite Hlog; reflexivity].
Defined.

Lemma written_snoc (calls : list UseDevice.LogCall) (c : UseDevice.LogCall) :
  UseDevice.written (calls ++ [c]) =
    match c with
    | UseDevice.CallAddLog message type now =>
        (fst (UseDevice.written calls)
           ++ [LogEntry.mk (snd (UseDevice.written calls) + 1)
                 message type now],
         snd (UseDevice.written calls) + 1)
    | UseDevice.CallClearLogs => ([], snd (UseDevice.written calls))
    end.
Proof. unfold UseDevice.written. rewrite fold_left_app. reflexivity. Qed.

Lemma written_ids (calls : list UseDevice.LogCall) :
  forall (i : nat) (e : LogEntry.t),
    fst (UseDevice.written calls) !! i = Some e ->
    LogEntry.id e =
      snd (UseDevice.written calls)
      - Z.of_nat (length (fst (UseDevice.written calls))) + Z.of_nat i + 1.
Proof.
  induction calls as [|c calls IH] using rev_ind; intros i e Hi.
  - cbn in Hi. rewrite lookup_nil in Hi. discriminate Hi.
  - rewrite written_snoc in Hi |- *.
    destruct c as [message type now|]; cbn [fst snd] in *.
    + rewrite length_app. cbn [length].
      apply lookup_app_Some in Hi as [Hi | [Hge Hi]].
      * pose proof (lookup_lt_Some _ _ _ Hi). rewrite (IH i e Hi). lia.
      * apply list_lookup_singleton_Some in Hi as [Hz <-].
        cbn [LogEntry.id]. lia.
    + rewrite lookup_nil in Hi. discriminate Hi.
Qed.

Lemma logRun_written (calls : list UseDevice.LogCall) :
  let st := UseDevice.logRun calls UseDevice.initial in
  let w := fst (UseDevice.written calls) in
  UseDevice.logs st = drop (length w - 500) w /\
  UseDevice.logIdRef st = snd (UseDevice.written calls).
Proof.
  cbv zeta. induction calls as [|c calls IH] using rev_ind.
  - split; reflexivity.
  - destruct IH as (Hl & Hid). rewrite written_snoc.
    unfold UseDevice.logRun in *. rewrite fold_left_app. cbn [fold_left].
    set (st := fold_left UseDevice.logCall calls UseDevice.initial) in *.
    destruct c as [message type now|];
      cbn [UseDevice.logCall fst snd UseDevice.addLog UseDevice.clearLogs
           UseDevice.logs UseDevice.logIdRef].
    + unfold UseDevice.addLog. cbn [UseDevice.logs UseDevice.logIdRef].
      rewrite Hid. split; [|reflexivity].
      rewrite Hl.
      set (e := LogEntry.mk _ message type now).
      rewrite <- (keep_last_snoc 500 (fst (UseDevice.written calls)) e).
      cbv zeta.
      set (h := drop (length (fst (UseDevice.written calls)) - 500)
                  (fst (UseDevice.written calls))).
      assert (Hh : (length h <= 500)%nat) by apply keep_last_length.
      rewrite length_app in *. cbn [length] in *.
      destruct (500 <? length h + 1)%nat eqn:Hfull; [reflexivity|].
      apply Nat.ltb_ge in Hfull.
      replace (length h + 1 - 500)%nat with 0%nat by lia.
      rewrite drop_0. reflexivity.
    + split; [reflexivity | exact Hid].
Qed.

(** X21: the log keeps the newest 500 entries and never reuses an id.
    After any sequence of [addLog] and [clearLogs] calls, the log holds
    the last 500 entries written since the last [clearLogs], oldest
    first; [logIdRef] counts every [addLog] call ever made, and the ids
    in the log are consecutive and end at [logIdRef], so they increase
    strictly and are at least 1. *)
Theorem log_keeps_newest (calls : list UseDevice.LogCall) :
  let st := UseDevice.logRun calls UseDevice.initial in
  let w := fst (UseDevice.written calls) in
  UseDevice.logs st = drop (length w - 500) w /\
  (length (UseDevice.logs st) <= 500)%nat /\
  UseDevice.logIdRef st =
    Z.of_nat (length (List.filter UseDevice.isAddLog calls)) /\
  (forall (i : nat) (e : LogEntry.t),
     UseDevice.logs st !! i = Some e ->
     LogEntry.id e =
       UseDevice.logIdRef st - Z.of_nat (length (UseDevice.logs st))
       + Z.of_nat i + 1 /\
     1 <= LogEntry.id e <= UseDevice.logIdRef st).
Proof.
  cbv zeta. destruct (logRun_written calls) as (Hl & Hid). cbv zeta in Hl, Hid.
  split; [exact Hl|]. split; [rewrite Hl; apply keep_last_length|].
  assert (Hcount : snd (UseDevice.written calls) =
            Z.of_nat (length (List.filter UseDevice.isAddLog calls)) /\
          (Z.of_nat (length (fst (UseDevice.written calls)))
           <= snd (UseDevice.written calls))).
  { clear. induction calls as [|c calls IH] using rev_ind.
    - cbn. lia.
    - rewrite written_snoc, List.filter_app, length_app.
      destruct IH as (IH1 & IH2).
      destruct c; cbn [fst snd List.filter UseDevice.isAddLog length];
        rewrite ?length_app;
        cbn [length]; lia. }
  destruct Hcount as (Hcount & Hbound).
  split; [rewrite Hid; exact Hcount|].
  intros i e Hi. rewrite Hl in Hi |- *. rewrite lookup_drop in Hi.
  pose proof (lookup_lt_Some _ _ _ Hi) as Hlt.
  rewrite (written_ids calls _ e Hi), Hid, length_drop. lia.
Qed.

(** * Handlers as closures *)

(** ** The engine above is the handler of the latest render *)

Lemma checkAutoStop_inert (sample : MonitorSample) (ranges : RepRanges)
    (now : Z) (s : WorkoutState) :
  checkAutoStopWith inertCallbacks sample ranges now s
  = checkAutoStop sample ranges now s.
Proof. reflexivity. Qed.

Lemma handleMonitorSample_latest (sample : MonitorSample) (now : Z)
    (s : WorkoutState) :
  handleMonitorSample sample now s
  = handleMonitorSampleWith inertCallbacks s sample now s.
Proof.
  unfold handleMonitorSample, handleMonitorSampleWith.
  hook_simpl.
  destruct (maxPos s <? Z.max (posA sample) (posB sample));
    destruct (isJustLiftMode s); hook_simpl; try reflexivity;
    change (checkAutoStopWith inertCallbacks) with checkAutoStop;
    match goal with
    | |- context [checkAutoStop ?a ?b ?c ?st] =>
        destruct (checkAutoStop a b c st) as [[[] s1] e1]
    end; reflexivity.
Qed.

Lemma completeWorkout_latest (now : Z) (s : WorkoutState) :
  completeWorkout now s = completeWorkoutOf s now s.
Proof.
  unfold completeWorkout, completeWorkoutOf.
  hook_simpl. destruct (currentWorkout s); reflexivity.
Qed.

Lemma trackTop_inert (c s : WorkoutState) (top : Z) (smp : MonitorSample) :
  trackTopWith inertCallbacks c top smp s = trackTop c top smp s.
Proof. reflexivity. Qed.

Lemma trackBottom_inert (c s : WorkoutState) (k now : Z)
    (smp : MonitorSample) :
  trackBottomWith inertCallbacks c k smp now s = trackBottom c k smp now s.
Proof.
  unfold trackBottomWith, trackBottom, countWorkingRepWith, countWorkingRep,
    countWarmupRep, recordBottomPosition, updateRepRanges, inertCallbacks.
  hook_cases; reflexivity.
Qed.

Lemma handleRepNotification_latest (data : list byte) (now : Z)
    (s : WorkoutState) :
  handleRepNotification data now s
  = handleRepNotificationWith inertCallbacks s data now s.
Proof.
  unfold handleRepNotification, handleRepNotificationWith.
  destruct (length data <? 6)%nat; [reflexivity|].
  destruct (readU16Values data) as [vs|e]; [|reflexivity].
  destruct (length vs <? 3)%nat; [reflexivity|].
  f_equal.
  unfold processRepCounters, processRepCountersWith.
  hook_simpl.
  destruct (currentSampleRef s) as [smp|]; [|reflexivity].
  destruct (currentWorkout s); [|reflexivity].
  change (trackTopWith inertCallbacks) with trackTop.
  destruct (trackTop s (nth 0 vs 0) smp s) as [[[] s1] e1].
  hook_simpl.
  rewrite (trackBottom_inert s s1 (nth 2 vs 0) now smp).
  destruct (trackBottom s (nth 2 vs 0) smp now s1) as [[[] s2] e2].
  reflexivity.
Qed.

(** ** The rep handler of a render, step by step *)

Lemma withTopRecorded_fields (c s : WorkoutState) (top : Z)
    (smp : MonitorSample) :
  let s' := withTopRecorded c s top smp in
  lastTopCounter s' = Some top /\
  topPositionsA s' =
    pushWindow (getWindowSize c) (topPositionsA s) (posA smp) /\
  topPositionsB s' =
    pushWindow (getWindowSize c) (topPositionsB s) (posB smp) /\
  repRanges s' = derivedRanges s' /\
  bottomPositionsA s' = bottomPositionsA s /\
  bottomPositionsB s' = bottomPositionsB s /\
  lastRepCounter s' = lastRepCounter s /\
  warmupReps s' = warmupReps s /\ workingReps s' = workingReps s /\
  warmupTarget s' = warmupTarget s /\ targetReps s' = targetReps s /\
  currentWorkout s' = currentWorkout s /\
  workoutHistory s' = workoutHistory s /\
  isJustLiftMode s' = isJustLiftMode s /\ stopAtTop s' = stopAtTop s /\
  autoStopProgress s' = autoStopProgress s /\
  autoStopStartTime s' = autoStopStartTime s /\
  maxPos s' = maxPos s /\ liveStats s' = liveStats s /\
  currentSampleRef s' = currentSampleRef s.
Proof.
  destruct s as [cw wu wk wt tr wh jl st ap mp ls rr ta ba tb bb lt lr ast cs].
  unfold withTopRecorded, recordTopPosition, updateRepRanges, derivedRanges.
  hook_eval. repeat split; reflexivity.
Qed.

Lemma withBottomRecorded_fields (c s : WorkoutState) (k : Z)
    (smp : MonitorSample) :
  let s' := withBottomRecorded c s k smp in
  lastRepCounter s' = Some k /\
  bottomPositionsA s' =
    pushWindow (getWindowSize c) (bottomPositionsA s) (posA smp) /\
  bottomPositionsB s' =
    pushWindow (getWindowSize c) (bottomPositionsB s) (posB smp) /\
  repRanges s' = derivedRanges s' /\
  topPositionsA s' = topPositionsA s /\
  topPositionsB s' = topPositionsB s /\
  lastTopCounter s' = lastTopCounter s /\
  warmupReps s' = warmupReps s /\ workingReps s' = workingReps s /\
  warmupTarget s' = warmupTarget s /\ targetReps s' = targetReps s /\
  currentWorkout s' = currentWorkout s /\
  workoutHistory s' = workoutHistory s /\
  isJustLiftMode s' = isJustLiftMode s /\ stopAtTop s' = stopAtTop s /\
  autoStopProgress s' = autoStopProgress s /\
  autoStopStartTime s' = autoStopStartTime s /\
  maxPos s' = maxPos s /\ liveStats s' = liveStats s /\
  currentSampleRef s' = currentSampleRef s.
Proof.
  destruct s as [cw wu wk wt tr wh jl st ap mp ls rr ta ba tb bb lt lr ast cs].
  unfold withBottomRecorded, recordBottomPosition, updateRepRanges,
    derivedRanges.
  hook_eval. repeat split; reflexivity.
Qed.

(** The top step, case by case.  At the top of the final rep the two
    callbacks run on the state with the event recorded. *)
Lemma trackTopWith_cases (cb : Callbacks) (c s : WorkoutState) (top : Z)
    (smp : MonitorSample) :
  trackTopWith cb c top smp s =
    match lastTopCounter s with
    | None => (tt, setLastTopCounter (Some top) s, [])
    | Some prev =>
        if 0 <? counterDelta top prev then
          let event :=
            AddLog (MsgTopDetected prev top (posA smp) (posB smp)) success in
          if finalTop c then
            let '(_, s1, e1) := onAutoStop cb (withTopRecorded c s top smp) in
            let '(_, s2, e2) := onWorkoutComplete cb s1 in
            (tt, s2, event :: AddLog MsgFinalRepTop success :: e1 ++ e2)
          else (tt, withTopRecorded c s top smp, [event])
        else (tt, s, [])
    end.
Proof.
  destruct s as [cw wu wk wt tr wh jl st ap mp ls rr ta ba tb bb lt lr ast cs].
  destruct c as [cw' wu' wk' wt' tr' wh' jl' st' ap' mp' ls' rr' ta' ba' tb'
                   bb' lt' lr' ast' cs'].
  unfold trackTopWith, withTopRecorded, finalTop, recordTopPosition,
    updateRepRanges.
  hook_eval.
  destruct lt as [prev|]; [|reflexivity].
  destruct (0 <? counterDelta top prev); [|reflexivity].
  hook_eval.
  destruct (st' && negb jl' && (0 <? tr') && (wk' =? tr' - 1));
    [|reflexivity].
  hook_eval.
  match goal with
  | |- context [onAutoStop cb ?st] =>
      destruct (onAutoStop cb st) as [[[] s1] e1]
  end.
  destruct (onWorkoutComplete cb s1) as [[[] s2] e2].
  reflexivity.
Qed.

(** The counted state of a warmup rep: the new count, and the warmup end
    stamped when the count reaches the target. *)
Lemma trackBottomWith_cases (cb : Callbacks) (c s : WorkoutState)
    (k now : Z) (smp : MonitorSample) :
  trackBottomWith cb c k smp now s =
    match lastRepCounter s with
    | None => (tt, setLastRepCounter (Some k) s, [])
    | Some prev =>
        if 0 <? counterDelta k prev then
          let event :=
            AddLog (MsgBottomDetected prev k (posA smp) (posB smp)) success in
          let mid := withBottomRecorded c s k smp in
          if warmupReps c + workingReps c + 1 <=? warmupTarget c then
            let newCount := warmupReps s + 1 in
            (tt,
             setWarmupReps newCount
               (if newCount =? warmupTarget c then stampWarmupEnd now mid
                else mid),
             [event; AddLog (MsgWarmupRep newCount (warmupTarget c)) success])
          else
            let newCount := workingReps s + 1 in
            let working :=
              AddLog (MsgWorkingRep newCount
                        (if 0 <? targetReps c then targetReps c else 0))
                success in
            if finalRep c newCount then
              let '(_, s2, e2) :=
                onWorkoutComplete cb (setWorkingReps newCount mid) in
              (tt, s2,
               event :: working :: AddLog MsgTargetReached success :: e2)
            else (tt, setWorkingReps newCount mid, [event; working])
        else (tt, setLastRepCounter (Some k) s, [])
    end.
Proof.
  destruct s as [cw wu wk wt tr wh jl st ap mp ls rr ta ba tb bb lt lr ast cs].
  destruct c as [cw' wu' wk' wt' tr' wh' jl' st' ap' mp' ls' rr' ta' ba' tb'
                   bb' lt' lr' ast' cs'].
  unfold trackBottomWith, withBottomRecorded, finalRep, countWarmupRep,
    countWorkingRepWith, recordBottomPosition, updateRepRanges.
  hook_eval.
  destruct lr as [prev|]; [|reflexivity].
  destruct (0 <? counterDelta k prev); [|reflexivity].
  hook_eval.
  destruct (wu' + wk' + 1 <=? wt').
  - hook_eval.
    destruct (wu + 1 =? wt'); hook_eval; reflexivity.
  - hook_eval.
    destruct (negb st' && negb jl' && (0 <? tr') && (tr' <=? wk + 1));
      [|reflexivity].
    hook_eval.
    match goal with
    | |- context [onWorkoutComplete cb ?st] =>
        destruct (onWorkoutComplete cb st) as [[[] s2] e2]
    end.
    reflexivity.
Qed.

(** The handler is its log line, the top step and the bottom step. *)
Lemma handleRepNotificationWith_steps (cb : Callbacks) (c s : WorkoutState)
    (data : list byte) (now : Z) (vs : list Z) (smp : MonitorSample)
    (w : CurrentWorkout.t) (s1 s2 : WorkoutState) (e1 e2 : list Effect) :
  (6 <= length data)%nat ->
  readU16Values data = Normal vs ->
  currentSampleRef s = Some smp ->
  currentWorkout c = Some w ->
  trackTopWith cb c (nth 0 vs 0) smp s = (tt, s1, e1) ->
  trackBottomWith cb c (nth 2 vs 0) smp now s1 = (tt, s2, e2) ->
  handleRepNotificationWith cb c data now s =
    Normal (s2,
            AddLog (MsgRepNotification (nth 0 vs 0) (nth 2 vs 0) (Some smp))
              info :: e1 ++ e2).
Proof.
  intros Hlen Hvs Hsmp Hw Htop Hbot.
  unfold handleRepNotificationWith.
  pose proof (readU16Values_length data vs Hvs) as Hl.
  replace (length data <? 6)%nat with false
    by (symmetry; apply Nat.ltb_ge; lia).
  rewrite Hvs.
  replace (length vs <? 3)%nat with false
    by (symmetry; apply Nat.ltb_ge; lia).
  unfold processRepCountersWith. hook_simpl. rewrite Hsmp, Hw.
  hook_simpl. rewrite Htop. hook_simpl. rewrite Hbot. reflexivity.
Qed.

(** ** Counter deltas *)

(** C2: in the handler of any render with a workout, called with a
    payload that decodes while a sample is there, each counter is taken
    against the value last stored for it.  When none is stored the value
    is stored and nothing else happens; otherwise the delta is
    [c - prev] when [c >= prev] and [0xFFFF - prev + c + 1] when
    [c < prev], a positive delta is a TOP (resp. BOTTOM) event, logged
    first, and a zero delta is no event.  The top counter is taken
    first, the complete counter against what is stored when the top step
    is over (a callback run at the top of the final rep may have cleared
    it).  Outside the notifications that end the workout the event stores
    the new value and pushes the positions onto the windows. *)
Theorem counter_delta_events (cb : Callbacks) (c s : WorkoutState)
    (data : list byte) (now : Z) (vs : list Z) (smp : MonitorSample)
    (w : CurrentWorkout.t) :
  (6 <= length data)%nat ->
  readU16Values data = Normal vs ->
  currentSampleRef s = Some smp ->
  currentWorkout c = Some w ->
  let top := nth 0 vs 0 in
  let complete := nth 2 vs 0 in
  exists s1 e1 s2 e2,
    trackTopWith cb c top smp s = (tt, s1, e1) /\
    trackBottomWith cb c complete smp now s1 = (tt, s2, e2) /\
    handleRepNotificationWith cb c data now s =
      Normal (s2,
              AddLog (MsgRepNotification top complete (Some smp)) info
              :: e1 ++ e2) /\
    match lastTopCounter s with
    | None => s1 = setLastTopCounter (Some top) s /\ e1 = []
    | Some prev =>
        let delta :=
          if prev <=? top then top - prev else 0xFFFF - prev + top + 1 in
        if 0 <? delta
        then head e1 =
               Some (AddLog (MsgTopDetected prev top (posA smp) (posB smp))
                       success) /\
             (finalTop c = false ->
              e1 = [AddLog (MsgTopDetected prev top (posA smp) (posB smp))
                      success] /\
              lastTopCounter s1 = Some top /\
              topPositionsA s1 =
                pushWindow (getWindowSize c) (topPositionsA s) (posA smp) /\
              topPositionsB s1 =
                pushWindow (getWindowSize c) (topPositionsB s) (posB smp) /\
              lastRepCounter s1 = lastRepCounter s)
        else s1 = s /\ e1 = []
    end /\
    match lastRepCounter s1 with
    | None => s2 = setLastRepCounter (Some complete) s1 /\ e2 = []
    | Some prev =>
        let delta :=
          if prev <=? complete then complete - prev
          else 0xFFFF - prev + complete + 1 in
        if 0 <? delta
        then head e2 =
               Some (AddLog (MsgBottomDetected prev complete
                               (posA smp) (posB smp)) success) /\
             (completesAtBottom c s1 complete = false ->
              lastRepCounter s2 = Some complete /\
              bottomPositionsA s2 =
                pushWindow (getWindowSize c) (bottomPositionsA s1)
                  (posA smp) /\
              bottomPositionsB s2 =
                pushWindow (getWindowSize c) (bottomPositionsB s1)
                  (posB smp))
        else s2 = setLastRepCounter (Some complete) s1 /\ e2 = []
    end.
Proof.
  intros Hlen Hvs Hsmp Hw top complete.
  destruct (trackTopWith cb c top smp s) as [[[] s1] e1] eqn:Htop.
  destruct (trackBottomWith cb c complete smp now s1) as [[[] s2] e2] eqn:Hbot.
  exists s1, e1, s2, e2.
  split; [reflexivity|]. split; [exact Hbot|].
  split; [exact (handleRepNotificationWith_steps cb c s data now vs smp w
                   s1 s2 e1 e2 Hlen Hvs Hsmp Hw Htop Hbot)|].
  rewrite trackTopWith_cases in Htop.
  rewrite trackBottomWith_cases in Hbot.
  unfold counterDelta in Htop, Hbot. split.
  - destruct (lastTopCounter s) as [prev|].
    + cbv zeta in Htop |- *.
      destruct (0 <? (if prev <=? top then top - prev
                      else 65535 - prev + top + 1)).
      * destruct (finalTop c).
        -- destruct (onAutoStop cb (withTopRecorded c s top smp))
             as [[[] a] ea].
           destruct (onWorkoutComplete cb a) as [[[] b] eb].
           injection Htop as <- <-. split; [reflexivity|].
           intros Hf. discriminate Hf.
        -- injection Htop as <- <-. split; [reflexivity|]. intros _.
           pose proof (withTopRecorded_fields c s top smp)
             as (H1 & H2 & H3 & _ & _ & _ & H7 & _).
           repeat split; assumption.
      * injection Htop as <- <-. split; reflexivity.
    + injection Htop as <- <-. split; reflexivity.
  - destruct (lastRepCounter s1) as [prev|] eqn:Hprev.
    + cbv zeta in Hbot |- *.
      unfold completesAtBottom, bottomFires, counterDelta. rewrite Hprev.
      destruct (0 <? (if prev <=? complete then complete - prev
                      else 65535 - prev + complete + 1)).
      * pose proof (withBottomRecorded_fields c s1 complete smp)
          as (H1 & H2 & H3 & _).
        cbv zeta in H1, H2, H3.
        destruct (warmupReps c + workingReps c + 1 <=? warmupTarget c).
        -- injection Hbot as <- <-. split; [reflexivity|]. intros _.
           destruct (warmupReps s1 + 1 =? warmupTarget c);
             unfold stampWarmupEnd; hook_simpl; repeat split; assumption.
        -- cbn [negb andb].
           destruct (finalRep c (workingReps s1 + 1)).
           ++ destruct (onWorkoutComplete cb _) as [[[] b] eb].
              injection Hbot as <- <-. split; [reflexivity|].
              intros Hf. discriminate Hf.
           ++ injection Hbot as <- <-. split; [reflexivity|]. intros _.
              hook_simpl. repeat split; assumption.
      * injection Hbot as <- <-. split; reflexivity.
    + injection Hbot as <- <-. split; reflexivity.
Qed.

(** The spec's wrap-around example: last top counter 65530, new top
    counter 4, a TOP event; the complete counter has not moved. *)
Lemma counter_delta_events_witness :
  lastTopCounter wrappingState = Some 65530 /\
  exists s1 e1 s2 e2,
    handleRepNotificationWith (appCallbacks wrappingState 3) wrappingState
      (repPayload 4 7) 3 wrappingState
    = Normal (s2,
              AddLog (MsgRepNotification 4 7 (Some (scenarioSample 500 500)))
                info :: e1 ++ e2) /\
    head e1 = Some (AddLog (MsgTopDetected 65530 4 500 500) success) /\
    lastTopCounter s1 = Some 4 /\
    e2 = [] /\ lastRepCounter s2 = Some 7.
Proof.
  split; [reflexivity|].
  destruct (counter_delta_events (appCallbacks wrappingState 3)
              wrappingState wrappingState (repPayload 4 7) 3 [4; 0; 7]
              (scenarioSample 500 500)
              (CurrentWorkout.mk "Old School" 10%Q 10 0 None None))
    as (s1 & e1 & s2 & e2 & _ & _ & Hr & Htop & Hbot);
    [simpl; lia | reflexivity | reflexivity | reflexivity |].
  exists s1, e1, s2, e2. split; [exact Hr|].
  change (lastTopCounter wrappingState) with (Some 65530) in Htop.
  cbn [nth] in Htop, Hbot.
  change (65530 <=? 4) with false in Htop.
  change (0 <? 65535 - 65530 + 4 + 1) with true in Htop.
  cbv beta iota zeta in Htop.
  destruct Htop as (Hhead & Hrest).
  destruct (Hrest eq_refl) as (_ & Hlast & _ & _ & Hrep).
  split; [exact Hhead|]. split; [exact Hlast|].
  rewrite Hrep in Hbot.
  change (lastRepCounter wrappingState) with (Some 7) in Hbot.
  change (7 <=? 7) with true in Hbot.
  change (0 <? 7 - 7) with false in Hbot.
  cbv beta iota zeta in Hbot.
  destruct Hbot as (-> & He2). split; [exact He2|]. reflexivity.
Defined.

(** ** Counting reps *)





(** ** What the handlers leave alone *)

Lemma checkAutoStop_app (c : WorkoutState) (now : Z) :
  checkAutoStopWith (appCallbacks c now) = checkAutoStop.
Proof. reflexivity. Qed.

(** A monitor sample, through the handler of any render: the sample is
    stored and mirrored, the scale moves when the sample is above the
    render's scale, and only the auto-stop timer and progress may change
    besides. *)
Lemma handleMonitorSampleWith_frame (c s : WorkoutState)
    (sample : MonitorSample) (now : Z) :
  let r := handleMonitorSampleWith (appCallbacks c now) c sample now s in
  let s' := stateOf r in
  currentSampleRef s' = Some sample /\
  liveStats s' =
    LiveStats.mk (posA sample) (posB sample) (loadA sample) (loadB sample)
      (ticks sample) /\
  maxPos s' =
    (if maxPos c <? Z.max (posA sample) (posB sample)
     then Z.max (posA sample) (posB sample) + 100 else maxPos s) /\
  currentWorkout s' = currentWorkout s /\
  warmupReps s' = warmupReps s /\ workingReps s' = workingReps s /\
  warmupTarget s' = warmupTarget s /\ targetReps s' = targetReps s /\
  workoutHistory s' = workoutHistory s /\
  isJustLiftMode s' = isJustLiftMode s /\ stopAtTop s' = stopAtTop s /\
  repRanges s' = repRanges s /\
  topPositionsA s' = topPositionsA s /\
  bottomPositionsA s' = bottomPositionsA s /\
  topPositionsB s' = topPositionsB s /\
  bottomPositionsB s' = bottomPositionsB s /\
  lastTopCounter s' = lastTopCounter s /\
  lastRepCounter s' = lastRepCounter s /\
  (isJustLiftMode c = false ->
   autoStopProgress s' = autoStopProgress s /\
   autoStopStartTime s' = autoStopStartTime s /\
   effectsOf r = []).
Proof.
  unfold handleMonitorSampleWith. rewrite checkAutoStop_app.
  unfold checkAutoStop.
  hook_cases. all: hook_finish.
Qed.

(** [resetWorkout], and [completeWorkout] as created by any render. *)
Lemma resetWorkout_fields (s : WorkoutState) :
  let r := resetWorkout s in
  let s' := stateOf r in
  effectsOf r = [] /\
  currentWorkout s' = None /\
  warmupReps s' = 0 /\ workingReps s' = 0 /\ targetReps s' = 0 /\
  isJustLiftMode s' = false /\ autoStopProgress s' = 0%Q /\
  topPositionsA s' = [] /\ bottomPositionsA s' = [] /\
  topPositionsB s' = [] /\ bottomPositionsB s' = [] /\
  lastTopCounter s' = None /\ lastRepCounter s' = None /\
  autoStopStartTime s' = None /\ repRanges s' = emptyRanges /\
  warmupTarget s' = warmupTarget s /\ stopAtTop s' = stopAtTop s /\
  workoutHistory s' = workoutHistory s /\ maxPos s' = maxPos s /\
  liveStats s' = liveStats s /\ currentSampleRef s' = currentSampleRef s.
Proof.
  destruct s as [cw wu wk wt tr wh jl st ap mp ls rr ta ba tb bb lt lr ast cs].
  hook_eval. repeat split; reflexivity.
Qed.

Lemma completeWorkoutOf_fields (c s : WorkoutState) (now : Z) :
  let r := completeWorkoutOf c now s in
  let s' := stateOf r in
  currentWorkout s' = None /\
  warmupReps s' = 0 /\ workingReps s' = 0 /\ targetReps s' = 0 /\
  isJustLiftMode s' = false /\ autoStopProgress s' = 0%Q /\
  topPositionsA s' = [] /\ bottomPositionsA s' = [] /\
  topPositionsB s' = [] /\ bottomPositionsB s' = [] /\
  lastTopCounter s' = None /\ lastRepCounter s' = None /\
  autoStopStartTime s' = None /\ repRanges s' = emptyRanges /\
  warmupTarget s' = warmupTarget s /\ stopAtTop s' = stopAtTop s /\
  maxPos s' = maxPos s /\
  liveStats s' = liveStats s /\ currentSampleRef s' = currentSampleRef s /\
  workoutHistory s' =
    match currentWorkout c with
    | Some w =>
        Workout.mk (CurrentWorkout.mode w) (CurrentWorkout.weightKg w)
          (workingReps c) now (CurrentWorkout.startTime w)
          (CurrentWorkout.warmupEndTime w) now :: workoutHistory s
    | None => workoutHistory s
    end /\
  effectsOf r =
    match currentWorkout c with
    | Some _ => [AddLog MsgWorkoutSaved success]
    | None => []
    end.
Proof.
  destruct s as [cw wu wk wt tr wh jl st ap mp ls rr ta ba tb bb lt lr ast cs].
  unfold completeWorkoutOf.
  destruct (currentWorkout c); hook_eval; repeat split; reflexivity.
Qed.

(** The callback [App] passes as [onWorkoutComplete]. *)
Lemma appCallbacks_complete (c s : WorkoutState) (now : Z) :
  onWorkoutComplete (appCallbacks c now) s =
    (tt, stateOf (completeWorkoutOf c now s),
     OnWorkoutComplete :: effectsOf (completeWorkoutOf c now s)).
Proof.
  cbn [onWorkoutComplete appCallbacks]. hook_simpl.
  destruct (completeWorkoutOf c now s) as [[[] s1] e1]. reflexivity.
Qed.

Lemma appCallbacks_autoStop (c s : WorkoutState) (now : Z) :
  onAutoStop (appCallbacks c now) s = (tt, s, [OnAutoStop]).
Proof. reflexivity. Qed.

(** ** Invariance through the rep handler *)

Section Preservation.
Variable P : WorkoutState -> Prop.
Variable cb : Callbacks.
Variable c : WorkoutState.

Hypothesis P_autoStop : forall x, P x -> P (stateOf (onAutoStop cb x)).
Hypothesis P_complete :
  forall x, P x -> P (stateOf (onWorkoutComplete cb x)).
Hypothesis P_top_store :
  forall x v, P x -> P (setLastTopCounter (Some v) x).
Hypothesis P_rep_store :
  forall x v, P x -> P (setLastRepCounter (Some v) x).
Hypothesis P_top_recorded :
  forall x v smp, P x -> P (withTopRecorded c x v smp).
Hypothesis P_bottom_recorded :
  forall x v smp, P x -> P (withBottomRecorded c x v smp).
Hypothesis P_warmup :
  forall x, P x -> P (setWarmupReps (warmupReps x + 1) x).
Hypothesis P_working :
  forall x, P x -> P (setWorkingReps (workingReps x + 1) x).
Hypothesis P_stamp : forall x now, P x -> P (stampWarmupEnd now x).

Lemma trackTopWith_preserves (top : Z) (smp : MonitorSample)
    (s : WorkoutState) :
  P s -> P (stateOf (trackTopWith cb c top smp s)).
Proof.
  intros Hs. rewrite trackTopWith_cases.
  destruct (lastTopCounter s) as [prev|]; [|apply P_top_store; exact Hs].
  destruct (0 <? counterDelta top prev); [|exact Hs].
  cbv zeta. destruct (finalTop c); [|apply P_top_recorded; exact Hs].
  pose proof (P_autoStop _ (P_top_recorded s top smp Hs)) as Ha.
  destruct (onAutoStop cb (withTopRecorded c s top smp)) as [[[] a] ea].
  pose proof (P_complete _ Ha) as Hb. unfold stateOf in Hb. cbn in Hb.
  destruct (onWorkoutComplete cb a) as [[[] b] eb]. exact Hb.
Qed.

Lemma trackBottomWith_preserves (k now : Z) (smp : MonitorSample)
    (s : WorkoutState) :
  P s -> P (stateOf (trackBottomWith cb c k smp now s)).
Proof.
  intros Hs. rewrite trackBottomWith_cases.
  destruct (lastRepCounter s) as [prev|]; [|apply P_rep_store; exact Hs].
  destruct (0 <? counterDelta k prev); [|apply P_rep_store; exact Hs].
  cbv zeta.
  pose proof (P_bottom_recorded s k smp Hs) as Hmid.
  pose proof (withBottomRecorded_fields c s k smp)
    as (_ & _ & _ & _ & _ & _ & _ & Hwu & Hwk & _).
  cbv zeta in Hwu, Hwk. rewrite <- Hwu, <- Hwk.
  destruct (warmupReps c + workingReps c + 1 <=? warmupTarget c).
  - destruct (warmupReps (withBottomRecorded c s k smp) + 1
              =? warmupTarget c).
    + pose proof (P_warmup _ (P_stamp _ now Hmid)) as H.
      unfold stampWarmupEnd in H |- *. exact H.
    + apply P_warmup. exact Hmid.
  - pose proof (P_working _ Hmid) as Hcounted.
    destruct (finalRep c (workingReps (withBottomRecorded c s k smp) + 1));
      [|exact Hcounted].
    pose proof (P_complete _ Hcounted) as Hb.
    unfold stateOf in Hb. cbn in Hb.
    destruct (onWorkoutComplete cb _) as [[[] b] eb]. exact Hb.
Qed.

Lemma handleRepNotificationWith_preserves (data : list byte) (now : Z)
    (s s' : WorkoutState) (effs : list Effect) :
  P s ->
  handleRepNotificationWith cb c data now s = Normal (s', effs) ->
  P s'.
Proof.
  intros Hs. unfold handleRepNotificationWith.
  destruct (length data <? 6)%nat; [intros [= <- _]; exact Hs|].
  destruct (readU16Values data) as [vs|e]; [|discriminate].
  destruct (length vs <? 3)%nat; [intros [= <- _]; exact Hs|].
  intros [= <- _].
  unfold processRepCountersWith. hook_simpl.
  destruct (currentSampleRef s) as [smp|]; [|exact Hs].
  destruct (currentWorkout c); [|exact Hs].
  pose proof (trackTopWith_preserves (nth 0 vs 0) smp s Hs) as H1.
  destruct (trackTopWith cb c (nth 0 vs 0) smp s) as [[[] s1] e1].
  cbn [stateOf fst snd] in H1. hook_simpl.
  pose proof (trackBottomWith_preserves (nth 2 vs 0) now smp s1 H1) as H2.
  destruct (trackBottomWith cb c (nth 2 vs 0) smp now s1) as [[[] s2] e2].
  exact H2.
Qed.
End Preservation.

(** ** Dropped notifications *)

Lemma handleRepNotificationWith_short (cb : Callbacks) (c s : WorkoutState)
    (data : list byte) (now : Z) :
  (length data < 6)%nat ->
  handleRepNotificationWith cb c data now s = Normal (s, []).
Proof.
  intros Hshort. unfold handleRepNotificationWith.
  apply Nat.ltb_lt in Hshort. rewrite Hshort. reflexivity.
Qed.

Lemma handleRepNotificationWith_decoded (cb : Callbacks) (c s : WorkoutState)
    (data : list byte) (now : Z) (vs : list Z) :
  (6 <= length data)%nat ->
  readU16Values data = Normal vs ->
  handleRepNotificationWith cb c data now s =
    let r := processRepCountersWith cb c (nth 0 vs 0) (nth 2 vs 0) now s in
    Normal (stateOf r, effectsOf r).
Proof.
  intros Hlen Hvs. unfold handleRepNotificationWith.
  pose proof (readU16Values_length data vs Hvs) as Hl.
  replace (length data <? 6)%nat with false
    by (symmetry; apply Nat.ltb_ge; lia).
  rewrite Hvs.
  replace (length vs <? 3)%nat with false
    by (symmetry; apply Nat.ltb_ge; lia).
  reflexivity.
Qed.

Lemma handleRepNotificationWith_dropped (cb : Callbacks) (c s : WorkoutState)
    (data : list byte) (now : Z) (vs : list Z) :
  (6 <= length data)%nat ->
  readU16Values data = Normal vs ->
  currentSampleRef s = None \/ currentWorkout c = None ->
  handleRepNotificationWith cb c data now s =
    Normal (s, [AddLog (MsgRepNotification (nth 0 vs 0) (nth 2 vs 0)
                          (currentSampleRef s)) info]).
Proof.
  intros Hlen Hvs Hdrop.
  rewrite (handleRepNotificationWith_decoded cb c s data now vs Hlen Hvs).
  unfold processRepCountersWith. hook_simpl.
  destruct Hdrop as [Hn | Hn]; rewrite Hn.
  - reflexivity.
  - destruct (currentSampleRef s); reflexivity.
Qed.


Lemma runOf_cons (c : WorkoutState) (call : Call)
    (rest : list (WorkoutState * Call)) (s : WorkoutState) :
  fst (runOf ((c, call) :: rest) s) = fst (runOf rest (fst (callOf c call s))).
Proof.
  cbn [runOf]. destruct (callOf c call s) as [s1 e1]. cbn [fst].
  destruct (runOf rest s1) as [s2 e2]. reflexivity.
Qed.









(** ** What holds whatever handlers are called *)

Lemma programInv_fields (s s' : WorkoutState) :
  programInv s ->
  warmupTarget s' = warmupTarget s ->
  0 <= warmupReps s' -> 0 <= workingReps s' ->
  (length (topPositionsA s') <= WINDOW_SIZE_WORKING)%nat ->
  (length (bottomPositionsA s') <= WINDOW_SIZE_WORKING)%nat ->
  length (topPositionsB s') = length (topPositionsA s') ->
  length (bottomPositionsB s') = length (bottomPositionsA s') ->
  repRanges s' = derivedRanges s' ->
  programInv s'.
Proof.
  intros (Hwt & _) Hwt'. intros. unfold programInv.
  rewrite Hwt', Hwt. repeat split; assumption.
Qed.

Lemma pushWindow_bound (c : WorkoutState) (l : list Z) (x : Z) :
  (length l <= WINDOW_SIZE_WORKING)%nat ->
  (length (pushWindow (getWindowSize c) l x) <= WINDOW_SIZE_WORKING)%nat.
Proof.
  unfold WINDOW_SIZE_WORKING. intros Hl. rewrite pushWindow_length.
  destruct (getWindowSize_values c) as [-> | ->];
    match goal with
    | |- context [if ?b then _ else _] => destruct b eqn:Hb
    end;
    try lia; apply Nat.ltb_ge in Hb; lia.
Qed.

Lemma pushWindow_same_length (w : nat) (l l' : list Z) (x x' : Z) :
  length l' = length l ->
  length (pushWindow w l' x') = length (pushWindow w l x).
Proof. intros Hl. rewrite !pushWindow_length, Hl. reflexivity. Qed.

Lemma programInv_initial : programInv initialState.
Proof.
  unfold programInv, WINDOW_SIZE_WORKING. cbn.
  repeat split; try reflexivity; lia.
Qed.

Lemma programInv_cleared (s s' : WorkoutState) :
  programInv s ->
  warmupTarget s' = warmupTarget s ->
  warmupReps s' = 0 -> workingReps s' = 0 ->
  topPositionsA s' = [] -> bottomPositionsA s' = [] ->
  topPositionsB s' = [] -> bottomPositionsB s' = [] ->
  repRanges s' = emptyRanges ->
  programInv s'.
Proof.
  intros Hinv Hwt Hwu Hwk Hta Hba Htb Hbb Hrr.
  apply (programInv_fields s s' Hinv Hwt).
  - rewrite Hwu. lia.
  - rewrite Hwk. lia.
  - rewrite Hta. cbn. lia.
  - rewrite Hba. cbn. lia.
  - rewrite Hta, Htb. reflexivity.
  - rewrite Hba, Hbb. reflexivity.
  - unfold derivedRanges. rewrite Hrr, Hta, Hba, Htb, Hbb. reflexivity.
Qed.

Lemma programInv_complete (c s : WorkoutState) (now : Z) :
  programInv s -> programInv (stateOf (completeWorkoutOf c now s)).
Proof.
  intros Hinv.
  pose proof (completeWorkoutOf_fields c s now) as H. cbv zeta in H.
  destruct H as (_ & Hwu & Hwk & _ & _ & _ & Hta & Hba & Htb & Hbb & _ & _
                 & _ & Hrr & Hwt & _).
  apply (programInv_cleared s); assumption.
Qed.

Lemma programInv_top_recorded (c s : WorkoutState) (v : Z)
    (smp : MonitorSample) :
  programInv s -> programInv (withTopRecorded c s v smp).
Proof.
  intros Hinv.
  pose proof Hinv as (_ & Hwu & Hwk & Hta & Hba & Htb & Hbb & _).
  pose proof (withTopRecorded_fields c s v smp) as H. cbv zeta in H.
  destruct H as (_ & HA & HB & Hrr & HbA & HbB & _ & Hwu' & Hwk' & Hwt' & _).
  apply (programInv_fields s _ Hinv Hwt').
  - rewrite Hwu'. exact Hwu.
  - rewrite Hwk'. exact Hwk.
  - rewrite HA. apply pushWindow_bound. exact Hta.
  - rewrite HbA. exact Hba.
  - rewrite HA, HB. apply pushWindow_same_length. exact Htb.
  - rewrite HbA, HbB. exact Hbb.
  - exact Hrr.
Qed.

Lemma programInv_bottom_recorded (c s : WorkoutState) (v : Z)
    (smp : MonitorSample) :
  programInv s -> programInv (withBottomRecorded c s v smp).
Proof.
  intros Hinv.
  pose proof Hinv as (_ & Hwu & Hwk & Hta & Hba & Htb & Hbb & _).
  pose proof (withBottomRecorded_fields c s v smp) as H. cbv zeta in H.
  destruct H as (_ & HA & HB & Hrr & HtA & HtB & _ & Hwu' & Hwk' & Hwt' & _).
  apply (programInv_fields s _ Hinv Hwt').
  - rewrite Hwu'. exact Hwu.
  - rewrite Hwk'. exact Hwk.
  - rewrite HtA. exact Hta.
  - rewrite HA. apply pushWindow_bound. exact Hba.
  - rewrite HtA, HtB. exact Htb.
  - rewrite HA, HB. apply pushWindow_same_length. exact Hbb.
  - exact Hrr.
Qed.

Lemma programInv_callOf (c : WorkoutState) (call : Call) (s : WorkoutState) :
  programInv s -> programInv (fst (callOf c call s)).
Proof.
  intros Hinv.
  destruct call as [m wkg r jl now|sample now|data now|now| |value];
    cbn [callOf fst].
  - apply (programInv_cleared s); [exact Hinv | reflexivity ..].
  - pose proof (handleMonitorSampleWith_frame c s sample now) as H.
    cbv zeta in H.
    destruct H as (_ & _ & _ & _ & Hwu & Hwk & Hwt & _ & _ & _ & _ & Hrr
                   & Hta & Hba & Htb & Hbb & _).
    pose proof Hinv as (_ & Iwu & Iwk & Ita & Iba & Itb & Ibb & Irr).
    apply (programInv_fields s _ Hinv Hwt).
    + rewrite Hwu. exact Iwu.
    + rewrite Hwk. exact Iwk.
    + rewrite Hta. exact Ita.
    + rewrite Hba. exact Iba.
    + rewrite Hta, Htb. exact Itb.
    + rewrite Hba, Hbb. exact Ibb.
    + unfold derivedRanges. rewrite Hrr, Hta, Hba, Htb, Hbb. exact Irr.
  - destruct (handleRepNotificationWith (appCallbacks c now) c data now s)
      as [[s' effs]|e] eqn:Hr; [|exact Hinv].
    cbn [fst].
    apply (handleRepNotificationWith_preserves programInv
             (appCallbacks c now) c)
      with (data := data) (now := now) (s := s) (effs := effs);
      try assumption.
    + intros x Hx. exact Hx.
    + intros x Hx. rewrite appCallbacks_complete. cbn [stateOf fst snd].
      apply programInv_complete. exact Hx.
    + intros x v Hx. exact Hx.
    + intros x v Hx. exact Hx.
    + intros x v smp Hx. apply programInv_top_recorded. exact Hx.
    + intros x v smp Hx. apply programInv_bottom_recorded. exact Hx.
    + intros x Hx. pose proof Hx as (Hwt & Hwu & Hrest).
      split; [exact Hwt|]. split; [cbn; lia | exact Hrest].
    + intros x Hx. pose proof Hx as (Hwt & Hwu & Hwk & Hrest).
      split; [exact Hwt|]. split; [exact Hwu|]. split; [cbn; lia|].
      exact Hrest.
    + intros x t Hx. exact Hx.
  - apply programInv_complete. exact Hinv.
  - apply (programInv_cleared s); [exact Hinv | reflexivity ..].
  - exact Hinv.
Qed.

(** X4: whatever is called, and through the handlers of whichever
    renders, from the initial state: the warmup target is 3, the rep
    counts are not negative, every window holds at most three positions,
    the two cables' windows have equal length, and the published averages
    and ranges are exactly those of the current windows. *)
Theorem engine_invariant (cs : list (WorkoutState * Call)) :
  let s := fst (runOf cs initialState) in
  warmupTarget s = 3 /\
  0 <= warmupReps s /\
  0 <= workingReps s /\
  (length (topPositionsA s) <= 3)%nat /\
  (length (bottomPositionsA s) <= 3)%nat /\
  length (topPositionsB s) = length (topPositionsA s) /\
  length (bottomPositionsB s) = length (bottomPositionsA s) /\
  repRanges s = derivedRanges s.
Proof.
  assert (Hrun : forall cs s, programInv s -> programInv (fst (runOf cs s))).
  { clear cs. intros cs. induction cs as [|[c call] rest IH]; intros s Hinv.
    - exact Hinv.
    - rewrite runOf_cons. apply IH. apply programInv_callOf. exact Hinv. }
  exact (Hrun cs initialState programInv_initial).
Qed.

(** ** The position scale and the render *)

(** X8: every monitor sample is mirrored into the live stats and kept as
    the current sample, and the position scale is moved to 100 above the
    sample exactly when the sample is above the scale of the render that
    created the handler.  Through a handler of the current render the
    scale therefore only grows and covers both cable positions; through
    a handler of an older render with a lower scale it can shrink. *)
Theorem monitor_sample_updates_scale (c s : WorkoutState)
    (sample : MonitorSample) (now : Z) :
  let s' :=
    stateOf (handleMonitorSampleWith (appCallbacks c now) c sample now s) in
  let currentMax := Z.max (posA sample) (posB sample) in
  liveStats s' =
    LiveStats.mk (posA sample) (posB sample) (loadA sample) (loadB sample)
      (ticks sample) /\
  currentSampleRef s' = Some sample /\
  maxPos s' =
    (if maxPos c <? currentMax then currentMax + 100 else maxPos s) /\
  (maxPos c = maxPos s ->
   maxPos s <= maxPos s' /\
   posA sample <= maxPos s' /\ posB sample <= maxPos s') /\
  (maxPos c < currentMax < maxPos s - 100 -> maxPos s' < maxPos s).
Proof.
  pose proof (handleMonitorSampleWith_frame c s sample now) as H.
  cbv zeta in H |- *. destruct H as (Hs & Hl & Hm & _).
  split; [exact Hl|]. split; [exact Hs|]. split; [exact Hm|].
  rewrite Hm. split.
  - intros Heq. rewrite Heq.
    destruct (maxPos s <? Z.max (posA sample) (posB sample)) eqn:E;
      [apply Z.ltb_lt in E | apply Z.ltb_ge in E]; lia.
  - intros [Hlow Hhigh]. apply Z.ltb_lt in Hlow. rewrite Hlow. lia.
Qed.

(** Two samples through the handlers of a render whose scale was 1000:
    the first raises the scale to 5100, the second, lower one brings it
    down to 2100. *)
Example scale_through_stale_handler :
  let start := sessionAfterStart initialState "Old School" 10%Q 10 false 1000 in
  maxPos initialState = 1000 /\
  maxPos (fst (start [MonitorSampleArrives (scenarioSample 5000 5000) 1100]))
  = 5100 /\
  maxPos (fst (start [MonitorSampleArrives (scenarioSample 5000 5000) 1100;
                      MonitorSampleArrives (scenarioSample 2000 2000) 1200]))
  = 2100.
Proof. repeat split; reflexivity. Qed.

(** ** The handlers a Start click registers *)

(** A delivery through a handler whose render had no workout and was
    not in unlimited mode touches nothing but the sample, the live
    stats and the scale. *)
Lemma stale_delivery (c s : WorkoutState) (call : Call) :
  currentWorkout c = None ->
  isJustLiftMode c = false ->
  isDelivery call = true ->
  let s' := fst (callOf c call s) in
  let effs := snd (callOf c call s) in
  warmupReps s' = warmupReps s /\ workingReps s' = workingReps s /\
  topPositionsA s' = topPositionsA s /\
  bottomPositionsA s' = bottomPositionsA s /\
  topPositionsB s' = topPositionsB s /\
  bottomPositionsB s' = bottomPositionsB s /\
  lastTopCounter s' = lastTopCounter s /\
  lastRepCounter s' = lastRepCounter s /\
  repRanges s' = repRanges s /\
  autoStopStartTime s' = autoStopStartTime s /\
  autoStopProgress s' = autoStopProgress s /\
  currentWorkout s' = currentWorkout s /\
  workoutHistory s' = workoutHistory s /\
  List.filter isCallback effs = [] /\
  existsb isTopEvent effs = false /\
  existsb isBottomEvent effs = false.
Proof.
  intros Hw Hjl Hd.
  destruct call as [m wkg r jl now|sample now|data now|now| |value];
    try discriminate Hd; cbn [callOf].
  - pose proof (handleMonitorSampleWith_frame c s sample now) as H.
    cbv zeta in H |- *. cbn [fst snd].
    destruct H as (_ & _ & _ & Hcw & Hwu & Hwk & _ & _ & Hwh & _ & _ & Hrr
                   & Hta & Hba & Htb & Hbb & Hlt & Hlr & Hauto).
    destruct (Hauto Hjl) as (Hap & Hast & He).
    rewrite He. repeat split; assumption.
  - cbv zeta.
    assert (Hcases :
      handleRepNotificationWith (appCallbacks c now) c data now s
        = Normal (s, []) \/
      (exists top k smp,
         handleRepNotificationWith (appCallbacks c now) c data now s
         = Normal (s, [AddLog (MsgRepNotification top k smp) info])) \/
      (exists e, handleRepNotificationWith (appCallbacks c now) c data now s
                 = Throw e)).
    { destruct (Nat.lt_ge_cases (length data) 6) as [Hshort | Hlong].
      - left. apply handleRepNotificationWith_short. exact Hshort.
      - destruct (readU16Values data) as [vs|e] eqn:Hvs.
        + right. left. eexists. eexists. eexists.
          apply (handleRepNotificationWith_dropped _ c s data now vs);
            [exact Hlong | exact Hvs | right; exact Hw].
        + right. right. exists e. unfold handleRepNotificationWith.
          replace (length data <? 6)%nat with false
            by (symmetry; apply Nat.ltb_ge; lia).
          rewrite Hvs. reflexivity. }
    destruct Hcases as [-> | [(top & k & smp & ->) | [e ->]]]; cbn;
      repeat split; reflexivity.
Qed.

Lemma runOf_effects_cons (c : WorkoutState) (call : Call)
    (rest : list (WorkoutState * Call)) (s : WorkoutState) :
  snd (runOf ((c, call) :: rest) s)
  = snd (callOf c call s) ++ snd (runOf rest (fst (callOf c call s))).
Proof.
  cbn [runOf]. destruct (callOf c call s) as [s1 e1]. cbn [fst snd].
  destruct (runOf rest s1) as [s2 e2]. reflexivity.
Qed.

Lemma stale_deliveries (c : WorkoutState) (deliveries : list Call) :
  currentWorkout c = None ->
  isJustLiftMode c = false ->
  forallb isDelivery deliveries = true ->
  forall s : WorkoutState,
    let r := runOf (map (fun call => (c, call)) deliveries) s in
    warmupReps (fst r) = warmupReps s /\
    workingReps (fst r) = workingReps s /\
    topPositionsA (fst r) = topPositionsA s /\
    bottomPositionsA (fst r) = bottomPositionsA s /\
    topPositionsB (fst r) = topPositionsB s /\
    bottomPositionsB (fst r) = bottomPositionsB s /\
    lastTopCounter (fst r) = lastTopCounter s /\
    lastRepCounter (fst r) = lastRepCounter s /\
    repRanges (fst r) = repRanges s /\
    autoStopStartTime (fst r) = autoStopStartTime s /\
    autoStopProgress (fst r) = autoStopProgress s /\
    currentWorkout (fst r) = currentWorkout s /\
    workoutHistory (fst r) = workoutHistory s /\
    List.filter isCallback (snd r) = [] /\
    existsb isTopEvent (snd r) = false /\
    existsb isBottomEvent (snd r) = false.
Proof.
  intros Hw Hjl. induction deliveries as [|call rest IH]; intros Hd s.
  - cbn. repeat split; reflexivity.
  - cbn [forallb] in Hd. apply andb_true_iff in Hd as [Hcall Hrest].
    cbv zeta. cbn [map]. rewrite runOf_cons, runOf_effects_cons.
    pose proof (stale_delivery c s call Hw Hjl Hcall) as H1.
    cbv zeta in H1.
    specialize (IH Hrest (fst (callOf c call s))). cbv zeta in IH.
    destruct H1 as (A1 & A2 & A3 & A4 & A5 & A6 & A7 & A8 & A9 & A10 & A11
                    & A12 & A13 & A14 & A15 & A16).
    destruct IH as (B1 & B2 & B3 & B4 & B5 & B6 & B7 & B8 & B9 & B10 & B11
                    & B12 & B13 & B14 & B15 & B16).
    rewrite List.filter_app, !existsb_app, A14, A15, A16, B14, B15, B16.
    repeat split; try reflexivity; congruence.
Qed.

(** X22: the handlers that a Start click registers are those of the
    render in which the click was made, created before [startWorkout]
    took effect.  When that render had no workout, whatever monitor
    samples and rep notifications are delivered to them afterwards, no
    rep is counted, no window or counter is touched, the auto-stop timer
    is never started and no callback is called: the state stays as
    [startWorkout] left it, but for the sample, the live stats and the
    scale. *)
Theorem start_registers_stale_handlers (c : WorkoutState)
    (modeName : string) (weightKg : Q) (reps : Z) (isJustLift : bool)
    (now : Z) (deliveries : list Call) :
  currentWorkout c = None ->
  isJustLiftMode c = false ->
  forallb isDelivery deliveries = true ->
  let r :=
    sessionAfterStart c modeName weightKg reps isJustLift now deliveries in
  warmupReps (fst r) = 0 /\ workingReps (fst r) = 0 /\
  topPositionsA (fst r) = [] /\ bottomPositionsA (fst r) = [] /\
  topPositionsB (fst r) = [] /\ bottomPositionsB (fst r) = [] /\
  lastTopCounter (fst r) = None /\ lastRepCounter (fst r) = None /\
  repRanges (fst r) = emptyRanges /\
  autoStopStartTime (fst r) = None /\ autoStopProgress (fst r) = 0%Q /\
  currentWorkout (fst r) =
    Some (CurrentWorkout.mk modeName weightKg reps now None None) /\
  workoutHistory (fst r) = workoutHistory c /\
  List.filter isCallback (snd r) = [] /\
  existsb isTopEvent (snd r) = false /\
  existsb isBottomEvent (snd r) = false.
Proof.
  intros Hw Hjl Hd. unfold sessionAfterStart, handleStart.
  destruct c as [cw wu wk wt tr wh jl st ap mp ls rr ta ba tb bb lt lr ast cs].
  cbn [currentWorkout isJustLiftMode] in Hw, Hjl. subst cw jl.
  hook_eval.
  match goal with
  | |- context [runOf (map (fun call => (?cl, call)) deliveries) ?st] =>
      pose proof (stale_deliveries cl deliveries eq_refl eq_refl Hd st) as H
  end.
  cbv zeta in H. exact H.
Qed.

Lemma start_registers_stale_handlers_witness :
  let r :=
    sessionAfterStart initialState "Old School" 10%Q 10 false 1000
      (MonitorSampleArrives (scenarioSample 500 500) 1100
       :: [notification 1; notification 2; notification 3;
           notification 4]) in
  warmupReps (fst r) = 0 /\ workingReps (fst r) = 0 /\
  lastRepCounter (fst r) = None /\
  List.filter isCallback (snd r) = [].
Proof.
  pose proof (start_registers_stale_handlers initialState "Old School"
                10%Q 10 false 1000
                (MonitorSampleArrives (scenarioSample 500 500) 1100
                 :: [notification 1; notification 2; notification 3;
                     notification 4]) eq_refl eq_refl eq_refl) as H.
  cbv zeta in H |- *.
  destruct H as (H1 & H2 & _ & _ & _ & _ & _ & H8 & _ & _ & _ & _ & _ & H14
                 & _).
  split; [exact H1|]. split; [exact H2|]. split; [exact H8 | exact H14].
Defined.
